(** * ShadowWarp: the replay buffer, the capture supervisor and the extractor

    A shallow embedding of [src/main/index.ts] (the in-memory variant and
    the segment-file variant that precedes it) and of the oldest
    segment-file revision of the same file.

    Module-level [let] variables of the TypeScript file become the fields
    of a [State] record; every callback the program registers (IPC
    handlers, timers, stream and child-process listeners) becomes one
    function from the state to a completion, a new state and the list of
    calls made to the outside world (the effect trace).  Answers of the
    outside world (file-system results, clock readings, exit codes) are
    arguments of these functions. *)

From Stdlib Require Import ZArith List String Ascii Bool Lia DecimalString Sorted
  Permutation.
Import ListNotations.
Local Open Scope string_scope.
Local Open Scope list_scope.
Local Open Scope Z_scope.

(** String concatenation and comparison, kept apart from the list and
    integer notations. *)
Infix "+++" := String.append (right associativity, at level 60).
Notation "a ==? b" := (String.eqb a b) (at level 70).

(** ** JavaScript primitives used by the program *)

Module Js.

(** [String.prototype.includes] *)
Definition includes (needle hay : string) : bool :=
  match String.index 0 needle hay with Some _ => true | None => false end.

(** [String.prototype.endsWith] *)
Definition endsWith (suffix s : string) : bool :=
  let n := String.length s in
  let k := String.length suffix in
  (k <=? n)%nat && (substring (n - k) k s ==? suffix).

(** [Array.prototype.includes] on an array of strings *)
Definition arrayIncludes (x : string) (l : list string) : bool :=
  existsb (String.eqb x) l.

(** A number inside a template literal, for an integral number below
    2^53 in absolute value; beyond, the runtime prints the rounded double,
    in exponent form from 1e21 on. *)
Definition showZ (z : Z) : string := NilZero.string_of_int (Z.to_int z).

(** The result of [parseInt] is [None] for NaN. *)
Definition showNum (n : option Z) : string :=
  match n with Some z => showZ z | None => "NaN" end.

Definition isSpace (c : ascii) : bool :=
  let n := nat_of_ascii c in
  ((n =? 32) || (n =? 9) || (n =? 10) || (n =? 11) || (n =? 12) || (n =? 13))%nat.

Fixpoint skipSpace (s : string) : string :=
  match s with
  | String c r => if isSpace c then skipSpace r else s
  | EmptyString => s
  end.

Definition digitValue (radix : Z) (c : ascii) : option Z :=
  let n := Z.of_nat (nat_of_ascii c) in
  let v :=
    if (48 <=? n) && (n <=? 57) then Some (n - 48)
    else if (97 <=? n) && (n <=? 122) then Some (n - 87)
    else if (65 <=? n) && (n <=? 90) then Some (n - 55)
    else None in
  match v with
  | Some d => if d <? radix then Some d else None
  | None => None
  end.

(** The longest prefix of digits, read in [radix]; [acc] is [None] until a
    first digit was read. *)
Fixpoint readDigits (radix : Z) (s : string) (acc : option Z) : option Z :=
  match s with
  | EmptyString => acc
  | String c r =>
      match digitValue radix c with
      | Some d =>
          readDigits radix r
            (Some (match acc with Some a => a * radix + d | None => d end))
      | None => acc
      end
  end.

(** [parseInt(s)] with no radix argument: leading white space, an optional
    sign, an optional [0x] prefix, then digits.  The result is exact as
    long as it stays below 2^53, which covers every value the settings
    window can store; beyond, the runtime rounds to a double.  Of the
    white space the runtime skips, only the ASCII part is skipped
    here. *)
Definition parseInt (s : string) : option Z :=
  let s := skipSpace s in
  let '(neg, s) :=
    match s with
    | String "-" r => (true, r)
    | String "+" r => (false, r)
    | _ => (false, s)
    end in
  let '(radix, s) :=
    match s with
    | String "0" (String "x" r) => (16, r)
    | String "0" (String "X" r) => (16, r)
    | _ => (10, s)
    end in
  match readDigits radix s None with
  | Some n => Some (if neg then - n else n)
  | None => None
  end.

(** [parseInt(s) || dflt]: NaN and 0 are falsy. *)
Definition parseIntOr (s : string) (dflt : Z) : Z :=
  match parseInt s with
  | Some n => if n =? 0 then dflt else n
  | None => dflt
  end.

(** [a || b] on strings: the empty string is falsy. *)
Definition strOr (a b : string) : string := if a ==? "" then b else a.

(** [path.join] of a directory and a file name (Windows separator; the
    normalisation of dots and doubled separators is left out, so the
    result is the runtime's for a directory in normal form that does not
    end in a separator, and a plain file name). *)
Definition pathJoin (dir file : string) : string := dir +++ "\" +++ file.

Definition newline : string := String (ascii_of_nat 10) EmptyString.

End Js.

(** ** The persisted configuration *)

Record Config := mkConfig {
  fps : string;
  codec : string;
  bitrate : string;
  bufferTime : string;
  outputFolder : string;
  shortcut : string;
  autoStart : bool;
  autoRecord : bool;
  audioDevice : string;
  systemAudioDevice : string
}.

Definition defaultConfig : Config :=
  {| fps := "60"; codec := "h264_nvenc"; bitrate := "15";
     bufferTime := "300"; outputFolder := ""; shortcut := "Alt+F10";
     autoStart := false; autoRecord := true;
     audioDevice := "Default"; systemAudioDevice := "Default" |}.

Definition setAutoRecord (b : bool) (c : Config) : Config :=
  {| fps := fps c; codec := codec c; bitrate := bitrate c;
     bufferTime := bufferTime c; outputFolder := outputFolder c;
     shortcut := shortcut c; autoStart := autoStart c; autoRecord := b;
     audioDevice := audioDevice c;
     systemAudioDevice := systemAudioDevice c |}.

(** ** Pipeline arguments

    The code between [useSystemAudio = ...] and [spawn(ffmpeg, args, ...)]
    in the continuation of [fetchDevices()], as a function of the
    configuration and the detected devices.  The three revisions share the
    audio part and differ in the input options, the audio bitrate, the
    mixing filter and the output sink. *)

Module Planner.

Definition useSystemAudio (c : Config) : bool :=
  negb (systemAudioDevice c ==? "None").

(** [let mappedMic = config.audioDevice;
     if (mappedMic === 'Default') mappedMic = currentDevices[0] || 'None';] *)
Definition mappedMic (c : Config) (currentDevices : list string) : string :=
  if audioDevice c ==? "Default"
  then match currentDevices with
       | d :: _ => Js.strOr d "None"
       | [] => "None"
       end
  else audioDevice c.

(** [mappedMic && mappedMic !== 'None' && currentDevices.includes(mappedMic)] *)
Definition micUsable (c : Config) (currentDevices : list string) : bool :=
  let m := mappedMic c currentDevices in
  negb (m ==? "") && negb (m ==? "None") && Js.arrayIncludes m currentDevices.

Definition videoInputIndex (c : Config) : Z := if useSystemAudio c then 1 else 0.
Definition sysAudioInputIndex (c : Config) : Z := if useSystemAudio c then 0 else -1.
Definition micInputIndex (c : Config) : Z := if useSystemAudio c then 2 else 1.

Definition audioInputs (c : Config) (currentDevices : list string) : Z :=
  (if useSystemAudio c then 1 else 0)
  + (if micUsable c currentDevices then 1 else 0).

(** What differs between the revisions. *)
Record Flavour := {
  sysAudioInput : list string;       (* options of the [pipe:0] input *)
  videoInput : Config -> list string;
  micQueue : string;                 (* [-thread_queue_size] of the microphone *)
  singleAudio : list string;         (* codec options after a direct map *)
  mixFilter : string;                (* filter chain between the labels *)
  mixAudio : list string;            (* codec options after the mix *)
  sink : Config -> list string
}.

Definition presetOf (c : Config) : list string :=
  if Js.includes "nvenc" (codec c) then ["-preset"; "p5"]
  else ["-preset"; "ultrafast"].

Section Build.
Variable fl : Flavour.
Variable c : Config.
Variable currentDevices : list string.

Definition inputArgs : list string :=
  ["-y"]
  ++ (if useSystemAudio c then sysAudioInput fl else [])
  ++ videoInput fl c
  ++ (if micUsable c currentDevices
      then ["-thread_queue_size"; micQueue fl; "-f"; "dshow"; "-i";
            "audio=" +++ mappedMic c currentDevices]
      else []).

Definition videoMap : list string :=
  ["-map"; Js.showZ (videoInputIndex c) +++ ":v"].

Definition audioMap : list string :=
  let n := audioInputs c currentDevices in
  if (n =? 1) && useSystemAudio c then
    ["-map"; Js.showZ (sysAudioInputIndex c) +++ ":a"] ++ singleAudio fl
  else if (n =? 1) && negb (useSystemAudio c) then
    ["-map"; Js.showZ (micInputIndex c) +++ ":a"] ++ singleAudio fl
  else if n =? 2 then
    ["-filter_complex";
     "[" +++ Js.showZ (sysAudioInputIndex c) +++ ":a]["
         +++ Js.showZ (micInputIndex c) +++ ":a]" +++ mixFilter fl +++ "[aout]";
     "-map"; "[aout]"] ++ mixAudio fl
  else [].

Definition recordArgs : list string :=
  inputArgs ++ videoMap ++ audioMap ++ sink fl c.

End Build.

(** The in-memory revision: ddagrab capture, MPEG-TS on standard output. *)
Definition fpsNum (c : Config) : Z := Js.parseIntOr (fps c) 60.

Definition memory : Flavour :=
  {| sysAudioInput := ["-thread_queue_size"; "4096"; "-f"; "webm"; "-i"; "pipe:0"];
     videoInput := fun c =>
       ["-init_hw_device"; "d3d11va=dx11"; "-filter_hw_device"; "dx11";
        "-thread_queue_size"; "4096"; "-f"; "lavfi"; "-i";
        "ddagrab=framerate=" +++ Js.showZ (fpsNum c) +++ ":draw_mouse=1"];
     micQueue := "4096";
     singleAudio := ["-c:a"; "aac"; "-b:a"; "256k"];
     mixFilter := "amix=inputs=2:duration=longest";
     mixAudio := ["-c:a"; "aac"; "-b:a"; "256k"];
     sink := fun c =>
       ["-vf"; "hwdownload,format=bgra"; "-c:v"; codec c] ++ presetOf c
       ++ ["-b:v"; bitrate c +++ "M"; "-vsync"; "cfr";
           "-g"; Js.showZ (fpsNum c * 2);
           "-f"; "mpegts"; "-mpegts_flags"; "+resend_headers"; "pipe:1"] |}.

(** The segment-file revisions: gdigrab capture, one [.ts] file per
    [segmentTime] seconds under [tempDir]. *)
Definition segmented (tempDir segmentTime : string) : Flavour :=
  {| sysAudioInput :=
       ["-thread_queue_size"; "4096"; "-f"; "s16le"; "-ar"; "48000";
        "-ac"; "2"; "-i"; "pipe:0"];
     videoInput := fun c =>
       ["-thread_queue_size"; "1024"; "-f"; "gdigrab"; "-framerate"; fps c;
        "-draw_mouse"; "1"; "-i"; "desktop"];
     micQueue := "1024";
     singleAudio := ["-c:a"; "aac"; "-b:a"; "192k"; "-af"; "aresample=async=1"];
     mixFilter := "amix=inputs=2:duration=longest,aresample=async=1";
     mixAudio := ["-c:a"; "aac"; "-b:a"; "192k"];
     sink := fun c =>
       ["-vf"; "fps=" +++ fps c; "-c:v"; codec c] ++ presetOf c
       ++ ["-b:v"; bitrate c +++ "M"; "-f"; "segment";
           "-segment_time"; segmentTime; "-strftime"; "1";
           Js.pathJoin tempDir "buffer_%Y%m%d%H%M%S.ts"] |}.

Definition SEGMENT_DURATION : Z := 5.

Definition disk (tempDir : string) : Flavour :=
  segmented tempDir (Js.showZ SEGMENT_DURATION).

Definition legacy (tempDir : string) : Flavour := segmented tempDir "30".

(** Reading a command line back the way ffmpeg does: [-y] stands alone,
    every other option used here takes exactly one value, and a trailing
    token without a value is the output. *)
Fixpoint options (args : list string) : list (string * string) :=
  match args with
  | [] => []
  | o :: rest =>
      match rest with
      | [] => []
      | v :: rest' =>
          if o ==? "-y" then options rest else (o, v) :: options rest'
      end
  end.

Definition valuesOf (opt : string) (args : list string) : list string :=
  map snd (filter (fun p => fst p ==? opt) (options args)).

End Planner.


(** ** Calls to the outside world *)

Inductive Timer :=
| ForceKill        (* the 3000 ms timer armed by [stopRecording] *)
| Restart          (* the 3000 ms timer armed by the [save-config] handler *)
| CleanSegments.   (* the [cleanOldSegments] interval of the segment-file revision *)

Inductive Effect :=
| Log (text : string)                          (* console.log / warn / error *)
| Notify (body : string)                       (* new Notification({...}).show() *)
| Send (channel : string) (arg : option bool)  (* mainWindow.webContents.send *)
| FetchDevices                                 (* spawn of the device listing *)
| Spawn (pid : nat) (args : list string) (stdinPiped : bool)
| StdinWrite (pid : nat) (bytes : Z)
| StdinEnd (pid : nat)
| Kill (pid : nat) (signal : string)
| Mkdir (dir : string)
| Unlink (path : string)
| WriteFile (path : string) (lines : list string)
| WriteConfig (c : Config)                     (* writeFileSync(configPath, ...) *)
| CreateWriteStream (path : string)
| StreamWrite (path : string) (data : list Byte.byte)
| StreamEnd (path : string)
| SetTimeout (t : Timer) (ms : Z)
| SetInterval (t : Timer) (ms : Z)
| ClearInterval (t : Timer)
| SetLoginItemSettings (openAtLogin : bool).

(** Answers of the outside world during one callback.  An effect records
    that a call was made; whether it threw is the world's answer. *)
Record Env := {
  userData : string;                 (* app.getPath('userData') *)
  videos : string;                   (* app.getPath('videos') *)
  formatTime : string;               (* the ISO time stamp after the replaces *)
  windowLive : bool;                 (* mainWindow && !mainWindow.isDestroyed() *)
  existsSync : string -> bool;
  mkdirThrows : string -> bool;
  readdirSync : string -> option (list string);
  statSync : string -> option Z;     (* the size, or a throw *)
  unlinkThrows : string -> bool;
  writeThrows : string -> bool
}.

Definition tempDir (e : Env) : string := Js.pathJoin (userData e) "shadowarp_buffers".
Definition configPath (e : Env) : string := Js.pathJoin (userData e) "config.json".

(** ** Callbacks as state transformers that may throw *)

Inductive Completion (A : Type) :=
| Normal (a : A)
| Thrown (err : string).
Arguments Normal {A} a.
Arguments Thrown {A} err.

Definition M (S A : Type) : Type := S -> Completion A * S * list Effect.

Definition ret {S A} (a : A) : M S A := fun s => (Normal a, s, []).

Definition bind {S A B} (m : M S A) (k : A -> M S B) : M S B :=
  fun s =>
    match m s with
    | (Normal a, s1, es1) =>
        match k a s1 with (r, s2, es2) => (r, s2, es1 ++ es2) end
    | (Thrown err, s1, es1) => (Thrown err, s1, es1)
    end.

Definition get {S} : M S S := fun s => (Normal s, s, []).
Definition modify {S} (f : S -> S) : M S unit := fun s => (Normal tt, f s, []).
Definition emit {S} (x : Effect) : M S unit := fun s => (Normal tt, s, [x]).
Definition emitAll {S} (xs : list Effect) : M S unit := fun s => (Normal tt, s, xs).
Definition throw {S A} (err : string) : M S A := fun s => (Thrown err, s, []).

(** [try { m } catch (e) { h e }] *)
Definition tryCatch {S A} (m : M S A) (h : string -> M S A) : M S A :=
  fun s =>
    match m s with
    | (Normal a, s1, es1) => (Normal a, s1, es1)
    | (Thrown err, s1, es1) =>
        match h err s1 with (r, s2, es2) => (r, s2, es1 ++ es2) end
    end.

Definition when {S} (b : bool) (m : M S unit) : M S unit :=
  if b then m else ret tt.

Notation "x <- m ;; k" := (bind m (fun x => k))
  (at level 100, m at next level, right associativity).
Notation "m ;; k" := (bind m (fun _ => k))
  (at level 100, right associativity).

Definition stateOf {S A} (r : Completion A * S * list Effect) : S := snd (fst r).
Definition effectsOf {S A} (r : Completion A * S * list Effect) : list Effect := snd r.
Definition completionOf {S A} (r : Completion A * S * list Effect) : Completion A :=
  fst (fst r).

(** ** Module state *)

Record Proc := { pid : nat; stdinPiped : bool }.

Record Chunk := { time : Z; chunk : list Byte.byte }.

Definition chunkLength (c : Chunk) : Z := Z.of_nat (List.length (chunk c)).

(** The [let] variables of [index.ts].  [recordingStartTime],
    [videoBuffer] and [totalBytes] exist in the in-memory revision only,
    [cleanupInterval] in the segment-file revisions only; each revision's
    callbacks touch their own. *)
Record State := {
  isRecording : bool;
  recordProcess : option Proc;
  useSystemAudio : bool;
  config : Config;
  isSavingReplay : bool;
  recordingStartTime : Z;
  videoBuffer : list Chunk;
  totalBytes : Z;
  cleanupInterval : bool
}.

Definition initialState (c : Config) : State :=
  {| isRecording := false; recordProcess := None; useSystemAudio := false;
     config := c; isSavingReplay := false; recordingStartTime := 0;
     videoBuffer := []; totalBytes := 0; cleanupInterval := false |}.

Definition setIsRecording (b : bool) (s : State) : State :=
  {| isRecording := b; recordProcess := recordProcess s;
     useSystemAudio := useSystemAudio s; config := config s;
     isSavingReplay := isSavingReplay s;
     recordingStartTime := recordingStartTime s;
     videoBuffer := videoBuffer s; totalBytes := totalBytes s;
     cleanupInterval := cleanupInterval s |}.

Definition setRecordProcess (p : option Proc) (s : State) : State :=
  {| isRecording := isRecording s; recordProcess := p;
     useSystemAudio := useSystemAudio s; config := config s;
     isSavingReplay := isSavingReplay s;
     recordingStartTime := recordingStartTime s;
     videoBuffer := videoBuffer s; totalBytes := totalBytes s;
     cleanupInterval := cleanupInterval s |}.

Definition setUseSystemAudio (b : bool) (s : State) : State :=
  {| isRecording := isRecording s; recordProcess := recordProcess s;
     useSystemAudio := b; config := config s;
     isSavingReplay := isSavingReplay s;
     recordingStartTime := recordingStartTime s;
     videoBuffer := videoBuffer s; totalBytes := totalBytes s;
     cleanupInterval := cleanupInterval s |}.

Definition setConfig (c : Config) (s : State) : State :=
  {| isRecording := isRecording s; recordProcess := recordProcess s;
     useSystemAudio := useSystemAudio s; config := c;
     isSavingReplay := isSavingReplay s;
     recordingStartTime := recordingStartTime s;
     videoBuffer := videoBuffer s; totalBytes := totalBytes s;
     cleanupInterval := cleanupInterval s |}.

Definition setIsSavingReplay (b : bool) (s : State) : State :=
  {| isRecording := isRecording s; recordProcess := recordProcess s;
     useSystemAudio := useSystemAudio s; config := config s;
     isSavingReplay := b;
     recordingStartTime := recordingStartTime s;
     videoBuffer := videoBuffer s; totalBytes := totalBytes s;
     cleanupInterval := cleanupInterval s |}.

Definition setRecordingStartTime (t : Z) (s : State) : State :=
  {| isRecording := isRecording s; recordProcess := recordProcess s;
     useSystemAudio := useSystemAudio s; config := config s;
     isSavingReplay := isSavingReplay s;
     recordingStartTime := t;
     videoBuffer := videoBuffer s; totalBytes := totalBytes s;
     cleanupInterval := cleanupInterval s |}.

Definition setBuffer (b : list Chunk) (n : Z) (s : State) : State :=
  {| isRecording := isRecording s; recordProcess := recordProcess s;
     useSystemAudio := useSystemAudio s; config := config s;
     isSavingReplay := isSavingReplay s;
     recordingStartTime := recordingStartTime s;
     videoBuffer := b; totalBytes := n;
     cleanupInterval := cleanupInterval s |}.

Definition setCleanupInterval (b : bool) (s : State) : State :=
  {| isRecording := isRecording s; recordProcess := recordProcess s;
     useSystemAudio := useSystemAudio s; config := config s;
     isSavingReplay := isSavingReplay s;
     recordingStartTime := recordingStartTime s;
     videoBuffer := videoBuffer s; totalBytes := totalBytes s;
     cleanupInterval := b |}.

(** ** Code shared by the revisions *)

Module Common.

(** [if (!fs.existsSync(dir)) fs.mkdirSync(dir, { recursive: true })] *)
Definition ensureDir (e : Env) (dir : string) : M State unit :=
  if existsSync e dir then ret tt
  else
    emit (Mkdir dir) ;;
    if mkdirThrows e dir then throw "mkdirSync" else ret tt.

(** [try { fs.writeFileSync(configPath, JSON.stringify(config, null, 2)) }
     catch (e) { console.error(...) }] *)
Definition saveConfigToDisk (e : Env) : M State unit :=
  s <- get ;;
  emit (WriteConfig (config s)) ;;
  when (writeThrows e (configPath e)) (emit (Log "Failed to save config:")).

(** The listener of the recording process's [exit] event. *)
Definition onRecordExit (e : Env) (code : option Z) : M State unit :=
  emit (Log "FFmpeg exited with code:") ;;
  modify (setIsRecording false) ;;
  modify (setUseSystemAudio false) ;;
  when (windowLive e)
    (emit (Send "recording-state" (Some false)) ;;
     emit (Send "stop-system-audio" None)).

(** The callback of the timer armed by [stopRecording]. *)
Definition onForceKill : M State unit :=
  s <- get ;;
  match recordProcess s with
  | Some p => emit (Kill (pid p) "SIGKILL")
  | None => ret tt
  end ;;
  modify (setRecordProcess None).

(** [stopRecording]; only the segment-file revisions clear the sweep
    interval. *)
Definition stopRecording (clearsInterval : bool) (e : Env) : M State unit :=
  s <- get ;;
  if negb (isRecording s) then ret tt else
  when (windowLive e) (emit (Send "stop-system-audio" None)) ;;
  match recordProcess s with
  | Some p =>
      when (stdinPiped p) (emit (StdinEnd (pid p))) ;;
      emit (Kill (pid p) "SIGINT") ;;
      when (clearsInterval && cleanupInterval s)
        (emit (ClearInterval CleanSegments)) ;;
      emit (SetTimeout ForceKill 3000)
  | None => ret tt
  end ;;
  modify (setIsRecording false) ;;
  modify (setUseSystemAudio false) ;;
  modify (fun s => setConfig (setAutoRecord false (config s)) s) ;;
  saveConfigToDisk e ;;
  when (windowLive e) (emit (Send "recording-state" (Some false))).

(** The object received by the [save-config] handler: a field is [None]
    when the object has no such property. *)
Record PartialConfig := {
  p_fps : option string;
  p_codec : option string;
  p_bitrate : option string;
  p_bufferTime : option string;
  p_outputFolder : option string;
  p_shortcut : option string;
  p_autoStart : option bool;
  p_autoRecord : option bool;
  p_audioDevice : option string;
  p_systemAudioDevice : option string
}.

Definition orElse {A} (o : option A) (d : A) : A :=
  match o with Some a => a | None => d end.

(** [Object.assign(config, newConfig)] *)
Definition assign (c : Config) (n : PartialConfig) : Config :=
  {| fps := orElse (p_fps n) (fps c);
     codec := orElse (p_codec n) (codec c);
     bitrate := orElse (p_bitrate n) (bitrate c);
     bufferTime := orElse (p_bufferTime n) (bufferTime c);
     outputFolder := orElse (p_outputFolder n) (outputFolder c);
     shortcut := orElse (p_shortcut n) (shortcut c);
     autoStart := orElse (p_autoStart n) (autoStart c);
     autoRecord := orElse (p_autoRecord n) (autoRecord c);
     audioDevice := orElse (p_audioDevice n) (audioDevice c);
     systemAudioDevice := orElse (p_systemAudioDevice n) (systemAudioDevice c) |}.

(** The object the settings window sends: every property present. *)
Definition full (c : Config) : PartialConfig :=
  {| p_fps := Some (fps c); p_codec := Some (codec c);
     p_bitrate := Some (bitrate c); p_bufferTime := Some (bufferTime c);
     p_outputFolder := Some (outputFolder c); p_shortcut := Some (shortcut c);
     p_autoStart := Some (autoStart c); p_autoRecord := Some (autoRecord c);
     p_audioDevice := Some (audioDevice c);
     p_systemAudioDevice := Some (systemAudioDevice c) |}.

(** [a !== b] between a string of the configuration and a property that
    may be undefined. *)
Definition differs (a : string) (b : option string) : bool :=
  match b with Some b' => negb (a ==? b') | None => true end.

(** The [save-config] handler.  [stop] is the revision's [stopRecording]. *)
Definition saveConfig (stop : Env -> M State unit) (e : Env)
    (newConfig : PartialConfig) : M State unit :=
  s0 <- get ;;
  let oldAutoStart := autoStart (config s0) in
  modify (fun s => setConfig (assign (config s) newConfig) s) ;;
  s <- get ;;
  when (negb (Bool.eqb (autoStart (config s)) oldAutoStart))
    (emit (SetLoginItemSettings (autoStart (config s)))) ;;
  when ((differs (audioDevice (config s)) (p_audioDevice newConfig)
         || differs (systemAudioDevice (config s)) (p_systemAudioDevice newConfig))
        && isRecording s)
    (stop e ;; emit (SetTimeout Restart 3000)) ;;
  saveConfigToDisk e.

(** An exit code is [null] when the process was ended by a signal. *)
Definition showCode (code : option Z) : string :=
  match code with Some c => Js.showZ c | None => "null" end.

Definition isZero (code : option Z) : bool :=
  match code with Some c => c =? 0 | None => false end.

(** The body of the notification of a saved replay. *)
Definition savedBody : string :=
  "Replay saved!" +++ Js.newline +++ "Click to view in folder.".

(** The configuration at launch: the defaults overwritten by the parsed
    file, when the file exists and parses. *)
Definition loadConfig (file : option PartialConfig) : Config :=
  match file with
  | Some p => assign defaultConfig p
  | None => defaultConfig
  end.

(** The tail of [app.whenReady().then(...)]; [start] is the revision's
    [startRecording]. *)
Definition whenReady (start : Env -> M State unit) (e : Env) : M State unit :=
  s <- get ;;
  emit (SetLoginItemSettings (autoStart (config s))) ;;
  when (autoRecord (config s)) (start e).

End Common.

(** ** The in-memory revision *)

Module Mem.

(** [startRecording], up to the call of [fetchDevices()]. *)
Fixpoint unlinkEach (e : Env) (files : list string) : M State unit :=
  match files with
  | [] => ret tt
  | f :: rest =>
      let p := Js.pathJoin (tempDir e) f in
      emit (Unlink p) ;;
      if unlinkThrows e p then throw "unlinkSync" else unlinkEach e rest
  end.

Definition startRecording (e : Env) : M State unit :=
  s <- get ;;
  if isRecording s then ret tt else
  Common.ensureDir e (tempDir e) ;;
  tryCatch
    (if existsSync e (tempDir e) then
       match readdirSync e (tempDir e) with
       | Some files => unlinkEach e files
       | None => throw "readdirSync"
       end
     else ret tt)
    (fun _ => ret tt) ;;
  emit FetchDevices.

(** The continuation of [fetchDevices()]: [currentDevices] is the parsed
    device list, [newPid] the process the spawn creates and [now] the
    reading of [Date.now()]. *)
Definition startRecording_then (e : Env) (currentDevices : list string)
    (newPid : nat) (now : Z) : M State unit :=
  s <- get ;;
  let usa := Planner.useSystemAudio (config s) in
  modify (setUseSystemAudio usa) ;;
  let args := Planner.recordArgs Planner.memory (config s) currentDevices in
  emit (Log "Spawning ffmpeg with: ") ;;
  modify (setRecordingStartTime now) ;;
  emit (Spawn newPid args usa) ;;
  modify (setRecordProcess (Some {| pid := newPid; stdinPiped := usa |})) ;;
  modify (setBuffer [] 0) ;;
  modify (setIsRecording true) ;;
  modify (fun s => setConfig (setAutoRecord true (config s)) s) ;;
  Common.saveConfigToDisk e ;;
  when (windowLive e)
    (emit (Send "recording-state" (Some true)) ;;
     when usa (emit (Send "start-system-audio" None))).

(** [2.5 * 1024 * 1024 * 1024] *)
Definition hardLimit : Z := 2684354560.

Definition margin : Z := 15.

(** The [while] loop of the [data] listener; it removes from the front,
    so it recurses on the buffer. *)
Fixpoint evict (cutoff : Z) (buf : list Chunk) (total : Z) : list Chunk * Z :=
  match buf with
  | [] => (buf, total)
  | c :: rest =>
      if (2 <? Z.of_nat (List.length buf))
         && ((time c <? cutoff) || (hardLimit <? total))
      then evict cutoff rest (total - chunkLength c)
      else (buf, total)
  end.

Definition bufferSecsOf (c : Config) : Z := Js.parseIntOr (bufferTime c) 300.

Definition cutoffAt (c : Config) (now : Z) : Z :=
  now - (bufferSecsOf c + margin) * 1000.

(** The listener of [recordProcess.stdout]'s [data] event; [tPush] and
    [tNow] are its two readings of [Date.now()]. *)
Definition onData (data : list Byte.byte) (tPush tNow : Z) : M State unit :=
  modify (fun s =>
    setBuffer (videoBuffer s ++ [{| time := tPush; chunk := data |}])
              (totalBytes s + Z.of_nat (List.length data)) s) ;;
  s <- get ;;
  let r := evict (cutoffAt (config s) tNow) (videoBuffer s) (totalBytes s) in
  modify (setBuffer (fst r) (snd r)).

Definition stopRecording : Env -> M State unit := Common.stopRecording false.

(** What the callbacks created by one [saveReplay] call close over;
    [pending] is [chunksCopy] from index [i] on. *)
Record Job := {
  bufferSecs : option Z;
  outputFile : string;
  tempDump : string;
  pending : list (list Byte.byte)
}.

(** The [while] loop of [writeNext]: [answers] are the results of
    [writeStream.write], in order. *)
Fixpoint writeWhile (path : string) (chunks : list (list Byte.byte))
    (answers : list bool) : list (list Byte.byte) * list Effect :=
  match chunks with
  | [] => ([], [])
  | ch :: rest =>
      match answers with
      | false :: _ => (rest, [StreamWrite path ch])
      | true :: answers' =>
          let r := writeWhile path rest answers' in
          (fst r, StreamWrite path ch :: snd r)
      | [] =>
          let r := writeWhile path rest [] in
          (fst r, StreamWrite path ch :: snd r)
      end
  end.

Definition withPending (j : Job) (p : list (list Byte.byte)) : Job :=
  {| bufferSecs := bufferSecs j; outputFile := outputFile j;
     tempDump := tempDump j; pending := p |}.

(** [writeNext]; also the listener of the stream's [drain] event. *)
Definition writeNext (j : Job) (answers : list bool) : M State Job :=
  let r := writeWhile (tempDump j) (pending j) answers in
  emitAll (snd r) ;;
  match fst r with
  | [] => emit (StreamEnd (tempDump j)) ;; ret (withPending j [])
  | p => ret (withPending j p)
  end.

(** [saveReplay]: [now] is the reading of [Date.now()] that names the
    dump.  The result is the job it started, if any. *)
Definition saveReplay (e : Env) (now : Z) (answers : list bool)
    : M State (option Job) :=
  s <- get ;;
  if negb (isRecording s) then ret None else
  if isSavingReplay s then
    emit (Log "Save already in progress, ignoring duplicate request.") ;;
    ret None
  else
  match videoBuffer s with
  | [] => emit (Notify "No video buffered yet.") ;; ret None
  | _ =>
  if totalBytes s <? 1024 then
    emit (Notify "Not enough video buffered yet.") ;; ret None
  else
  let secs := Js.parseInt (bufferTime (config s)) in
  modify (setIsSavingReplay true) ;;
  let folder := Js.strOr (outputFolder (config s)) (videos e) in
  Common.ensureDir e folder ;;
  let out :=
    Js.pathJoin folder ("ShadowWarp_Replay_" +++ formatTime e +++ ".mp4") in
  emit (Log ("Saving replay: extracting exact " +++ Js.showNum secs
             +++ "s from memory buffer")) ;;
  let dump := Js.pathJoin (tempDir e) ("dump_" +++ Js.showZ now +++ ".ts") in
  let j := {| bufferSecs := secs; outputFile := out; tempDump := dump;
              pending := map chunk (videoBuffer s) |} in
  emit (CreateWriteStream dump) ;;
  j' <- writeNext j answers ;;
  ret (Some j')
  end.

Definition extractArgs (j : Job) : list string :=
  ["-y"; "-sseof"; "-" +++ Js.showNum (bufferSecs j); "-i"; tempDump j;
   "-c"; "copy"; "-movflags"; "+faststart"; outputFile j].

(** The listener of the stream's [finish] event. *)
Definition onFinish (j : Job) (newPid : nat) : M State unit :=
  emit (Spawn newPid (extractArgs j) true).

(** [try { if (fs.existsSync(p)) fs.unlinkSync(p) } catch (e) { }] *)
Definition unlinkIfExists (e : Env) (p : string) : M State unit :=
  when (existsSync e p) (emit (Unlink p)).

(** The listener of the extract process's [error] event. *)
Definition onExtractError (e : Env) (j : Job) (message : string) : M State unit :=
  emit (Log "Extract process error:") ;;
  modify (setIsSavingReplay false) ;;
  unlinkIfExists e (tempDump j) ;;
  emit (Notify ("Failed to save replay: " +++ message)).

(** The listener of the extract process's [exit] event. *)
Definition onExtractExit (e : Env) (j : Job) (code : option Z) : M State unit :=
  modify (setIsSavingReplay false) ;;
  unlinkIfExists e (tempDump j) ;;
  if Common.isZero code then emit (Notify Common.savedBody)
  else
    emit (Log "Extract failed") ;;
    emit (Notify ("Failed to save replay. Code: " +++ Common.showCode code)).

Definition saveConfig : Env -> Common.PartialConfig -> M State unit :=
  Common.saveConfig stopRecording.

Definition whenReady : Env -> M State unit := Common.whenReady startRecording.

(** Everything that can run a callback of this revision. *)
Inductive Event :=
| StartRecording
| DevicesFetched (currentDevices : list string) (newPid : nat) (now : Z)
| Data (data : list Byte.byte) (tPush tNow : Z)
| RecordExit (code : option Z)
| StopRecording
| ForceKillFired
| SaveReplay (now : Z) (answers : list bool)
| Drain (j : Job) (answers : list bool)
| Finish (j : Job) (newPid : nat)
| ExtractError (j : Job) (message : string)
| ExtractExit (j : Job) (code : option Z)
| SaveConfig (newConfig : Common.PartialConfig).

Definition void {A} (m : M State A) : M State unit := m ;; ret tt.

Definition handle (e : Env) (ev : Event) : M State unit :=
  match ev with
  | StartRecording => startRecording e
  | DevicesFetched d p t => startRecording_then e d p t
  | Data d t1 t2 => onData d t1 t2
  | RecordExit code => Common.onRecordExit e code
  | StopRecording => stopRecording e
  | ForceKillFired => Common.onForceKill
  | SaveReplay now answers => void (saveReplay e now answers)
  | Drain j answers => void (writeNext j answers)
  | Finish j p => onFinish j p
  | ExtractError j m => onExtractError e j m
  | ExtractExit j code => onExtractExit e j code
  | SaveConfig n => saveConfig e n
  end.

(** A run: each event with the world's answers during its callback.  An
    uncaught exception ends the callback; the state it left stays. *)
Fixpoint run (evs : list (Env * Event)) (s : State) : State :=
  match evs with
  | [] => s
  | (e, ev) :: rest => run rest (stateOf (handle e ev s))
  end.

End Mem.

(** ** The segment-file revision *)

Module Disk.

(** [try { fs.unlinkSync(p) } catch { }] *)
Definition unlinkQuiet (e : Env) (p : string) : M State unit :=
  emit (Unlink p).

Fixpoint unlinkAll (e : Env) (files : list string) : M State unit :=
  match files with
  | [] => ret tt
  | f :: rest => unlinkQuiet e (Js.pathJoin (tempDir e) f) ;; unlinkAll e rest
  end.

(** [startRecording], up to the call of [fetchDevices()]. *)
Definition startRecording (e : Env) : M State unit :=
  s <- get ;;
  if isRecording s then ret tt else
  Common.ensureDir e (tempDir e) ;;
  match readdirSync e (tempDir e) with
  | Some files => unlinkAll e files
  | None => throw "readdirSync"
  end ;;
  emit FetchDevices.

(** The continuation of [fetchDevices()]. *)
Definition startRecording_then (e : Env) (currentDevices : list string)
    (newPid : nat) : M State unit :=
  s <- get ;;
  let usa := Planner.useSystemAudio (config s) in
  modify (setUseSystemAudio usa) ;;
  let args :=
    Planner.recordArgs (Planner.disk (tempDir e)) (config s) currentDevices in
  emit (Log "Spawning ffmpeg with: ") ;;
  emit (Spawn newPid args usa) ;;
  modify (setRecordProcess (Some {| pid := newPid; stdinPiped := usa |})) ;;
  when usa (emit (StdinWrite newPid 192000)) ;;
  modify (setIsRecording true) ;;
  modify (fun s => setConfig (setAutoRecord true (config s)) s) ;;
  Common.saveConfigToDisk e ;;
  when (windowLive e)
    (emit (Send "recording-state" (Some true)) ;;
     when usa (emit (Send "start-system-audio" None))) ;;
  emit (SetInterval CleanSegments 15000) ;;
  modify (setCleanupInterval true).

Definition stopRecording : Env -> M State unit := Common.stopRecording true.

(** [Array.prototype.sort] with the default order, on file names. *)
Fixpoint insertSorted (x : string) (l : list string) : list string :=
  match l with
  | [] => [x]
  | y :: r => if String.leb x y then x :: l else y :: insertSorted x r
  end.

Definition sort (l : list string) : list string :=
  fold_right insertSorted [] l.

Record Segment := { filePath : string; size : Z }.

(** [.map(f => { try { stat } catch { return null } })
     .filter(entry => entry !== null && entry.size > 0)] *)
Fixpoint statAll (e : Env) (names : list string) : list Segment :=
  match names with
  | [] => []
  | f :: rest =>
      let p := Js.pathJoin (tempDir e) f in
      match statSync e p with
      | Some n =>
          if 0 <? n then {| filePath := p; size := n |} :: statAll e rest
          else statAll e rest
      | None => statAll e rest
      end
  end.

(** [Math.ceil(a / b)] for a positive [b]. *)
Definition ceilDiv (a b : Z) : Z := - ((- a) / b).

(** [l.slice(start)] *)
Definition slice {A} (start : Z) (l : list A) : list A :=
  let len := Z.of_nat (List.length l) in
  let k := if start <? 0 then Z.max (len + start) 0 else Z.min start len in
  skipn (Z.to_nat k) l.

(** [allFiles.slice(-segmentsNeeded)]; a NaN bound selects everything. *)
Definition selectFiles (secs : option Z) (allFiles : list Segment) : list Segment :=
  match secs with
  | Some b => slice (- (ceilDiv b Planner.SEGMENT_DURATION + 2)) allFiles
  | None => allFiles
  end.

(** [p.replace(/\\/g, '/')] *)
Fixpoint slashes (p : string) : string :=
  match p with
  | EmptyString => EmptyString
  | String c r =>
      String (if (nat_of_ascii c =? 92)%nat then "/"%char else c) (slashes r)
  end.

Definition concatLine (f : Segment) : string :=
  "file '" +++ slashes (filePath f) +++ "'".

Record Job := {
  bufferSecs : option Z;
  outputFile : string;
  tempConcatFile : string
}.

Definition concatArgs (listPath : string) (j : Job) : list string :=
  ["-y"; "-fflags"; "+genpts+igndts"; "-f"; "concat"; "-safe"; "0";
   "-i"; listPath; "-c"; "copy"; tempConcatFile j].

Definition trimArgs (j : Job) : list string :=
  ["-y"; "-sseof"; "-" +++ Js.showNum (bufferSecs j); "-i"; tempConcatFile j;
   "-c"; "copy"; outputFile j].

(** [saveReplay]: [now] names the intermediate file, [newPid] is the
    concat process. *)
Definition saveReplay (e : Env) (now : Z) (newPid : nat) : M State (option Job) :=
  s <- get ;;
  if negb (isRecording s) then ret None else
  if isSavingReplay s then
    emit (Log "Save already in progress, ignoring duplicate request.") ;;
    ret None
  else
  let secs := Js.parseInt (bufferTime (config s)) in
  match readdirSync e (tempDir e) with
  | None => throw "readdirSync"
  | Some names =>
  let allFiles := statAll e (sort (filter (Js.endsWith ".ts") names)) in
  match allFiles with
  | [] => emit (Notify "No video buffered yet.") ;; ret None
  | _ =>
  let selectedFiles := selectFiles secs allFiles in
  modify (setIsSavingReplay true) ;;
  let concatListPath := Js.pathJoin (tempDir e) "concat.txt" in
  emit (WriteFile concatListPath (map concatLine selectedFiles)) ;;
  (if writeThrows e concatListPath then throw "writeFileSync" else ret tt) ;;
  let folder := Js.strOr (outputFolder (config s)) (videos e) in
  Common.ensureDir e folder ;;
  let j :=
    {| bufferSecs := secs;
       outputFile :=
         Js.pathJoin folder ("ShadowWarp_Replay_" +++ formatTime e +++ ".mp4");
       tempConcatFile :=
         Js.pathJoin (tempDir e) ("temp_concat_" +++ Js.showZ now +++ ".mp4") |} in
  emit (Log ("Saving replay: "
             +++ Js.showZ (Z.of_nat (List.length selectedFiles))
             +++ " segments (of " +++ Js.showZ (Z.of_nat (List.length allFiles))
             +++ " total), target=" +++ Js.showNum secs +++ "s")) ;;
  emit (Spawn newPid (concatArgs concatListPath j) true) ;;
  ret (Some j)
  end
  end.

(** The listener of the concat process's [error] event. *)
Definition onConcatError (j : Job) (message : string) : M State unit :=
  emit (Log "Concat process error:") ;;
  modify (setIsSavingReplay false) ;;
  emit (Notify ("Failed to save replay: " +++ message)).

(** The listener of the concat process's [exit] event; [newPid] is the
    trim process it may spawn. *)
Definition onConcatExit (e : Env) (j : Job) (concatCode : option Z)
    (newPid : nat) : M State unit :=
  if negb (Common.isZero concatCode) then
    modify (setIsSavingReplay false) ;;
    emit (Log "Concat failed") ;;
    emit (Notify ("Failed to save replay. Code: " +++ Common.showCode concatCode)) ;;
    unlinkQuiet e (tempConcatFile j)
  else
    emit (Log "Pass 1 done (concat). Starting pass 2 (trim)...") ;;
    emit (Spawn newPid (trimArgs j) true).

(** The listener of the trim process's [error] event. *)
Definition onTrimError (e : Env) (j : Job) (message : string) : M State unit :=
  emit (Log "Trim process error:") ;;
  modify (setIsSavingReplay false) ;;
  unlinkQuiet e (tempConcatFile j) ;;
  emit (Notify ("Failed to trim replay: " +++ message)).

(** The listener of the trim process's [exit] event. *)
Definition onTrimExit (e : Env) (j : Job) (trimCode : option Z) : M State unit :=
  unlinkQuiet e (tempConcatFile j) ;;
  modify (setIsSavingReplay false) ;;
  if Common.isZero trimCode then
    match statSync e (outputFile j) with
    | Some n =>
        if n <? 1024 then
          emit (Log "Output file is too small, likely corrupt") ;;
          emit (Notify "Replay save failed: output file is empty.") ;;
          unlinkQuiet e (outputFile j)
        else emit (Notify Common.savedBody)
    | None => emit (Notify "Replay save failed: output file missing.")
    end
  else
    emit (Log "Trim failed") ;;
    emit (Notify ("Failed to save replay. Code: " +++ Common.showCode trimCode)).

Definition saveConfig : Env -> Common.PartialConfig -> M State unit :=
  Common.saveConfig stopRecording.

Definition whenReady : Env -> M State unit := Common.whenReady startRecording.

End Disk.

(** The three revisions of the argument construction. *)
Inductive Revision := InMemory | Segmented | Oldest.

Definition flavourOf (r : Revision) (dir : string) : Planner.Flavour :=
  match r with
  | InMemory => Planner.memory
  | Segmented => Planner.disk dir
  | Oldest => Planner.legacy dir
  end.

(** The capture source named after [-i] in the video input. *)
Definition videoSource (r : Revision) (c : Config) : string :=
  match r with
  | InMemory =>
      "ddagrab=framerate=" +++ Js.showZ (Planner.fpsNum c) +++ ":draw_mouse=1"
  | _ => "desktop"
  end.

(** * Notions used in the statements *)

(** A callback keeps a property of the state, however it ends. *)
Definition preserves (P : State -> Prop) {A} (m : M State A) : Prop :=
  forall s, P s -> P (stateOf (m s)).

Definition sumLengths (buf : list Chunk) : Z :=
  fold_right (fun c acc => chunkLength c + acc) 0 buf.

(** A callback that leaves [videoBuffer] and [totalBytes] alone. *)
Definition sameBuffer (b : list Chunk) (n : Z) (s : State) : Prop :=
  videoBuffer s = b /\ totalBytes s = n.

(** What an event does to the buffer: an append followed by the eviction
    loop, a reset, or nothing. *)
Definition bufferAfter (ev : Mem.Event) (s : State) : list Chunk * Z :=
  match ev with
  | Mem.Data d tPush tNow =>
      Mem.evict (Mem.cutoffAt (config s) tNow)
        (videoBuffer s ++ [{| time := tPush; chunk := d |}])
        (totalBytes s + Z.of_nat (List.length d))
  | Mem.DevicesFetched _ _ _ => ([], 0)
  | _ => (videoBuffer s, totalBytes s)
  end.

(** The loop test, as the source writes it. *)
Definition evictTest (cutoff : Z) (buf : list Chunk) (total : Z) : bool :=
  match buf with
  | [] => false
  | c :: _ =>
      (2 <? Z.of_nat (List.length buf))
      && ((time c <? cutoff) || (Mem.hardLimit <? total))
  end.

(** The eviction as the specification words it: remove the oldest chunk
    while more than two chunks are held and the oldest is past the cutoff
    or the byte count is above the cap. *)
Inductive Evicts (cutoff : Z) : list Chunk -> Z -> list Chunk -> Z -> Prop :=
| Evicts_done buf total :
    ((List.length buf <= 2)%nat
     \/ exists c rest, buf = c :: rest /\ cutoff <= time c /\ total <= Mem.hardLimit) ->
    Evicts cutoff buf total buf total
| Evicts_remove c rest total buf' total' :
    (2 < List.length (c :: rest))%nat ->
    (time c < cutoff \/ Mem.hardLimit < total) ->
    Evicts cutoff rest (total - chunkLength c) buf' total' ->
    Evicts cutoff (c :: rest) total buf' total'.

(** Time order of the buffer. *)
Definition byTime (a b : Chunk) : Prop := time a <= time b.

(** The readings of [Date.now()] made by the [data] listener along a run. *)
Definition clockReadings (evs : list (Env * Mem.Event)) : list Z :=
  flat_map
    (fun p => match snd p with
              | Mem.Data _ tPush tNow => [tPush; tNow]
              | _ => []
              end) evs.

(** A clock that never steps back. *)
Fixpoint nondecreasing (l : list Z) : bool :=
  match l with
  | [] => true
  | a :: r =>
      match r with
      | [] => true
      | b :: _ => (a <=? b) && nondecreasing r
      end
  end.

(** The buffer is in time order and holds nothing stamped after [hi]. *)
Definition bufferOk (hi : Z) (s : State) : Prop :=
  StronglySorted byTime (videoBuffer s)
  /\ Forall (fun c => time c <= hi) (videoBuffer s).

(** A world in which every file-system call succeeds on an empty disk. *)
Definition quietEnv : Env :=
  {| userData := "C:\Users\u\AppData\Roaming\ShadowWarp";
     videos := "C:\Users\u\Videos"; formatTime := "2026-01-01_00-00-00";
     windowLive := true; existsSync := fun _ => true;
     mkdirThrows := fun _ => false; readdirSync := fun _ => Some [];
     statSync := fun _ => None; unlinkThrows := fun _ => false;
     writeThrows := fun _ => false |}.

Definition withAudioDevice (d : string) (c : Config) : Config :=
  {| fps := fps c; codec := codec c; bitrate := bitrate c;
     bufferTime := bufferTime c; outputFolder := outputFolder c;
     shortcut := shortcut c; autoStart := autoStart c;
     autoRecord := autoRecord c; audioDevice := d;
     systemAudioDevice := systemAudioDevice c |}.

Definition withOutputFolder (d : string) (c : Config) : Config :=
  {| fps := fps c; codec := codec c; bitrate := bitrate c;
     bufferTime := bufferTime c; outputFolder := d;
     shortcut := shortcut c; autoStart := autoStart c;
     autoRecord := autoRecord c; audioDevice := audioDevice c;
     systemAudioDevice := systemAudioDevice c |}.

(** The state the in-memory revision reaches once a recording started
    with the default configuration and one microphone. *)
Definition recordingState : State :=
  Mem.run [(quietEnv, Mem.StartRecording);
           (quietEnv, Mem.DevicesFetched ["Microphone (Realtek)"] 4242%nat 0)]
    (initialState defaultConfig).

Definition kilobyte : list Byte.byte := repeat Byte.x00 1024.

(** The same, after three chunks of one kilobyte arrived. *)
Definition bufferedState : State :=
  Mem.run [(quietEnv, Mem.Data kilobyte 1000 1000);
           (quietEnv, Mem.Data kilobyte 2000 2000);
           (quietEnv, Mem.Data kilobyte 3000 3000)] recordingState.

Definition duplicateLog : Effect :=
  Log "Save already in progress, ignoring duplicate request.".

Definition busyState : State := setIsSavingReplay true bufferedState.

(** A run in which a recording is stopped and started again while an
    extraction is in flight: the lock is held and the new buffer is still
    empty. *)
Definition busyEmptyState : State :=
  Mem.run [(quietEnv, Mem.SaveReplay 5000 []);
           (quietEnv, Mem.StopRecording);
           (quietEnv, Mem.StartRecording);
           (quietEnv, Mem.DevicesFetched ["Microphone (Realtek)"] 4243%nat 6000)]
    bufferedState.

Definition isNotify (x : Effect) : bool :=
  match x with Notify _ => true | _ => false end.

(** A recording that received three bytes so far. *)
Definition nearEmptyState : State :=
  Mem.run [(quietEnv, Mem.Data [Byte.x47; Byte.x40; Byte.x00] 1000 1000)]
    recordingState.

(** The state at launch when the configuration file holds [c]. *)
Definition launchState (c : Config) : State :=
  initialState (Common.loadConfig (Some (Common.full c))).

(** What the callbacks of start and stop do, call by call. *)
Definition configWrite (e : Env) (c : Config) : list Effect :=
  WriteConfig c
  :: (if writeThrows e (configPath e) then [Log "Failed to save config:"] else []).

Definition stopCalls (clears : bool) (e : Env) (s : State) : list Effect :=
  (if windowLive e then [Send "stop-system-audio" None] else [])
  ++ match recordProcess s with
     | Some p =>
         (if stdinPiped p then [StdinEnd (pid p)] else [])
         ++ [Kill (pid p) "SIGINT"]
         ++ (if clears && cleanupInterval s then [ClearInterval CleanSegments] else [])
         ++ [SetTimeout ForceKill 3000]
     | None => []
     end
  ++ configWrite e (setAutoRecord false (config s))
  ++ (if windowLive e then [Send "recording-state" (Some false)] else []).

Definition startedCalls (e : Env) (usa : bool) : list Effect :=
  if windowLive e
  then Send "recording-state" (Some true)
       :: (if usa then [Send "start-system-audio" None] else [])
  else [].

(** The object the settings window sends when the microphone selector is
    changed. *)
Definition micChanged : Common.PartialConfig :=
  Common.full (withAudioDevice "Microphone (USB Audio)" (config recordingState)).

(** The callbacks that belong to an extraction job. *)
Definition isJobListener (ev : Mem.Event) : bool :=
  match ev with
  | Mem.Drain _ _ | Mem.Finish _ _ | Mem.ExtractError _ _ | Mem.ExtractExit _ _ => true
  | _ => false
  end.

Definition withoutJobListeners (evs : list (Env * Mem.Event)) : list (Env * Mem.Event) :=
  filter (fun p => negb (isJobListener (snd p))) evs.

Definition locked (s : State) : Prop := isSavingReplay s = true.

Definition lostFolder : string := "Z:\Clips".

(** A world in which the output folder cannot be created. *)
Definition lostFolderEnv : Env :=
  {| userData := userData quietEnv; videos := videos quietEnv;
     formatTime := formatTime quietEnv; windowLive := true;
     existsSync := fun p => negb (p ==? lostFolder);
     mkdirThrows := fun p => p ==? lostFolder;
     readdirSync := fun _ => Some ["buffer_20260101000000.ts"];
     statSync := fun _ => Some 4096;
     unlinkThrows := fun _ => false; writeThrows := fun _ => false |}.

(** Three kilobytes are buffered and the settings window stored
    [lostFolder] as the output folder. *)
Definition lostFolderState : State :=
  Mem.run [(quietEnv,
            Mem.SaveConfig (Common.full (withOutputFolder lostFolder defaultConfig)))]
    bufferedState.

(** The job the in-memory revision starts from [bufferedState]. *)
Definition sampleJob : Mem.Job :=
  {| Mem.bufferSecs := Some 300;
     Mem.outputFile := "C:\Users\u\Videos\ShadowWarp_Replay_2026-01-01_00-00-00.mp4";
     Mem.tempDump :=
       "C:\Users\u\AppData\Roaming\ShadowWarp\shadowarp_buffers\dump_5000.ts";
     Mem.pending := [] |}.

Definition sampleDiskJob : Disk.Job :=
  {| Disk.bufferSecs := Some 300;
     Disk.outputFile := Mem.outputFile sampleJob;
     Disk.tempConcatFile :=
       "C:\Users\u\AppData\Roaming\ShadowWarp\shadowarp_buffers\temp_concat_5000.mp4" |}.

(** A world in which the extraction left an artifact of 0 bytes. *)
Definition emptyArtifactEnv : Env :=
  {| userData := userData quietEnv; videos := videos quietEnv;
     formatTime := formatTime quietEnv; windowLive := true;
     existsSync := fun _ => true; mkdirThrows := fun _ => false;
     readdirSync := fun _ => Some [];
     statSync := fun p => if p ==? Mem.outputFile sampleJob then Some 0 else None;
     unlinkThrows := fun _ => false; writeThrows := fun _ => false |}.

Definition sampleRun : list (Env * Mem.Event) :=
  [(quietEnv, Mem.StartRecording);
   (quietEnv, Mem.DevicesFetched ["Microphone (Realtek)"] 4242%nat 0);
   (quietEnv, Mem.Data kilobyte 1000 1000);
   (quietEnv, Mem.Data kilobyte 100000 100000);
   (quietEnv, Mem.Data kilobyte 200000 200001)].

(** * The remaining callbacks *)

(** ** The relay of system audio *)

(** What [recordProcess.stdin] answers during one [system-audio-data]
    message. *)
Record StdinAnswers := {
  destroyed : bool;
  writable : bool;
  writeFails : bool          (* [stdin.write] throws *)
}.

Module Relay.

(** The [system-audio-data] listener of both revisions of [index.ts];
    [bytes] is the length of the buffer received. *)
Definition onSystemAudioData (a : StdinAnswers) (bytes : Z) : M State unit :=
  s <- get ;;
  match recordProcess s with
  | Some p =>
      if isRecording s && useSystemAudio s && stdinPiped p
         && negb (destroyed a) && writable a
      then
        emit (StdinWrite (pid p) bytes) ;;
        when (writeFails a)
          (emit (Log "Audio write error (FFmpeg may have exited):"))
      else ret tt
  | None => ret tt
  end.

(** The listener of the oldest revision: no test of [isRecording] or
    [writable], and a silent [catch]. *)
Definition onSystemAudioData_oldest (a : StdinAnswers) (bytes : Z) : M State unit :=
  s <- get ;;
  match recordProcess s with
  | Some p =>
      if useSystemAudio s && stdinPiped p && negb (destroyed a)
      then emit (StdinWrite (pid p) bytes)
      else ret tt
  | None => ret tt
  end.

End Relay.

(** ** The sweep of old segments *)

Module Sweep.






Definition oldestMargin : Z := 30000.

End Sweep.

(** ** The oldest revision's extraction *)

Module Oldest.

Definition concatArgs (listPath outputFile : string) : list string :=
  ["-y"; "-fflags"; "+genpts+igndts"; "-f"; "concat"; "-safe"; "0";
   "-i"; listPath; "-c"; "copy"; outputFile].

Definition concatLine (f : string) : string :=
  "file '" +++ Disk.slashes f +++ "'".

(** [saveReplay] of [unnamed/part_000]: every [.ts] file, no lock. *)
Definition saveReplay (e : Env) (newPid : nat) : M State (option string) :=
  s <- get ;;
  if negb (isRecording s) then ret None else
  match readdirSync e (tempDir e) with
  | None => throw "readdirSync"
  | Some names =>
  let files :=
    map (Js.pathJoin (tempDir e)) (Disk.sort (filter (Js.endsWith ".ts") names)) in
  match files with
  | [] => emit (Notify "No video buffered yet.") ;; ret None
  | _ =>
  let concatListPath := Js.pathJoin (tempDir e) "concat.txt" in
  emit (WriteFile concatListPath (map concatLine files)) ;;
  (if writeThrows e concatListPath then throw "writeFileSync" else ret tt) ;;
  let folder := Js.strOr (outputFolder (config s)) (videos e) in
  Common.ensureDir e folder ;;
  let outputFile :=
    Js.pathJoin folder ("ShadowWarp_Replay_" +++ formatTime e +++ ".mp4") in
  emit (Spawn newPid (concatArgs concatListPath outputFile) true) ;;
  ret (Some outputFile)
  end
  end.

(** The listener of the concat process's [exit] event. *)
Definition onConcatExit (code : option Z) : M State unit :=
  if Common.isZero code then emit (Notify Common.savedBody)
  else emit (Notify ("Failed to save replay. Code: " +++ Common.showCode code)).

End Oldest.

(** ** The capture hotkey *)

Module Hotkey.

(** [s.split(sep)] for a separator of one character. *)
Fixpoint splitOn (sep : ascii) (s : string) : list string :=
  match s with
  | EmptyString => [EmptyString]
  | String c r =>
      if Ascii.eqb c sep then EmptyString :: splitOn sep r
      else match splitOn sep r with
           | h :: t => String c h :: t
           | [] => [String c EmptyString]
           end
  end.

Definition plus : ascii := "+"%char.

(** The event [uIOhook] delivers. *)
Record KeyEvent := {
  ctrlKey : bool;
  altKey : bool;
  shiftKey : bool;
  metaKey : bool;
  keycode : Z
}.

(** The test of the [keydown] listener, the same in the three revisions.
    [UiohookKey] is the key table of [uiohook-napi], [None] where the
    lookup is [undefined]. *)
Definition fires (UiohookKey : string -> option Z) (shortcut : string)
    (k : KeyEvent) : bool :=
  if shortcut ==? "" then false else
  let parts := splitOn plus shortcut in
  let mainKeyStr := last parts "" in
  let needsCtrl :=
    Js.arrayIncludes "CommandOrControl" parts || Js.arrayIncludes "Ctrl" parts in
  let needsAlt := Js.arrayIncludes "Alt" parts in
  let needsShift := Js.arrayIncludes "Shift" parts in
  let needsMeta :=
    Js.arrayIncludes "Super" parts || Js.arrayIncludes "Meta" parts in
  if negb (Bool.eqb (ctrlKey k) needsCtrl) then false else
  if negb (Bool.eqb (altKey k) needsAlt) then false else
  if negb (Bool.eqb (shiftKey k) needsShift) then false else
  if negb (Bool.eqb (metaKey k) needsMeta) then false else
  match UiohookKey mainKeyStr with
  | Some target => keycode k =? target
  | None => false
  end.

(** The [keydown] listener of the in-memory revision. *)
Definition onKeydown (UiohookKey : string -> option Z) (e : Env) (now : Z)
    (answers : list bool) (k : KeyEvent) : M State unit :=
  s <- get ;;
  if fires UiohookKey (shortcut (config s)) k
  then Mem.void (Mem.saveReplay e now answers)
  else ret tt.

(** The keyboard event the settings window receives. *)
Record ReactKey := {
  r_ctrlKey : bool;
  r_altKey : bool;
  r_shiftKey : bool;
  r_metaKey : bool;
  key : string
}.

Definition isModifierKey (k : string) : bool :=
  Js.arrayIncludes k ["Control"; "Shift"; "Alt"; "Meta"].

(** [e.key.length === 1 ? e.key.toUpperCase() : e.key], then the space
    key renamed.  [toUpperCase] is the runtime's. *)
Definition mainKeyOf (toUpperCase : string -> string) (k : string) : string :=
  let m := if (String.length k =? 1)%nat then toUpperCase k else k in
  if m ==? " " then "Space" else m.

Definition keysOf (toUpperCase : string -> string) (e : ReactKey) : list string :=
  (if r_ctrlKey e || r_metaKey e then ["CommandOrControl"] else [])
  ++ (if r_altKey e then ["Alt"] else [])
  ++ (if r_shiftKey e then ["Shift"] else [])
  ++ [mainKeyOf toUpperCase (key e)].

(** [handleKeyDown] of the settings window: the shortcut it stores, if
    any. *)
Definition handleKeyDown (toUpperCase : string -> string)
    (isRecordingHotkey : bool) (e : ReactKey) : option string :=
  if negb isRecordingHotkey then None
  else if isModifierKey (key e) then None
  else Some (String.concat "+" (keysOf toUpperCase e)).

End Hotkey.

(** ** The buffer-length slider of the settings window *)

Module Slider.

Definition bufferOptions : list (string * Z) :=
  [("5 seconds", 5); ("15 seconds", 15); ("30 seconds", 30);
   ("1 minute", 60); ("2 minutes", 120); ("3 minutes", 180);
   ("5 minutes", 300); ("10 minutes", 600); ("15 minutes", 900)].

(** [bufferOptions.find(o => o.value.toString() === config.bufferTime)
     || bufferOptions[6]], as a position: that is [sliderIndex]. *)
Fixpoint findFrom (i : nat) (opts : list (string * Z)) (bufferTime : string)
    : option nat :=
  match opts with
  | [] => None
  | o :: rest =>
      if Js.showZ (snd o) ==? bufferTime then Some i
      else findFrom (S i) rest bufferTime
  end.

Definition sliderIndex (bufferTime : string) : nat :=
  match findFrom 0 bufferOptions bufferTime with
  | Some i => i
  | None => 6%nat
  end.

(** The value the slider's [onChange] stores for a position; a position
    outside the table throws. *)
Definition onChange (position : nat) : option string :=
  match nth_error bufferOptions position with
  | Some o => Some (Js.showZ (snd o))
  | None => None
  end.

End Slider.

(** ** The settings window's copy of the configuration *)

Module Window.

(** The calls of [handleConfigChange] the window makes: the key and the
    value. *)
Inductive Change :=
| Fps (v : string)
| Codec (v : string)
| Bitrate (v : string)
| BufferTime (v : string)
| OutputFolder (v : string)
| Shortcut (v : string)
| AutoStart (v : bool)
| AudioDevice (v : string)
| SystemAudioDevice (v : string).

(** [getConfig().then(setConfig)]: the copy is the object the
    [get-config] handler returns, [autoRecord] included. *)
Definition mount (s : State) : Config := config s.

(** [{ ...config, [key]: value }] *)
Definition edit (ch : Change) (w : Config) : Config :=
  match ch with
  | Fps v =>
      mkConfig v (codec w) (bitrate w) (bufferTime w) (outputFolder w)
        (shortcut w) (autoStart w) (autoRecord w) (audioDevice w)
        (systemAudioDevice w)
  | Codec v =>
      mkConfig (fps w) v (bitrate w) (bufferTime w) (outputFolder w)
        (shortcut w) (autoStart w) (autoRecord w) (audioDevice w)
        (systemAudioDevice w)
  | Bitrate v =>
      mkConfig (fps w) (codec w) v (bufferTime w) (outputFolder w)
        (shortcut w) (autoStart w) (autoRecord w) (audioDevice w)
        (systemAudioDevice w)
  | BufferTime v =>
      mkConfig (fps w) (codec w) (bitrate w) v (outputFolder w)
        (shortcut w) (autoStart w) (autoRecord w) (audioDevice w)
        (systemAudioDevice w)
  | OutputFolder v =>
      mkConfig (fps w) (codec w) (bitrate w) (bufferTime w) v
        (shortcut w) (autoStart w) (autoRecord w) (audioDevice w)
        (systemAudioDevice w)
  | Shortcut v =>
      mkConfig (fps w) (codec w) (bitrate w) (bufferTime w) (outputFolder w)
        v (autoStart w) (autoRecord w) (audioDevice w) (systemAudioDevice w)
  | AutoStart v =>
      mkConfig (fps w) (codec w) (bitrate w) (bufferTime w) (outputFolder w)
        (shortcut w) v (autoRecord w) (audioDevice w) (systemAudioDevice w)
  | AudioDevice v =>
      mkConfig (fps w) (codec w) (bitrate w) (bufferTime w) (outputFolder w)
        (shortcut w) (autoStart w) (autoRecord w) v (systemAudioDevice w)
  | SystemAudioDevice v =>
      mkConfig (fps w) (codec w) (bitrate w) (bufferTime w) (outputFolder w)
        (shortcut w) (autoStart w) (autoRecord w) (audioDevice w) v
  end.

(** [handleConfigChange]: the window's new copy, and the object it sends
    on [save-config], which carries every property of the copy. *)
Definition handleConfigChange (ch : Change) (w : Config)
    : Config * Common.PartialConfig :=
  let newConfig := edit ch w in
  (newConfig, Common.full newConfig).

End Window.

(** ** The configuration file *)

(** What [config.json] holds after the calls [es], made in the world [e],
    when it held [file] before: a [writeFileSync] that does not throw
    replaces the content. *)
Definition fileAfter (e : Env) (es : list Effect) (file : option Config)
    : option Config :=
  fold_left
    (fun f x =>
       match x with
       | WriteConfig c => if writeThrows e (configPath e) then f else Some c
       | _ => f
       end) es file.

(** The state at launch: the defaults overwritten by the file, when there
    is one. *)
Definition launchFrom (file : option Config) : State :=
  initialState (Common.loadConfig (option_map Common.full file)).

(** * Notions used in the further statements *)

Definition isSpawn (x : Effect) : bool :=
  match x with Spawn _ _ _ => true | _ => false end.

Definition isSendOn (channel : string) (x : Effect) : bool :=
  match x with Send ch _ => ch ==? channel | _ => false end.

Definition isStdinWrite (x : Effect) : bool :=
  match x with StdinWrite _ _ => true | _ => false end.

Definition isUnlink (x : Effect) : bool :=
  match x with Unlink _ => true | _ => false end.

Definition isStreamEnd (x : Effect) : bool :=
  match x with StreamEnd _ => true | _ => false end.

(** The paths of the [unlinkSync] calls of a trace, in order. *)
Definition unlinked (es : list Effect) : list string :=
  flat_map (fun x => match x with Unlink p => [p] | _ => [] end) es.

(** The bodies of the notifications of a trace, in order. *)
Definition notified (es : list Effect) : list string :=
  flat_map (fun x => match x with Notify b => [b] | _ => [] end) es.

(** What a trace writes to the stream at [path], in order. *)
Definition written (path : string) (es : list Effect) : list (list Byte.byte) :=
  flat_map (fun x => match x with
                     | StreamWrite p d => if p ==? path then [d] else []
                     | _ => []
                     end) es.

(** A whole dump: [writeNext] once, then once more per [drain] event for
    as long as chunks are pending; [rounds] holds the answers of
    [writeStream.write] during each call. *)
Fixpoint dump (j : Mem.Job) (rounds : list (list bool)) (s : State)
    : list Effect * Mem.Job :=
  match rounds with
  | [] => ([], j)
  | answers :: rest =>
      match Mem.writeNext j answers s with
      | (Normal j', _, es) =>
          match Mem.pending j' with
          | [] => (es, j')
          | _ => let r := dump j' rest s in (es ++ fst r, snd r)
          end
      | (Thrown _, _, es) => (es, j)
      end
  end.

(** Ascending order of file names. *)
Definition nameOrder (a b : string) : Prop := String.leb a b = true.

(** A listed file that [statSync] finds with a positive size. *)
Definition positiveSize (e : Env) (f : string) : bool :=
  match statSync e (Js.pathJoin (tempDir e) f) with
  | Some n => 0 <? n
  | None => false
  end.


(** A string that contains the separator of shortcuts. *)
Fixpoint hasPlus (s : string) : bool :=
  match s with
  | EmptyString => false
  | String c r => Ascii.eqb c Hotkey.plus || hasPlus r
  end.

(** The names the [keydown] listener reads as modifiers. *)
Definition modifierNames : list string :=
  ["CommandOrControl"; "Ctrl"; "Alt"; "Shift"; "Super"; "Meta"].

(** ** The range in which the runtime's numbers and paths are modelled exactly *)

(** A string of plain ASCII. *)
Definition asciiOnly (s : string) : bool :=
  forallb (fun c => (nat_of_ascii c <? 128)%nat) (list_ascii_of_string s).

(** A string that [parseInt] reads, and a template literal prints back,
    exactly as [Js.parseInt] and [Js.showNum] do: plain ASCII (the white
    space [parseInt] skips beyond ASCII is not modelled) and, when it
    reads as a number, one of absolute value at most [bound]. *)
Definition readsWithin (bound : Z) (s : string) : bool :=
  asciiOnly s
  && match Js.parseInt s with
     | Some k => Z.abs k <=? bound
     | None => true
     end.

(** Far below 2^53: the sums and products the recorder forms from such a
    number of seconds or frames are exact in double precision. *)
Definition modest : Z := 2 ^ 40.

(** The readings [Date.now()] can give. *)
Definition clockRange (t : Z) : Prop := 0 <= t <= 8640000000000000.

Definition isSeparator (c : ascii) : bool :=
  Ascii.eqb c "\"%char || Ascii.eqb c "/"%char.

(** One name of a path: not empty, not [.] or [..], without separator
    and without colon. *)
Definition plainName (s : string) : bool :=
  negb (s ==? "") && negb (s ==? ".") && negb (s ==? "..")
  && forallb (fun c => negb (isSeparator c || Ascii.eqb c ":"%char))
       (list_ascii_of_string s).

Definition isLetter (c : ascii) : bool :=
  let n := nat_of_ascii c in
  ((65 <=? n) && (n <=? 90) || (97 <=? n) && (n <=? 122))%nat.

(** A folder written as a drive letter, a colon and one or more plain
    names, each after one backslash, as in [C:\Users\u\Videos].
    [path.join] of such a folder and a plain name has nothing to
    normalise: it puts one backslash between them, as [Js.pathJoin]
    does.  A drive root, which ends in a backslash, is not of this
    form. *)
Definition plainFolder (p : string) : bool :=
  match p with
  | String d (String ":" (String "\" rest)) =>
      isLetter d && forallb plainName (Hotkey.splitOn "\"%char rest)
  | _ => false
  end.

(** The name of an artifact is a plain name when the time stamp is. *)
Definition artifactName (e : Env) : string :=
  "ShadowWarp_Replay_" +++ formatTime e +++ ".mp4".

(** The files whose removal [startRecording] of the in-memory revision
    asks for: the listed ones in order, up to and including the first
    whose removal throws. *)
Fixpoint untilFailure (fails : string -> bool) (paths : list string)
    : list string :=
  match paths with
  | [] => []
  | p :: rest => p :: (if fails p then [] else untilFailure fails rest)
  end.

Definition isWriteFile (x : Effect) : bool :=
  match x with WriteFile _ _ => true | _ => false end.

(** A run of the in-memory revision in which the clock is set back while
    data arrives. *)
Definition clockSetBack : list (Env * Mem.Event) :=
  [(quietEnv, Mem.StartRecording);
   (quietEnv, Mem.DevicesFetched ["Microphone (Realtek)"] 4242%nat 500000);
   (quietEnv, Mem.Data kilobyte 500000 500000);
   (quietEnv, Mem.Data kilobyte 0 0);
   (quietEnv, Mem.Data kilobyte 1000 1000)].

(** * Properties *)

(** ** Pipeline arguments *)

Example recordArgs_default_two_sources :
  Planner.valuesOf "-map"
    (Planner.recordArgs Planner.memory defaultConfig ["Mic A"; "Mic B"])
  = ["1:v"; "[aout]"].
Proof. reflexivity. Qed.

Example recordArgs_hostile_codec :
  Planner.valuesOf "-map"
    (Planner.recordArgs (Planner.disk "T")
       {| fps := "-map"; codec := "-map"; bitrate := "15"; bufferTime := "300";
          outputFolder := ""; shortcut := ""; autoStart := false;
          autoRecord := true; audioDevice := "None";
          systemAudioDevice := "None" |} ["Mic A"])
  = ["0:v"].
Proof. reflexivity. Qed.

(** C7.  The arguments always map the video input, at the index where the
    capture source stands among the inputs.  With system audio and a
    usable microphone the two are merged by one [amix] filter whose output
    [[aout]] is the only audio map; with one of them that input is mapped
    directly; with neither there is no audio map, no filter and no audio
    codec option. *)
Theorem recordArgs_audio_mapping (r : Revision) (dir : string) (c : Config)
    (currentDevices : list string) :
  let fl := flavourOf r dir in
  let a := Planner.recordArgs fl c currentDevices in
  let maps := Planner.valuesOf "-map" a in
  let inputs := Planner.valuesOf "-i" a in
  let filters := Planner.valuesOf "-filter_complex" a in
  let mic := "audio=" +++ Planner.mappedMic c currentDevices in
  match Planner.useSystemAudio c, Planner.micUsable c currentDevices with
  | true, true =>
      inputs = ["pipe:0"; videoSource r c; mic]
      /\ maps = ["1:v"; "[aout]"]
      /\ filters = ["[0:a][2:a]" +++ Planner.mixFilter fl +++ "[aout]"]
      /\ Js.includes "amix=inputs=2" (Planner.mixFilter fl) = true
  | true, false =>
      inputs = ["pipe:0"; videoSource r c]
      /\ maps = ["1:v"; "0:a"] /\ filters = []
  | false, true =>
      inputs = [videoSource r c; mic]
      /\ maps = ["0:v"; "1:a"] /\ filters = []
  | false, false =>
      inputs = [videoSource r c]
      /\ maps = ["0:v"] /\ filters = []
      /\ Planner.valuesOf "-c:a" a = [] /\ Planner.valuesOf "-b:a" a = []
      /\ Planner.valuesOf "-af" a = []
  end.
Proof.
  intros fl a maps inputs filters mic.
  subst fl a maps inputs filters mic.
  unfold Planner.recordArgs, Planner.inputArgs, Planner.videoMap,
    Planner.audioMap, Planner.audioInputs, Planner.videoInputIndex,
    Planner.sysAudioInputIndex, Planner.micInputIndex.
  destruct (Planner.useSystemAudio c), (Planner.micUsable c currentDevices);
    destruct r;
    cbn -[String.append Js.showZ Planner.fpsNum Js.includes Planner.options];
    unfold Planner.presetOf;
    destruct (Js.includes "nvenc" (codec c));
    cbn -[String.append Js.showZ Planner.fpsNum Js.includes];
    repeat split; reflexivity.
Qed.

(** ** Properties kept by a callback *)

Section Preservation.

Variable P : State -> Prop.

Lemma preserves_ret {A} (a : A) : preserves P (ret a).
Proof. intros s H; exact H. Qed.

Lemma preserves_get : preserves P get.
Proof. intros s H; exact H. Qed.

Lemma preserves_emit (x : Effect) : preserves P (emit x).
Proof. intros s H; exact H. Qed.

Lemma preserves_emitAll (xs : list Effect) : preserves P (emitAll xs).
Proof. intros s H; exact H. Qed.

Lemma preserves_throw {A} (err : string) : preserves P (@throw State A err).
Proof. intros s H; exact H. Qed.

Lemma preserves_modify (f : State -> State) :
  (forall s, P s -> P (f s)) -> preserves P (modify f).
Proof. intros Hf s H; apply Hf, H. Qed.

Lemma preserves_bind {A B} (m : M State A) (k : A -> M State B) :
  preserves P m -> (forall a, preserves P (k a)) -> preserves P (bind m k).
Proof.
  intros Hm Hk s H. unfold bind, stateOf.
  specialize (Hm s H). unfold stateOf in Hm.
  destruct (m s) as [[r s1] es1]; cbn in Hm.
  destruct r as [a|err]; cbn; [|exact Hm].
  specialize (Hk a s1 Hm). unfold stateOf in Hk.
  destruct (k a s1) as [[r2 s2] es2]; exact Hk.
Qed.

Lemma preserves_tryCatch {A} (m : M State A) (h : string -> M State A) :
  preserves P m -> (forall err, preserves P (h err)) -> preserves P (tryCatch m h).
Proof.
  intros Hm Hh s H. unfold tryCatch, stateOf.
  specialize (Hm s H). unfold stateOf in Hm.
  destruct (m s) as [[r s1] es1]; cbn in Hm.
  destruct r as [a|err]; cbn; [exact Hm|].
  specialize (Hh err s1 Hm). unfold stateOf in Hh.
  destruct (h err s1) as [[r2 s2] es2]; exact Hh.
Qed.

Lemma preserves_when (b : bool) (m : M State unit) :
  preserves P m -> preserves P (when b m).
Proof. intros Hm; destruct b; [exact Hm | apply preserves_ret]. Qed.

End Preservation.

(** Breaks a callback into its statements; what is left are the
    assignments. *)
Ltac step_callback :=
  first
    [ apply preserves_ret | apply preserves_get | apply preserves_emit
    | apply preserves_emitAll | apply preserves_throw
    | apply preserves_when
    | apply preserves_bind; [| intro]
    | apply preserves_tryCatch; [| intro]
    | match goal with
      | |- preserves _ (if ?b then _ else _) => destruct b
      | |- preserves _ (match ?x with _ => _ end) => destruct x
      | |- preserves _ (let _ := _ in _) => cbv zeta
      end ].

Ltac callback := repeat step_callback.

(** ** The buffer and its byte count *)

Ltac assignment :=
  apply preserves_modify;
  let s := fresh "s" in let H := fresh "H" in
  intros s H; destruct s; cbn in *; exact H.

Lemma unlinkEach_sameBuffer b n e files :
  preserves (sameBuffer b n) (Mem.unlinkEach e files).
Proof.
  induction files as [|f rest IH]; cbn.
  - apply preserves_ret.
  - callback. exact IH.
Qed.

Lemma ensureDir_sameBuffer b n e dir :
  preserves (sameBuffer b n) (Common.ensureDir e dir).
Proof. unfold Common.ensureDir. callback. Qed.

Lemma saveConfigToDisk_sameBuffer b n e :
  preserves (sameBuffer b n) (Common.saveConfigToDisk e).
Proof. unfold Common.saveConfigToDisk. callback. Qed.

Lemma stopRecording_sameBuffer b n k e :
  preserves (sameBuffer b n) (Common.stopRecording k e).
Proof.
  unfold Common.stopRecording.
  callback; try assignment; apply saveConfigToDisk_sameBuffer.
Qed.

Lemma startRecording_sameBuffer b n e :
  preserves (sameBuffer b n) (Mem.startRecording e).
Proof.
  unfold Mem.startRecording.
  callback; try apply ensureDir_sameBuffer; apply unlinkEach_sameBuffer.
Qed.

Lemma writeNext_sameBuffer b n j answers :
  preserves (sameBuffer b n) (Mem.writeNext j answers).
Proof. unfold Mem.writeNext. callback. Qed.

Lemma saveReplay_sameBuffer b n e now answers :
  preserves (sameBuffer b n) (Mem.saveReplay e now answers).
Proof.
  unfold Mem.saveReplay.
  callback; try assignment;
    first [apply ensureDir_sameBuffer | apply writeNext_sameBuffer].
Qed.

Lemma saveConfig_sameBuffer b n e newConfig :
  preserves (sameBuffer b n) (Mem.saveConfig e newConfig).
Proof.
  unfold Mem.saveConfig, Common.saveConfig.
  callback; try assignment;
    first [apply saveConfigToDisk_sameBuffer | apply stopRecording_sameBuffer].
Qed.

Lemma handle_buffer e ev s :
  let s' := stateOf (Mem.handle e ev s) in
  (videoBuffer s', totalBytes s') = bufferAfter ev s.
Proof.
  assert (K : forall m : M State unit,
             preserves (sameBuffer (videoBuffer s) (totalBytes s)) m ->
             (videoBuffer (stateOf (m s)), totalBytes (stateOf (m s)))
             = (videoBuffer s, totalBytes s)).
  { intros m Hm. destruct (Hm s (conj eq_refl eq_refl)) as [-> ->]. reflexivity. }
  destruct ev; cbn [Mem.handle bufferAfter]; cbv zeta.
  - apply K, startRecording_sameBuffer.
  - unfold Mem.startRecording_then, Common.saveConfigToDisk, stateOf, bind, get,
      modify, emit, when, ret.
    destruct s; cbn.
    destruct (writeThrows e _), (windowLive e), (Planner.useSystemAudio _);
      reflexivity.
  - destruct s; cbn. now destruct (Mem.evict _ _ _).
  - apply K. unfold Common.onRecordExit. callback; assignment.
  - apply K, stopRecording_sameBuffer.
  - apply K. unfold Common.onForceKill. callback; assignment.
  - apply K, preserves_bind;
      [apply saveReplay_sameBuffer | intro; apply preserves_ret].
  - apply K, preserves_bind;
      [apply writeNext_sameBuffer | intro; apply preserves_ret].
  - apply K. unfold Mem.onFinish. callback.
  - apply K. unfold Mem.onExtractError, Mem.unlinkIfExists. callback; assignment.
  - apply K. unfold Mem.onExtractExit, Mem.unlinkIfExists. callback; assignment.
  - apply K, saveConfig_sameBuffer.
Qed.

Lemma sumLengths_app (a b : list Chunk) :
  sumLengths (a ++ b) = sumLengths a + sumLengths b.
Proof.
  unfold sumLengths.
  induction a as [|c a IH]; cbn; [reflexivity | rewrite IH; lia].
Qed.

Lemma sumLengths_cons (c : Chunk) (l : list Chunk) :
  sumLengths (c :: l) = chunkLength c + sumLengths l.
Proof. reflexivity. Qed.

Lemma chunkLength_nonneg (c : Chunk) : 0 <= chunkLength c.
Proof. unfold chunkLength; lia. Qed.

Lemma evict_cons cutoff c rest total :
  Mem.evict cutoff (c :: rest) total =
  if evictTest cutoff (c :: rest) total
  then Mem.evict cutoff rest (total - chunkLength c)
  else (c :: rest, total).
Proof. reflexivity. Qed.

Lemma evictTest_true cutoff c rest total :
  evictTest cutoff (c :: rest) total = true ->
  (2 < List.length (c :: rest))%nat
  /\ (time c < cutoff \/ Mem.hardLimit < total).
Proof.
  unfold evictTest. rewrite andb_true_iff, orb_true_iff, !Z.ltb_lt.
  intros [H1 H2]. split; [lia | exact H2].
Qed.

Lemma evictTest_false cutoff c rest total :
  evictTest cutoff (c :: rest) total = false ->
  (List.length (c :: rest) <= 2)%nat
  \/ (cutoff <= time c /\ total <= Mem.hardLimit).
Proof.
  unfold evictTest. rewrite andb_false_iff, orb_false_iff, !Z.ltb_ge.
  intros [H|H]; [left; lia | right; exact H].
Qed.

Lemma evict_Evicts cutoff buf :
  forall total,
    Evicts cutoff buf total
      (fst (Mem.evict cutoff buf total)) (snd (Mem.evict cutoff buf total)).
Proof.
  induction buf as [|c rest IH]; intro total.
  - cbn. apply Evicts_done. left. cbn. lia.
  - rewrite evict_cons. destruct (evictTest cutoff (c :: rest) total) eqn:T.
    + apply evictTest_true in T. destruct T as [T1 T2].
      apply Evicts_remove; [exact T1 | exact T2 | apply IH].
    + apply evictTest_false in T. cbn [fst snd]. apply Evicts_done.
      destruct T as [T|T]; [left; exact T | right; exists c, rest; tauto].
Qed.

(** What follows from the specification's wording alone. *)
Lemma Evicts_suffix cutoff buf total buf' total' :
  Evicts cutoff buf total buf' total' ->
  exists k, buf' = skipn k buf
            /\ total' = total - sumLengths (firstn k buf).
Proof.
  induction 1 as [buf total _ | c rest total buf' total' _ _ _ IH].
  - exists 0%nat. cbn. split; [reflexivity | lia].
  - destruct IH as [k [E1 E2]]. exists (S k). cbn [skipn firstn].
    rewrite sumLengths_cons. split; [exact E1 | lia].
Qed.

Lemma Evicts_keeps_two cutoff buf total buf' total' :
  Evicts cutoff buf total buf' total' ->
  (Nat.min 2 (List.length buf) <= List.length buf')%nat.
Proof.
  induction 1 as [buf total _ | c rest total buf' total' L _ _ IH].
  - lia.
  - cbn [List.length] in *. lia.
Qed.

Lemma Evicts_stops cutoff buf total buf' total' :
  Evicts cutoff buf total buf' total' ->
  (List.length buf' <= 2)%nat
  \/ exists c rest, buf' = c :: rest /\ cutoff <= time c /\ total' <= Mem.hardLimit.
Proof. induction 1; assumption. Qed.

Lemma Evicts_sum cutoff buf total buf' total' :
  Evicts cutoff buf total buf' total' ->
  total = sumLengths buf -> total' = sumLengths buf'.
Proof.
  induction 1 as [buf total _ | c rest total buf' total' _ _ _ IH]; intro E.
  - exact E.
  - apply IH. rewrite sumLengths_cons in E. lia.
Qed.

Lemma Evicts_sorted cutoff buf total buf' total' :
  Evicts cutoff buf total buf' total' ->
  StronglySorted byTime buf -> StronglySorted byTime buf'.
Proof.
  induction 1 as [buf total _ | c rest total buf' total' _ _ _ IH]; intro S.
  - exact S.
  - apply IH. now apply StronglySorted_inv in S.
Qed.

Lemma Evicts_bounded cutoff buf total buf' total' (hi : Z) :
  Evicts cutoff buf total buf' total' ->
  Forall (fun c => time c <= hi) buf -> Forall (fun c => time c <= hi) buf'.
Proof.
  induction 1 as [buf total _ | c rest total buf' total' _ _ _ IH]; intro F.
  - exact F.
  - apply IH. now inversion F.
Qed.

Lemma sorted_snoc (buf : list Chunk) (x : Chunk) :
  StronglySorted byTime buf ->
  Forall (fun c => time c <= time x) buf ->
  StronglySorted byTime (buf ++ [x]).
Proof.
  induction buf as [|c buf IH]; intros S F; cbn.
  - constructor; constructor.
  - apply StronglySorted_inv in S. destruct S as [S1 S2].
    inversion F as [|? ? F1 F2]; subst.
    constructor; [apply IH; assumption|].
    apply Forall_app. split; [exact S2 | constructor; [exact F1 | constructor]].
Qed.

Lemma onData_buffer data tPush tNow s :
  let r := Mem.evict (Mem.cutoffAt (config s) tNow)
             (videoBuffer s ++ [{| time := tPush; chunk := data |}])
             (totalBytes s + Z.of_nat (List.length data)) in
  videoBuffer (stateOf (Mem.onData data tPush tNow s)) = fst r
  /\ totalBytes (stateOf (Mem.onData data tPush tNow s)) = snd r.
Proof. destruct s; cbn. split; reflexivity. Qed.

Lemma run_totalBytes evs :
  forall s, totalBytes s = sumLengths (videoBuffer s) ->
            totalBytes (Mem.run evs s) = sumLengths (videoBuffer (Mem.run evs s)).
Proof.
  induction evs as [|[e ev] rest IH]; intros s H; [exact H|].
  cbn [Mem.run]. apply IH.
  pose proof (handle_buffer e ev s) as B. cbv zeta in B.
  set (s1 := stateOf (Mem.handle e ev s)) in *.
  assert (B1 : videoBuffer s1 = fst (bufferAfter ev s)) by now rewrite <- B.
  assert (B2 : totalBytes s1 = snd (bufferAfter ev s)) by now rewrite <- B.
  rewrite B1, B2. clear B B1 B2.
  destruct ev; cbn [bufferAfter fst snd]; try exact H; try reflexivity.
  eapply Evicts_sum; [apply evict_Evicts|].
  rewrite sumLengths_app, sumLengths_cons, H. unfold chunkLength. cbn. lia.
Qed.

(** C9.  Along every run of the in-memory revision from its initial
    state, [totalBytes] is the sum of the lengths of the chunks of
    [videoBuffer]; the continuation of [startRecording] resets both to the
    empty buffer and 0, and the [data] listener leaves a suffix of the
    appended buffer with [totalBytes] increased by the pushed length and
    decreased by the lengths of the chunks removed. *)
Theorem totalBytes_is_buffer_size (c : Config) (evs : list (Env * Mem.Event)) :
  let s := Mem.run evs (initialState c) in
  totalBytes s = sumLengths (videoBuffer s)
  /\ (forall e devices newPid now,
        let s' := stateOf (Mem.startRecording_then e devices newPid now s) in
        videoBuffer s' = [] /\ totalBytes s' = 0)
  /\ (forall data tPush tNow,
        let s' := stateOf (Mem.onData data tPush tNow s) in
        let pushed := videoBuffer s ++ [{| time := tPush; chunk := data |}] in
        exists k,
          videoBuffer s' = skipn k pushed
          /\ totalBytes s'
             = totalBytes s + Z.of_nat (List.length data)
               - sumLengths (firstn k pushed)
          /\ totalBytes s' = sumLengths (videoBuffer s')).
Proof.
  cbv zeta.
  pose proof (run_totalBytes evs (initialState c) eq_refl) as I.
  set (s := Mem.run evs (initialState c)) in *.
  split; [exact I|]. split.
  - intros e devices newPid now.
    pose proof (handle_buffer e (Mem.DevicesFetched devices newPid now) s) as B.
    cbv zeta in B. cbn [Mem.handle bufferAfter] in B.
    now inversion B.
  - intros data tPush tNow.
    destruct (onData_buffer data tPush tNow s) as [B1 B2].
    set (pushed := videoBuffer s ++ [{| time := tPush; chunk := data |}]) in *.
    set (total := totalBytes s + Z.of_nat (List.length data)) in *.
    pose proof (evict_Evicts (Mem.cutoffAt (config s) tNow) pushed total) as E.
    destruct (Evicts_suffix _ _ _ _ _ E) as [k [K1 K2]].
    exists k. rewrite B1, B2. split; [exact K1|]. split; [exact K2|].
    eapply Evicts_sum; [exact E|].
    unfold pushed, total.
    rewrite sumLengths_app, sumLengths_cons, I. unfold chunkLength. cbn. lia.
Qed.

(** ** Retention after an append *)

Lemma nondecreasing_cons a b r :
  nondecreasing (a :: b :: r) = true <-> a <= b /\ nondecreasing (b :: r) = true.
Proof.
  change (nondecreasing (a :: b :: r)) with ((a <=? b) && nondecreasing (b :: r)).
  now rewrite andb_true_iff, Z.leb_le.
Qed.

Lemma nondecreasing_app l1 l2 :
  nondecreasing (l1 ++ l2) = true ->
  nondecreasing l1 = true /\ nondecreasing l2 = true.
Proof.
  induction l1 as [|a l1 IH]; intro H; [split; [reflexivity | exact H]|].
  destruct l1 as [|b l1].
  - split; [reflexivity|]. destruct l2 as [|c l2]; [reflexivity|].
    cbn [app] in H. now apply nondecreasing_cons in H.
  - cbn [app] in H. apply nondecreasing_cons in H. destruct H as [H1 H2].
    destruct (IH H2) as [I1 I2]. split; [|exact I2].
    apply nondecreasing_cons. split; assumption.
Qed.

Lemma nondecreasing_last l a b :
  nondecreasing (l ++ [a; b]) = true ->
  a <= b /\ exists lo, nondecreasing (lo :: l ++ [a]) = true.
Proof.
  intro H. split.
  - apply nondecreasing_app in H. destruct H as [_ H].
    now apply nondecreasing_cons in H.
  - change (l ++ [a; b]) with (l ++ [a] ++ [b]) in H. rewrite app_assoc in H.
    apply nondecreasing_app in H. destruct H as [H _].
    destruct l as [|x l].
    + exists a. apply nondecreasing_cons. split; [lia | reflexivity].
    + exists x. cbn [app] in *. apply nondecreasing_cons. split; [lia | exact H].
Qed.

Lemma bufferOk_later lo hi s : lo <= hi -> bufferOk lo s -> bufferOk hi s.
Proof.
  intros L [S F]. split; [exact S|].
  eapply Forall_impl; [|exact F]. cbn. intros; lia.
Qed.

Lemma pushed_ok lo tPush data buf :
  lo <= tPush ->
  StronglySorted byTime buf -> Forall (fun c => time c <= lo) buf ->
  let pushed := buf ++ [{| time := tPush; chunk := data |}] in
  StronglySorted byTime pushed /\ Forall (fun c => time c <= tPush) pushed.
Proof.
  intros L S F pushed.
  assert (F' : Forall (fun c => time c <= tPush) buf).
  { eapply Forall_impl; [|exact F]. cbn. intros; lia. }
  split.
  - apply sorted_snoc; [exact S | exact F'].
  - apply Forall_app. split; [exact F'|]. constructor; [cbn; lia | constructor].
Qed.

Lemma run_bufferOk evs :
  forall s lo hi,
    bufferOk lo s ->
    nondecreasing (lo :: clockReadings evs ++ [hi]) = true ->
    bufferOk hi (Mem.run evs s).
Proof.
  induction evs as [|[e ev] rest IH]; intros s lo hi Ok N.
  - cbn in N. apply (bufferOk_later lo); [|exact Ok].
    rewrite andb_true_r in N. now apply Z.leb_le.
  - cbn [Mem.run].
    pose proof (handle_buffer e ev s) as B. cbv zeta in B.
    set (s1 := stateOf (Mem.handle e ev s)) in *.
    assert (B1 : videoBuffer s1 = fst (bufferAfter ev s)) by now rewrite <- B.
    clear B. destruct Ok as [S F].
    assert (Same : videoBuffer s1 = videoBuffer s ->
                   clockReadings ((e, ev) :: rest) = clockReadings rest ->
                   bufferOk hi (Mem.run rest s1)).
    { intros E R. apply (IH s1 lo hi).
      - unfold bufferOk. rewrite E. split; assumption.
      - rewrite <- R. exact N. }
    destruct ev; try (apply Same; [exact B1 | reflexivity]).
    + apply (IH s1 lo hi); [|exact N].
      unfold bufferOk. rewrite B1. cbn. split; constructor.
    + cbn [bufferAfter] in B1.
      change (clockReadings ((e, Mem.Data data tPush tNow) :: rest))
        with (tPush :: tNow :: clockReadings rest) in N.
      cbn [app] in N.
      apply nondecreasing_cons in N. destruct N as [N1 N].
      apply nondecreasing_cons in N. destruct N as [N2 N].
      apply (IH s1 tNow hi); [|exact N].
      destruct (pushed_ok lo tPush data (videoBuffer s) N1 S F) as [PS PF].
      pose proof (evict_Evicts (Mem.cutoffAt (config s) tNow)
                    (videoBuffer s ++ [{| time := tPush; chunk := data |}])
                    (totalBytes s + Z.of_nat (List.length data))) as E.
      rewrite <- B1 in E.
      apply (bufferOk_later tPush); [exact N2|]. split.
      * eapply Evicts_sorted; [exact E | exact PS].
      * eapply Evicts_bounded; [exact E | exact PF].
Qed.

(** C5 as stated fails when the clock is set back while data arrives:
    chunks stamped before the step sit behind a head stamped after it,
    the loop only looks at the head, and more than two chunks stay of
    which one is 320 seconds old against a window of 315. *)
Lemma eviction_after_append_counterexample :
  let s' := Mem.run (clockSetBack ++ [(quietEnv, Mem.Data kilobyte 320000 320000)])
              (initialState defaultConfig) in
  (Mem.bufferSecsOf (config s') + Mem.margin) * 1000 = 315000
  /\ map time (videoBuffer s') = [500000; 0; 1000; 320000]
  /\ (2 < List.length (videoBuffer s'))%nat
  /\ ~ Forall (fun ch => 320000 - time ch <= 315000) (videoBuffer s').
Proof.
  cbv zeta.
  split; [vm_compute; reflexivity|]. split; [vm_compute; reflexivity|].
  split; [vm_compute; lia|].
  assert (E : map time
                (videoBuffer
                   (Mem.run
                      (clockSetBack ++ [(quietEnv, Mem.Data kilobyte 320000 320000)])
                      (initialState defaultConfig)))
              = [500000; 0; 1000; 320000]) by (vm_compute; reflexivity).
  intro H.
  assert (G : Forall (fun t => 320000 - t <= 315000)
                (map time
                   (videoBuffer
                      (Mem.run
                         (clockSetBack
                          ++ [(quietEnv, Mem.Data kilobyte 320000 320000)])
                         (initialState defaultConfig))))).
  { rewrite Forall_map. exact H. }
  rewrite E in G. apply Forall_inv_tail, Forall_inv in G. lia.
Qed.

(** C5, amended.  After every append made by the [data] listener, the
    buffer left is what removing the head of the buffer, while more than
    two chunks are held and the head is older than the window plus the
    margin or the byte count is above the cap, leaves of the appended
    buffer; at least two chunks stay when the appended buffer had two;
    and when more than two chunks stay, the head is not older than the
    window plus the margin and the byte count, which is the true size of
    the buffer, is within the cap.  When the readings of [Date.now()]
    have never stepped back during the run, the head is the oldest chunk
    and no chunk that stays is older than the window plus the margin. *)
Theorem eviction_after_append (c : Config) (evs : list (Env * Mem.Event))
    (e : Env) (data : list Byte.byte) (tPush tNow : Z) :
  let s := Mem.run evs (initialState c) in
  let s' := stateOf (Mem.handle e (Mem.Data data tPush tNow) s) in
  let pushed := videoBuffer s ++ [{| time := tPush; chunk := data |}] in
  let window := (Mem.bufferSecsOf (config s) + Mem.margin) * 1000 in
  Evicts (tNow - window) pushed (totalBytes s + Z.of_nat (List.length data))
    (videoBuffer s') (totalBytes s')
  /\ (Nat.min 2 (List.length pushed) <= List.length (videoBuffer s'))%nat
  /\ ((2 < List.length (videoBuffer s'))%nat ->
      (exists head rest,
          videoBuffer s' = head :: rest /\ tNow - time head <= window)
      /\ totalBytes s' <= Mem.hardLimit
      /\ sumLengths (videoBuffer s') <= Mem.hardLimit
      /\ (nondecreasing
            (clockReadings (evs ++ [(e, Mem.Data data tPush tNow)])) = true ->
          StronglySorted byTime (videoBuffer s')
          /\ Forall (fun ch => tNow - time ch <= window) (videoBuffer s'))).
Proof.
  intros s s' pushed window.
  destruct (onData_buffer data tPush tNow s) as [B1 B2]. cbv zeta in B1, B2.
  pose proof (evict_Evicts (Mem.cutoffAt (config s) tNow) pushed
                (totalBytes s + Z.of_nat (List.length data))) as E.
  fold pushed in B1, B2.
  change (stateOf (Mem.onData data tPush tNow s)) with s' in B1, B2.
  rewrite <- B1, <- B2 in E.
  change (Mem.cutoffAt (config s) tNow) with (tNow - window) in E.
  split; [exact E|]. split; [eapply Evicts_keeps_two; exact E|].
  intro More.
  destruct (Evicts_stops _ _ _ _ _ E) as [Few | [c0 [rest [Eq [Hc Ht]]]]];
    [lia|].
  assert (Sum : totalBytes s' = sumLengths (videoBuffer s')).
  { eapply Evicts_sum; [exact E|].
    unfold pushed. rewrite sumLengths_app, sumLengths_cons.
    pose proof (run_totalBytes evs (initialState c) eq_refl) as I.
    fold s in I. rewrite I. unfold chunkLength. cbn. lia. }
  split; [exists c0, rest; split; [exact Eq | lia]|].
  split; [exact Ht|]. split; [rewrite <- Sum; exact Ht|].
  intro N.
  unfold clockReadings in N. rewrite flat_map_app in N. cbn [flat_map snd] in N.
  rewrite app_nil_r in N. fold (clockReadings evs) in N.
  apply nondecreasing_last in N. destruct N as [N2 [lo N1]].
  assert (Ok : bufferOk tPush s).
  { apply (run_bufferOk evs (initialState c) lo tPush); [|exact N1].
    split; constructor. }
  destruct Ok as [S F].
  destruct (pushed_ok tPush tPush data (videoBuffer s) (Z.le_refl _) S F)
    as [PS PF].
  pose proof (Evicts_sorted _ _ _ _ _ E PS) as S'.
  split; [exact S'|].
  rewrite Eq in S' |- *. apply StronglySorted_inv in S'. destruct S' as [_ S'].
  constructor; [lia|].
  eapply Forall_impl; [|exact S']. unfold byTime. intros; lia.
Qed.

(** ** Start and stop *)

Example recordingState_is_recording :
  isRecording recordingState = true
  /\ recordProcess recordingState = Some {| pid := 4242; stdinPiped := true |}
  /\ autoRecord (config recordingState) = true.
Proof. repeat split. Qed.

(** C4.  [startRecording] called while [isRecording] is set, and
    [stopRecording] called while it is not, return at once: no call to
    the outside world is made, so no process is spawned, and the state is
    the one they were called in. *)
Theorem start_stop_noop (e : Env) (s : State) :
  (isRecording s = true ->
   Mem.startRecording e s = (Normal tt, s, [])
   /\ Disk.startRecording e s = (Normal tt, s, []))
  /\ (isRecording s = false ->
      Mem.stopRecording e s = (Normal tt, s, [])
      /\ Disk.stopRecording e s = (Normal tt, s, [])).
Proof.
  split; intro H.
  - unfold Mem.startRecording, Disk.startRecording, bind, get.
    rewrite H. split; reflexivity.
  - unfold Mem.stopRecording, Disk.stopRecording, Common.stopRecording, bind, get.
    rewrite H. split; reflexivity.
Qed.

Lemma start_stop_noop_witness :
  Mem.startRecording quietEnv recordingState = (Normal tt, recordingState, [])
  /\ Disk.stopRecording quietEnv (initialState defaultConfig)
     = (Normal tt, initialState defaultConfig, []).
Proof.
  split.
  - apply (proj1 (start_stop_noop quietEnv recordingState)). reflexivity.
  - apply (proj2 (start_stop_noop quietEnv (initialState defaultConfig))).
    reflexivity.
Defined.

(** ** Extraction *)

Lemma mem_saveReplay_locked e now answers s :
  isSavingReplay s = true ->
  Mem.saveReplay e now answers s
  = (Normal None, s, if isRecording s then [duplicateLog] else []).
Proof.
  intro H. unfold Mem.saveReplay, bind, get. rewrite H.
  destruct (isRecording s); reflexivity.
Qed.

Lemma disk_saveReplay_locked e now newPid s :
  isSavingReplay s = true ->
  Disk.saveReplay e now newPid s
  = (Normal None, s, if isRecording s then [duplicateLog] else []).
Proof.
  intro H. unfold Disk.saveReplay, bind, get. rewrite H.
  destruct (isRecording s); reflexivity.
Qed.

(** C3.  A [saveReplay] call made while [isSavingReplay] is set returns
    without a job: the state, the lock included, is the one it was called
    in, and the only call made is the console message of the duplicate
    request; no file is written and no process is spawned. *)
Theorem saveReplay_single_flight (e : Env) (now : Z) (answers : list bool)
    (newPid : nat) (s : State) :
  isSavingReplay s = true ->
  let log := if isRecording s then [duplicateLog] else [] in
  Mem.saveReplay e now answers s = (Normal None, s, log)
  /\ Disk.saveReplay e now newPid s = (Normal None, s, log).
Proof.
  intros H log. subst log. split.
  - apply mem_saveReplay_locked, H.
  - apply disk_saveReplay_locked, H.
Qed.

Lemma saveReplay_single_flight_witness :
  Mem.saveReplay quietEnv 5000 [] busyState = (Normal None, busyState, [duplicateLog])
  /\ Disk.saveReplay quietEnv 5000 7%nat busyState
     = (Normal None, busyState, [duplicateLog]).
Proof.
  apply (saveReplay_single_flight quietEnv 5000 [] 7%nat busyState).
  reflexivity.
Defined.

(** C6 as stated fails: with an extraction in flight, a request made on an
    empty buffer while recording is dropped without any notification. *)
Lemma insufficient_buffer_counterexample :
  isRecording busyEmptyState = true
  /\ videoBuffer busyEmptyState = []
  /\ Mem.saveReplay quietEnv 7000 [] busyEmptyState
     = (Normal None, busyEmptyState, [duplicateLog])
  /\ filter isNotify (effectsOf (Mem.saveReplay quietEnv 7000 [] busyEmptyState)) = [].
Proof. repeat split. Qed.

(** C6, amended.  When [saveReplay] is called while recording and no
    extraction is in flight, and the buffer is empty or holds less than
    1024 bytes (in-memory revision), or the buffer directory lists no
    segment file of positive size (segment-file revision), the only call
    made is the notification that too little is buffered: no file is
    created, no process is spawned, no job starts and the state, the lock
    included, is unchanged. *)
Theorem insufficient_buffer (e : Env) (now : Z) (answers : list bool)
    (newPid : nat) (s : State) :
  isRecording s = true ->
  isSavingReplay s = false ->
  (videoBuffer s = [] ->
   Mem.saveReplay e now answers s
   = (Normal None, s, [Notify "No video buffered yet."]))
  /\ (videoBuffer s <> [] -> totalBytes s < 1024 ->
      Mem.saveReplay e now answers s
      = (Normal None, s, [Notify "Not enough video buffered yet."]))
  /\ (forall names,
        readdirSync e (tempDir e) = Some names ->
        Disk.statAll e (Disk.sort (filter (Js.endsWith ".ts") names)) = [] ->
        Disk.saveReplay e now newPid s
        = (Normal None, s, [Notify "No video buffered yet."])).
Proof.
  intros R L. repeat split.
  - intro B. unfold Mem.saveReplay, bind, get. rewrite R, L, B. reflexivity.
  - intros B T. unfold Mem.saveReplay, bind, get. rewrite R, L.
    destruct (videoBuffer s) as [|c rest]; [contradiction|].
    apply Z.ltb_lt in T. cbn. rewrite T. reflexivity.
  - intros names D A. unfold Disk.saveReplay, bind, get. rewrite R, L. cbn.
    rewrite D, A. reflexivity.
Qed.

Lemma insufficient_buffer_witness :
  Mem.saveReplay quietEnv 5000 [] recordingState
  = (Normal None, recordingState, [Notify "No video buffered yet."])
  /\ Mem.saveReplay quietEnv 5000 [] nearEmptyState
     = (Normal None, nearEmptyState, [Notify "Not enough video buffered yet."])
  /\ Disk.saveReplay quietEnv 5000 7%nat recordingState
     = (Normal None, recordingState, [Notify "No video buffered yet."]).
Proof.
  pose proof (insufficient_buffer quietEnv 5000 [] 7%nat recordingState
                eq_refl eq_refl) as H.
  pose proof (insufficient_buffer quietEnv 5000 [] 7%nat nearEmptyState
                eq_refl eq_refl) as H'.
  split; [|split].
  - apply (proj1 H). reflexivity.
  - apply (proj1 (proj2 H')); [discriminate | reflexivity].
  - apply (proj2 (proj2 H) []); reflexivity.
Defined.

(** ** The resume flag *)

Lemma loadConfig_full (c : Config) : Common.loadConfig (Some (Common.full c)) = c.
Proof. destruct c; reflexivity. Qed.

Lemma saveConfigToDisk_run e s :
  Common.saveConfigToDisk e s = (Normal tt, s, configWrite e (config s)).
Proof.
  unfold Common.saveConfigToDisk, configWrite, bind, get, emit, when, ret.
  destruct (writeThrows e (configPath e)); reflexivity.
Qed.

Lemma stopRecording_run clears e s :
  isRecording s = true ->
  Common.stopRecording clears e s
  = (Normal tt,
     setConfig (setAutoRecord false (config s))
       (setUseSystemAudio false (setIsRecording false s)),
     stopCalls clears e s).
Proof.
  intro R.
  unfold Common.stopRecording, Common.saveConfigToDisk, stopCalls, configWrite,
    bind, get, emit, modify, when, ret.
  rewrite R. destruct s as [r p u c l t b n i]. cbn [negb recordProcess config
    cleanupInterval setIsRecording setUseSystemAudio setConfig isRecording
    useSystemAudio isSavingReplay recordingStartTime videoBuffer totalBytes].
  destruct (windowLive e), p as [[pd piped]|], (writeThrows e (configPath e));
    try destruct piped; try destruct (clears && i); reflexivity.
Qed.

Lemma mem_startRecording_then_run e devices newPid now s :
  let usa := Planner.useSystemAudio (config s) in
  let c' := setAutoRecord true (config s) in
  Mem.startRecording_then e devices newPid now s
  = (Normal tt,
     setConfig c'
       (setIsRecording true
          (setBuffer [] 0
             (setRecordProcess (Some {| pid := newPid; stdinPiped := usa |})
                (setRecordingStartTime now (setUseSystemAudio usa s))))),
     [Log "Spawning ffmpeg with: ";
      Spawn newPid (Planner.recordArgs Planner.memory (config s) devices) usa]
     ++ configWrite e c' ++ startedCalls e usa).
Proof.
  cbv zeta.
  unfold Mem.startRecording_then, Common.saveConfigToDisk, startedCalls,
    configWrite, bind, get, emit, modify, when, ret.
  destruct s as [r p u c l t b n i]. cbn [config].
  destruct (windowLive e), (writeThrows e (configPath e)),
    (Planner.useSystemAudio c); reflexivity.
Qed.

Lemma disk_startRecording_then_run e devices newPid s :
  let usa := Planner.useSystemAudio (config s) in
  let c' := setAutoRecord true (config s) in
  Disk.startRecording_then e devices newPid s
  = (Normal tt,
     setCleanupInterval true
       (setConfig c'
          (setIsRecording true
             (setRecordProcess (Some {| pid := newPid; stdinPiped := usa |})
                (setUseSystemAudio usa s)))),
     [Log "Spawning ffmpeg with: ";
      Spawn newPid
        (Planner.recordArgs (Planner.disk (tempDir e)) (config s) devices) usa]
     ++ (if usa then [StdinWrite newPid 192000] else [])
     ++ configWrite e c' ++ startedCalls e usa
     ++ [SetInterval CleanSegments 15000]).
Proof.
  cbv zeta.
  unfold Disk.startRecording_then, Common.saveConfigToDisk, startedCalls,
    configWrite, bind, get, emit, modify, when, ret.
  destruct s as [r p u c l t b n i]. cbn [config].
  destruct (windowLive e), (writeThrows e (configPath e)),
    (Planner.useSystemAudio c); reflexivity.
Qed.

Lemma whenReady_run start e s :
  Common.whenReady start e s
  = if autoRecord (config s)
    then (emit (SetLoginItemSettings (autoStart (config s))) ;; start e) s
    else (Normal tt, s, [SetLoginItemSettings (autoStart (config s))]).
Proof.
  unfold Common.whenReady, bind, get, emit, when, ret.
  destruct (autoRecord (config s)); [|reflexivity].
  destruct (start e s) as [[r s'] es]. reflexivity.
Qed.

Lemma In_configWrite e c pre post :
  In (WriteConfig c) (pre ++ configWrite e c ++ post).
Proof. apply in_or_app. right. left. reflexivity. Qed.

(** ** Saving the configuration *)

Lemma differs_same (a : string) : Common.differs a (Some a) = false.
Proof. unfold Common.differs. now rewrite String.eqb_refl. Qed.

Lemma assign_full (c d : Config) : Common.assign c (Common.full d) = d.
Proof. destruct d; reflexivity. Qed.

(** The handler compares the selectors after [Object.assign] has copied
    them into [config]: when the object received carries both selectors,
    the comparison never differs, [stopRecording] is not called and no
    restart timer is armed, whatever the selectors were before. *)
Lemma saveConfig_full_run (stop : Env -> M State unit) (e : Env)
    (c : Config) (s : State) :
  Common.saveConfig stop e (Common.full c) s
  = (Normal tt, setConfig c s,
     (if Bool.eqb (autoStart c) (autoStart (config s)) then []
      else [SetLoginItemSettings (autoStart c)])
     ++ configWrite e c).
Proof.
  unfold Common.saveConfig, Common.saveConfigToDisk, configWrite,
    bind, get, emit, modify, when, ret.
  destruct s as [r p u c0 l t b n i]. cbn [config setConfig isRecording].
  rewrite assign_full.
  cbn [Common.full Common.p_audioDevice Common.p_systemAudioDevice].
  rewrite !differs_same. cbn [orb andb].
  destruct (Bool.eqb (autoStart c) (autoStart c0)),
    (writeThrows e (configPath e)); reflexivity.
Qed.

Lemma ensureDir_ok (e : Env) (dir : string) (s : State) :
  existsSync e dir = true \/ mkdirThrows e dir = false ->
  Common.ensureDir e dir s
  = (Normal tt, s, if existsSync e dir then [] else [Mkdir dir]).
Proof.
  intro H. unfold Common.ensureDir, bind, emit, throw, ret.
  destruct (existsSync e dir); [reflexivity|].
  destruct H as [H|H]; [discriminate|]. rewrite H. reflexivity.
Qed.

Lemma edit_keeps_autoRecord (ch : Window.Change) (w : Config) :
  autoRecord (Window.edit ch w) = autoRecord w.
Proof. destruct ch; reflexivity. Qed.

Lemma fileAfter_app (e : Env) (a b : list Effect) (f : option Config) :
  fileAfter e (a ++ b) f = fileAfter e b (fileAfter e a f).
Proof. apply fold_left_app. Qed.

Lemma fileAfter_configWrite (e : Env) (c : Config) (f : option Config) :
  writeThrows e (configPath e) = false ->
  fileAfter e (configWrite e c) f = Some c.
Proof. intro W. unfold configWrite, fileAfter. rewrite W. reflexivity. Qed.

Lemma fileAfter_stop (clears : bool) (e : Env) (s : State) (f : option Config) :
  writeThrows e (configPath e) = false ->
  fileAfter e (stopCalls clears e s) f = Some (setAutoRecord false (config s)).
Proof.
  intro W. unfold stopCalls. rewrite !fileAfter_app.
  rewrite (fileAfter_configWrite e _ _ W).
  destruct (windowLive e); reflexivity.
Qed.

Lemma unlinkEach_state (e : Env) (files : list string) (s : State) :
  stateOf (Mem.unlinkEach e files s) = s.
Proof.
  induction files as [|f rest IH]; [reflexivity|].
  cbn [Mem.unlinkEach]. unfold bind, emit, throw.
  destruct (unlinkThrows e (Js.pathJoin (tempDir e) f)); [reflexivity|].
  destruct (Mem.unlinkEach e rest s) as [[c s'] es].
  unfold stateOf in *. cbn [fst snd] in *. now subst.
Qed.

(** [startRecording] of the in-memory revision, called while not
    recording with a buffer directory that exists or can be created,
    ends with the device query. *)
Lemma mem_startRecording_fetches (e : Env) (s : State) :
  isRecording s = false ->
  existsSync e (tempDir e) = true \/ mkdirThrows e (tempDir e) = false ->
  exists before,
    Mem.startRecording e s = (Normal tt, s, before ++ [FetchDevices]).
Proof.
  intros R D. unfold Mem.startRecording, bind at 1, get. rewrite R.
  unfold bind at 1. rewrite (ensureDir_ok e (tempDir e) s D).
  unfold bind, tryCatch, emit, ret, throw.
  destruct (existsSync e (tempDir e)).
  - destruct (readdirSync e (tempDir e)) as [files|].
    + pose proof (unlinkEach_state e files s) as U.
      destruct (Mem.unlinkEach e files s) as [[c s'] es].
      unfold stateOf in U. cbn [fst snd] in U. subst s'.
      exists es. destruct c; cbn; rewrite ?app_nil_r; reflexivity.
    + exists []. reflexivity.
  - exists [Mkdir (tempDir e)]. reflexivity.
Qed.

Lemma launch_resumes (e : Env) (c : Config) :
  existsSync e (tempDir e) = true \/ mkdirThrows e (tempDir e) = false ->
  autoRecord c = true ->
  exists before,
    Mem.whenReady e (launchFrom (Some c))
    = (Normal tt, launchFrom (Some c),
       SetLoginItemSettings (autoStart c) :: before ++ [FetchDevices]).
Proof.
  intros D A. unfold Mem.whenReady, launchFrom. cbn [option_map].
  rewrite whenReady_run, loadConfig_full. cbn [config initialState].
  rewrite A.
  destruct (mem_startRecording_fetches e (initialState c) eq_refl D)
    as [before H].
  exists before. unfold bind, emit. rewrite H. reflexivity.
Qed.

Lemma launch_idle (e : Env) (c : Config) :
  autoRecord c = false ->
  Mem.whenReady e (launchFrom (Some c))
  = (Normal tt, launchFrom (Some c), [SetLoginItemSettings (autoStart c)]).
Proof.
  intro A. unfold Mem.whenReady, launchFrom. cbn [option_map].
  rewrite whenReady_run, loadConfig_full. cbn [config initialState].
  now rewrite A.
Qed.

(** C10, what holds of it and where it fails.  An effective
    [stopRecording] clears [config.autoRecord] and writes the file, the
    continuation of [startRecording] sets it and writes the file, and a
    launch from the file as the stop wrote it does not record.  But the
    settings window keeps the copy of the configuration it loaded, the
    resume flag included, and sends all of it back on every edit.  So
    after a stop, the first edit made in a window that loaded its copy
    while the flag was set, which starts nothing, writes the flag back as
    true, and the next launch records: the stop has not lasted. *)
Theorem autoRecord_overwritten_by_window (e e' : Env) (s : State)
    (ch : Window.Change) (file : option Config) :
  isRecording s = true ->
  autoRecord (config s) = true ->
  writeThrows e (configPath e) = false ->
  existsSync e' (tempDir e') = true \/ mkdirThrows e' (tempDir e') = false ->
  let w := Window.mount s in
  let stop := Mem.stopRecording e s in
  let file1 := fileAfter e (effectsOf stop) file in
  let sent := snd (Window.handleConfigChange ch w) in
  let save := Mem.saveConfig e sent (stateOf stop) in
  let file2 := fileAfter e (effectsOf save) file1 in
  (forall s0 devices newPid now f,
      let start := Mem.startRecording_then e devices newPid now s0 in
      isRecording (stateOf start) = true
      /\ fileAfter e (effectsOf start) f = Some (setAutoRecord true (config s0)))
  /\ isRecording (stateOf stop) = false
  /\ file1 = Some (setAutoRecord false (config s))
  /\ effectsOf (Mem.whenReady e' (launchFrom file1))
     = [SetLoginItemSettings (autoStart (config s))]
  /\ isRecording (stateOf save) = false
  /\ filter isSpawn (effectsOf save) = []
  /\ file2 = Some (Window.edit ch (config s))
  /\ autoRecord (Window.edit ch (config s)) = true
  /\ In FetchDevices (effectsOf (Mem.whenReady e' (launchFrom file2)))
  /\ forall devices newPid now,
       isRecording
         (stateOf (Mem.startRecording_then e' devices newPid now
                     (stateOf (Mem.whenReady e' (launchFrom file2))))) = true.
Proof.
  intros R A W D w stop file1 sent save file2.
  assert (Stop : stop = (Normal tt,
                         setConfig (setAutoRecord false (config s))
                           (setUseSystemAudio false (setIsRecording false s)),
                         stopCalls false e s)).
  { apply stopRecording_run, R. }
  assert (F1 : file1 = Some (setAutoRecord false (config s))).
  { unfold file1. rewrite Stop. apply fileAfter_stop, W. }
  assert (Save : save
                 = (Normal tt, setConfig (Window.edit ch (config s)) (stateOf stop),
                    (if Bool.eqb (autoStart (Window.edit ch (config s)))
                          (autoStart (config (stateOf stop)))
                     then []
                     else [SetLoginItemSettings
                             (autoStart (Window.edit ch (config s)))])
                    ++ configWrite e (Window.edit ch (config s)))).
  { apply saveConfig_full_run. }
  assert (F2 : file2 = Some (Window.edit ch (config s))).
  { unfold file2. rewrite Save. unfold effectsOf. cbn [snd].
    rewrite fileAfter_app. apply fileAfter_configWrite, W. }
  assert (A2 : autoRecord (Window.edit ch (config s)) = true).
  { now rewrite edit_keeps_autoRecord. }
  repeat (match goal with |- _ /\ _ => split end).
  - intros s0 devices newPid now f. cbv zeta.
    rewrite mem_startRecording_then_run. unfold stateOf, effectsOf.
    cbn [fst snd]. split; [destruct s0; reflexivity|].
    rewrite !fileAfter_app. rewrite (fileAfter_configWrite e _ _ W).
    unfold startedCalls.
    destruct (windowLive e), (Planner.useSystemAudio (config s0)); reflexivity.
  - rewrite Stop. destruct s; reflexivity.
  - exact F1.
  - rewrite F1, launch_idle by reflexivity. destruct s; reflexivity.
  - rewrite Save, Stop. destruct s; reflexivity.
  - rewrite Save. unfold effectsOf, configWrite. cbn [snd].
    rewrite filter_app.
    destruct (Bool.eqb _ _), (writeThrows e (configPath e)); reflexivity.
  - exact F2.
  - exact A2.
  - rewrite F2. destruct (launch_resumes e' _ D A2) as [before L].
    rewrite L. unfold effectsOf. cbn [snd]. right.
    apply in_or_app. right. left. reflexivity.
  - intros devices newPid now. rewrite mem_startRecording_then_run.
    unfold stateOf. cbn [fst snd].
    destruct (stateOf (Mem.whenReady e' (launchFrom file2))); reflexivity.
Qed.

Lemma autoRecord_overwritten_by_window_witness :
  let stopped := stateOf (Mem.stopRecording quietEnv recordingState) in
  let sent :=
    snd (Window.handleConfigChange (Window.BufferTime "60")
           (Window.mount recordingState)) in
  let file1 := fileAfter quietEnv (effectsOf (Mem.stopRecording quietEnv recordingState))
                 None in
  let file2 := fileAfter quietEnv (effectsOf (Mem.saveConfig quietEnv sent stopped))
                 file1 in
  option_map autoRecord file1 = Some false
  /\ option_map autoRecord file2 = Some true
  /\ option_map bufferTime file2 = Some "60"
  /\ In FetchDevices (effectsOf (Mem.whenReady quietEnv (launchFrom file2))).
Proof.
  cbv zeta.
  destruct (autoRecord_overwritten_by_window quietEnv quietEnv recordingState
              (Window.BufferTime "60") None eq_refl eq_refl eq_refl
              (or_introl eq_refl))
    as [_ [_ [F1 [_ [_ [_ [F2 [_ [L _]]]]]]]]].
  cbv zeta in F1, F2, L.
  split; [rewrite F1; reflexivity|].
  split; [rewrite F2; reflexivity|].
  split; [rewrite F2; reflexivity | exact L].
Defined.

(** C1 at the failing input: the microphone selector changes from
    [Default] to another device while a recording is active, and the
    handler only writes the configuration: recording goes on with the old
    arguments, nothing is sent on [recording-state] and no timer is
    armed, in either revision. *)
Theorem saveConfig_changed_selector_no_restart :
  let c' := withAudioDevice "Microphone (USB Audio)" (config recordingState) in
  audioDevice (config recordingState) = "Default"
  /\ audioDevice c' = "Microphone (USB Audio)"
  /\ isRecording recordingState = true
  /\ Mem.saveConfig quietEnv micChanged recordingState
     = (Normal tt, setConfig c' recordingState, [WriteConfig c'])
  /\ Disk.saveConfig quietEnv micChanged recordingState
     = (Normal tt, setConfig c' recordingState, [WriteConfig c'])
  /\ isRecording (setConfig c' recordingState) = true.
Proof. repeat split. Qed.

(** The restart the handler contains does run when the object received
    lacks a selector: one stop, then the restart timer. *)
Example saveConfig_partial_object_restarts :
  let fpsOnly :=
    {| Common.p_fps := Some "30"; Common.p_codec := None;
       Common.p_bitrate := None; Common.p_bufferTime := None;
       Common.p_outputFolder := None; Common.p_shortcut := None;
       Common.p_autoStart := None; Common.p_autoRecord := None;
       Common.p_audioDevice := None; Common.p_systemAudioDevice := None |} in
  let c' := setAutoRecord false (Common.assign defaultConfig fpsOnly) in
  effectsOf (Mem.saveConfig quietEnv fpsOnly recordingState)
  = [Send "stop-system-audio" None; StdinEnd 4242; Kill 4242 "SIGINT";
     SetTimeout ForceKill 3000; WriteConfig c';
     Send "recording-state" (Some false); SetTimeout Restart 3000;
     WriteConfig c'].
Proof. reflexivity. Qed.

(** ** The extraction lock *)

(** The listeners of the processes an extraction spawns release the lock,
    whatever the exit code or the error. *)
Lemma listeners_release_lock (e : Env) (s : State) :
  (forall j message,
      isSavingReplay (stateOf (Mem.onExtractError e j message s)) = false)
  /\ (forall j code,
        isSavingReplay (stateOf (Mem.onExtractExit e j code s)) = false)
  /\ (forall j message,
        isSavingReplay (stateOf (Disk.onConcatError j message s)) = false)
  /\ (forall j code newPid,
        Common.isZero code = false ->
        isSavingReplay (stateOf (Disk.onConcatExit e j code newPid s)) = false)
  /\ (forall j message,
        isSavingReplay (stateOf (Disk.onTrimError e j message s)) = false)
  /\ (forall j code,
        isSavingReplay (stateOf (Disk.onTrimExit e j code s)) = false).
Proof.
  destruct s as [r p u c l t b n i].
  repeat (match goal with |- _ /\ _ => split end); intros.
  - unfold Mem.onExtractError, Mem.unlinkIfExists.
    cbn. now destruct (existsSync e (Mem.tempDump j)).
  - unfold Mem.onExtractExit, Mem.unlinkIfExists.
    cbn. now destruct (existsSync e (Mem.tempDump j)), (Common.isZero code).
  - reflexivity.
  - unfold Disk.onConcatExit. rewrite H. reflexivity.
  - reflexivity.
  - unfold Disk.onTrimExit. cbn. destruct (Common.isZero code); [|reflexivity].
    destruct (statSync e (Disk.outputFile j)) as [sz|]; [|reflexivity].
    now destruct (sz <? 1024).
Qed.

Ltac keeps_lock :=
  apply preserves_modify;
  let s := fresh "s" in let H := fresh "H" in
  intros s H; destruct s; cbn in *; first [exact H | reflexivity].

Lemma stopRecording_locked k e : preserves locked (Common.stopRecording k e).
Proof. unfold Common.stopRecording, Common.saveConfigToDisk. callback; keeps_lock. Qed.

Lemma unlinkEach_locked e files : preserves locked (Mem.unlinkEach e files).
Proof.
  induction files as [|f rest IH]; cbn; [apply preserves_ret|].
  callback. exact IH.
Qed.

(** No callback other than the listeners of a job releases the lock. *)
Lemma lock_kept (e : Env) (ev : Mem.Event) :
  isJobListener ev = false -> preserves locked (Mem.handle e ev).
Proof.
  destruct ev; cbn [isJobListener Mem.handle]; intro H; try discriminate.
  - unfold Mem.startRecording, Common.ensureDir. callback.
    apply unlinkEach_locked.
  - unfold Mem.startRecording_then, Common.saveConfigToDisk.
    callback; keeps_lock.
  - unfold Mem.onData. callback; keeps_lock.
  - unfold Common.onRecordExit. callback; keeps_lock.
  - apply stopRecording_locked.
  - unfold Common.onForceKill. callback; keeps_lock.
  - intros s L. unfold Mem.void, stateOf, bind.
    rewrite (mem_saveReplay_locked e now answers s L). exact L.
  - unfold Mem.saveConfig, Common.saveConfig, Common.saveConfigToDisk.
    callback; keeps_lock.
Qed.

Lemma run_locked evs :
  forall s, locked s -> locked (Mem.run (withoutJobListeners evs) s).
Proof.
  induction evs as [|[e ev] rest IH]; intros s L; [exact L|].
  unfold withoutJobListeners. cbn [filter snd].
  destruct (isJobListener ev) eqn:J; cbn [negb]; [apply IH, L|].
  cbn [Mem.run]. apply IH. apply (lock_kept e ev J s L).
Qed.

(** ** Failing extractions *)

(** C2 at the failing input: [saveReplay] sets the lock and then
    [ensureDir] throws on the output folder.  The call ends by the
    exception with the lock set and no job started; as no listener of a
    job exists, no later callback releases the lock, and every later
    request is dropped as a duplicate.  Both revisions. *)
Theorem saveReplay_exception_keeps_lock :
  let r := Mem.saveReplay lostFolderEnv 5000 [] lostFolderState in
  let d := Disk.saveReplay lostFolderEnv 5000 7%nat lostFolderState in
  isRecording lostFolderState = true
  /\ isSavingReplay lostFolderState = false
  /\ completionOf r = Thrown "mkdirSync"
  /\ isSavingReplay (stateOf r) = true
  /\ effectsOf r = [Mkdir lostFolder]
  /\ completionOf d = Thrown "mkdirSync"
  /\ isSavingReplay (stateOf d) = true
  /\ (forall evs,
        isSavingReplay (Mem.run (withoutJobListeners evs) (stateOf r)) = true)
  /\ (forall e now answers,
        Mem.saveReplay e now answers (stateOf r)
        = (Normal None, stateOf r, [duplicateLog])).
Proof.
  cbv zeta.
  repeat (match goal with |- _ /\ _ => split end); try reflexivity.
  intro evs. apply run_locked. reflexivity.
Qed.

(** The same happens in the segment-file revision when the list of
    segments cannot be written. *)
Example disk_saveReplay_write_failure_keeps_lock :
  let e :=
    {| userData := userData quietEnv; videos := videos quietEnv;
       formatTime := formatTime quietEnv; windowLive := true;
       existsSync := fun _ => true; mkdirThrows := fun _ => false;
       readdirSync := fun _ => Some ["buffer_20260101000000.ts"];
       statSync := fun _ => Some 4096;
       unlinkThrows := fun _ => false; writeThrows := fun _ => true |} in
  let d := Disk.saveReplay e 5000 7%nat recordingState in
  completionOf d = Thrown "writeFileSync" /\ isSavingReplay (stateOf d) = true.
Proof. split; reflexivity. Qed.

(** ** Validation of the artifact *)

Example sampleJob_started :
  completionOf (Mem.saveReplay quietEnv 5000 [] bufferedState)
  = Normal (Some sampleJob)
  /\ isSavingReplay (stateOf (Mem.saveReplay quietEnv 5000 [] bufferedState)) = true.
Proof. split; reflexivity. Qed.

(** The segment-file revision checks the artifact after a successful
    trim: below 1024 bytes it is deleted and the failure is reported. *)
Lemma onTrimExit_validates (e : Env) (j : Disk.Job) (s : State) (n : Z) :
  statSync e (Disk.outputFile j) = Some n ->
  Disk.onTrimExit e j (Some 0) s
  = (Normal tt, setIsSavingReplay false s,
     Unlink (Disk.tempConcatFile j)
     :: (if n <? 1024
         then [Log "Output file is too small, likely corrupt";
               Notify "Replay save failed: output file is empty.";
               Unlink (Disk.outputFile j)]
         else [Notify Common.savedBody])).
Proof.
  intro H. unfold Disk.onTrimExit, Disk.unlinkQuiet, bind, emit, modify.
  cbn [Common.isZero Z.eqb]. rewrite H. destruct (n <? 1024); reflexivity.
Qed.

(** The in-memory revision does not look at the artifact: after exit
    code 0 the calls are the removal of the dump and the notification of
    success, whatever [statSync] would answer. *)
Lemma onExtractExit_unchecked (e : Env) (j : Mem.Job) (s : State) :
  Mem.onExtractExit e j (Some 0) s
  = (Normal tt, setIsSavingReplay false s,
     (if existsSync e (Mem.tempDump j) then [Unlink (Mem.tempDump j)] else [])
     ++ [Notify Common.savedBody]).
Proof.
  unfold Mem.onExtractExit, Mem.unlinkIfExists, bind, emit, modify, when, ret.
  cbn [Common.isZero Z.eqb]. destruct (existsSync e (Mem.tempDump j)); reflexivity.
Qed.

(** C8 at the failing input: the extract process of the in-memory
    revision exits with code 0 and leaves an artifact of 0 bytes.  The
    listener reports the replay as saved and leaves the artifact in
    place, where the listener of the segment-file revision deletes the
    artifact and reports the failure. *)
Theorem extract_exit_skips_validation :
  let busy := stateOf (Mem.saveReplay quietEnv 5000 [] bufferedState) in
  statSync emptyArtifactEnv (Mem.outputFile sampleJob) = Some 0
  /\ Mem.onExtractExit emptyArtifactEnv sampleJob (Some 0) busy
     = (Normal tt, setIsSavingReplay false busy,
        [Unlink (Mem.tempDump sampleJob); Notify Common.savedBody])
  /\ Disk.onTrimExit emptyArtifactEnv sampleDiskJob (Some 0) busy
     = (Normal tt, setIsSavingReplay false busy,
        [Unlink (Disk.tempConcatFile sampleDiskJob);
         Log "Output file is too small, likely corrupt";
         Notify "Replay save failed: output file is empty.";
         Unlink (Disk.outputFile sampleDiskJob)]).
Proof.
  cbv zeta. repeat (match goal with |- _ /\ _ => split end); reflexivity.
Qed.

(** ** A run that evicts *)

Lemma eviction_after_append_witness :
  let s' := Mem.run (sampleRun ++ [(quietEnv, Mem.Data kilobyte 400000 400002)])
              (initialState defaultConfig) in
  map time (videoBuffer s') = [100000; 200000; 400000]
  /\ Forall (fun ch => 400002 - time ch <= 315000) (videoBuffer s')
  /\ totalBytes s' <= Mem.hardLimit.
Proof.
  split; [reflexivity|].
  pose proof (eviction_after_append defaultConfig sampleRun quietEnv kilobyte
                400000 400002) as H.
  cbv zeta in H. destruct H as [_ [_ H]].
  assert (More : (2 < List.length
                    (videoBuffer
                       (stateOf
                          (Mem.handle quietEnv (Mem.Data kilobyte 400000 400002)
                             (Mem.run sampleRun (initialState defaultConfig))))))%nat).
  { vm_compute. lia. }
  destruct (H More) as [_ [H2 [_ H4]]].
  destruct (H4 eq_refl) as [_ H5]. split; [exact H5 | exact H2].
Defined.


(** * Further properties *)

(** ** The command line *)

(** The inputs of the command line, in order. *)
Lemma recordArgs_inputs (r : Revision) (dir : string) (c : Config)
    (currentDevices : list string) :
  Planner.valuesOf "-i" (Planner.recordArgs (flavourOf r dir) c currentDevices)
  = (if Planner.useSystemAudio c then ["pipe:0"] else [])
    ++ [videoSource r c]
    ++ (if Planner.micUsable c currentDevices
        then ["audio=" +++ Planner.mappedMic c currentDevices] else []).
Proof.
  unfold Planner.recordArgs, Planner.inputArgs, Planner.videoMap,
    Planner.audioMap, Planner.audioInputs, Planner.videoInputIndex,
    Planner.sysAudioInputIndex, Planner.micInputIndex.
  destruct (Planner.useSystemAudio c), (Planner.micUsable c currentDevices);
    destruct r;
    cbn -[String.append Js.showZ Planner.fpsNum Js.includes Planner.options];
    unfold Planner.presetOf;
    destruct (Js.includes "nvenc" (codec c));
    cbn -[String.append Js.showZ Planner.fpsNum Js.includes];
    reflexivity.
Qed.

(** X1.  In the three revisions the command line names the configured
    codec once, the configured bitrate in megabits once, and one preset:
    [p5] when the codec name contains [nvenc], [ultrafast] otherwise;
    whatever the configured strings are, they are read as values, never
    as options. *)
Theorem recordArgs_encoder (r : Revision) (dir : string) (c : Config)
    (currentDevices : list string) :
  let a := Planner.recordArgs (flavourOf r dir) c currentDevices in
  Planner.valuesOf "-c:v" a = [codec c]
  /\ Planner.valuesOf "-b:v" a = [bitrate c +++ "M"]
  /\ Planner.valuesOf "-preset" a
     = [if Js.includes "nvenc" (codec c) then "p5" else "ultrafast"].
Proof.
  cbv zeta.
  unfold Planner.recordArgs, Planner.inputArgs, Planner.videoMap,
    Planner.audioMap, Planner.audioInputs, Planner.videoInputIndex,
    Planner.sysAudioInputIndex, Planner.micInputIndex.
  destruct (Planner.useSystemAudio c), (Planner.micUsable c currentDevices);
    destruct r;
    cbn -[String.append Js.showZ Planner.fpsNum Js.includes Planner.options];
    unfold Planner.presetOf;
    destruct (Js.includes "nvenc" (codec c));
    cbn -[String.append Js.showZ Planner.fpsNum Js.includes];
    repeat split; reflexivity.
Qed.

(** X2.  For a frame rate configured in plain ASCII that reads, if as a
    number, as one of at most 2^40 in absolute value, the in-memory
    revision captures at [parseInt(config.fps)] frames per second, at 60
    when that is NaN or 0, so never at 0, and asks for a key frame every
    two seconds of that rate. *)
Theorem recordArgs_frame_rate (c : Config) (currentDevices : list string) :
  readsWithin modest (fps c) = true ->
  let a := Planner.recordArgs Planner.memory c currentDevices in
  let n := Planner.fpsNum c in
  n <> 0
  /\ n = match Js.parseInt (fps c) with
         | Some 0 | None => 60
         | Some k => k
         end
  /\ In ("ddagrab=framerate=" +++ Js.showZ n +++ ":draw_mouse=1")
        (Planner.valuesOf "-i" a)
  /\ Planner.valuesOf "-g" a = [Js.showZ (n * 2)].
Proof.
  intros _. cbv zeta. split; [|split; [|split]].
  - unfold Planner.fpsNum, Js.parseIntOr.
    destruct (Js.parseInt (fps c)) as [k|]; [|discriminate].
    destruct (k =? 0) eqn:E; [discriminate|]. now apply Z.eqb_neq.
  - unfold Planner.fpsNum, Js.parseIntOr.
    destruct (Js.parseInt (fps c)) as [[|k|k]|]; reflexivity.
  - pose proof (recordArgs_inputs InMemory "" c currentDevices) as H.
    cbn [flavourOf] in H. rewrite H.
    apply in_or_app. right. left. reflexivity.
  - unfold Planner.recordArgs, Planner.inputArgs, Planner.videoMap,
      Planner.audioMap, Planner.audioInputs, Planner.videoInputIndex,
      Planner.sysAudioInputIndex, Planner.micInputIndex.
    destruct (Planner.useSystemAudio c), (Planner.micUsable c currentDevices);
      cbn -[String.append Js.showZ Planner.fpsNum Js.includes Planner.options];
      unfold Planner.presetOf;
      destruct (Js.includes "nvenc" (codec c));
      cbn -[String.append Js.showZ Planner.fpsNum Js.includes];
      reflexivity.
Qed.

Lemma recordArgs_frame_rate_witness :
  Planner.valuesOf "-g"
    (Planner.recordArgs Planner.memory
       (mkConfig "abc" "libx264" "15" "300" "" "Alt+F10" false true "None" "None")
       [])
  = ["120"].
Proof.
  exact (proj2 (proj2 (proj2
           (recordArgs_frame_rate
              (mkConfig "abc" "libx264" "15" "300" "" "Alt+F10" false true
                 "None" "None")
              [] eq_refl)))).
Defined.

Lemma arrayIncludes_In (x : string) (l : list string) :
  Js.arrayIncludes x l = true <-> In x l.
Proof.
  unfold Js.arrayIncludes. rewrite existsb_exists. split.
  - intros [y [Hy E]]. apply String.eqb_eq in E. now subst.
  - intro H. exists x. split; [exact H | apply String.eqb_refl].
Qed.

(** X3.  A microphone becomes an input only when its name is among the
    detected devices: the configured name, or the first detected device
    when the selector is [Default].  With the selector [None], with no
    device detected, or with a configured device that is not detected,
    the command line has no microphone input. *)
Theorem microphone_resolution (r : Revision) (dir : string) (c : Config)
    (currentDevices : list string) :
  let inputs :=
    Planner.valuesOf "-i" (Planner.recordArgs (flavourOf r dir) c currentDevices) in
  let m := Planner.mappedMic c currentDevices in
  (Planner.micUsable c currentDevices = true ->
   In ("audio=" +++ m) inputs
   /\ In m currentDevices
   /\ (audioDevice c = "Default" -> hd_error currentDevices = Some m)
   /\ (audioDevice c <> "Default" -> m = audioDevice c))
  /\ (audioDevice c = "None" \/ currentDevices = []
      \/ (audioDevice c <> "Default" /\ ~ In (audioDevice c) currentDevices) ->
      Planner.micUsable c currentDevices = false
      /\ inputs = (if Planner.useSystemAudio c then ["pipe:0"] else [])
                  ++ [videoSource r c]).
Proof.
  cbv zeta. rewrite recordArgs_inputs. split.
  - intro U. rewrite U.
    split; [apply in_or_app; right; right; left; reflexivity|].
    unfold Planner.micUsable in U. cbv zeta in U.
    apply andb_true_iff in U. destruct U as [U U3].
    apply andb_true_iff in U. destruct U as [U1 U2].
    apply arrayIncludes_In in U3. split; [exact U3|].
    unfold Planner.mappedMic in *.
    destruct (audioDevice c ==? "Default") eqn:D.
    + split; [|intro N; apply String.eqb_eq in D; contradiction].
      intros _. destruct currentDevices as [|d rest]; [discriminate U2|].
      unfold Js.strOr in *. destruct (d ==? ""); [discriminate U2 | reflexivity].
    + split; [|reflexivity].
      intro E. apply String.eqb_neq in D. contradiction.
  - intro H.
    assert (U : Planner.micUsable c currentDevices = false).
    { unfold Planner.micUsable, Planner.mappedMic. cbv zeta.
      destruct H as [H | [H | [H1 H2]]].
      - rewrite H. reflexivity.
      - rewrite H. destruct (audioDevice c ==? "Default"); [reflexivity|].
        cbn. apply andb_false_r.
      - apply String.eqb_neq in H1. rewrite H1.
        apply andb_false_iff. right.
        destruct (Js.arrayIncludes (audioDevice c) currentDevices) eqn:I;
          [|reflexivity].
        apply arrayIncludes_In in I. contradiction. }
    rewrite U. split; [reflexivity|]. now rewrite app_nil_r.
Qed.

Lemma microphone_resolution_witness :
  In "audio=Microphone (Realtek)"
    (Planner.valuesOf "-i"
       (Planner.recordArgs Planner.memory defaultConfig
          ["Microphone (Realtek)"; "Line In"]))
  /\ Planner.valuesOf "-i"
       (Planner.recordArgs Planner.memory
          (withAudioDevice "Unplugged" defaultConfig) ["Line In"])
     = ["pipe:0"; "ddagrab=framerate=60:draw_mouse=1"].
Proof.
  split.
  - apply (proj1 (microphone_resolution InMemory "" defaultConfig
                    ["Microphone (Realtek)"; "Line In"])).
    reflexivity.
  - apply (proj2 (microphone_resolution InMemory ""
                    (withAudioDevice "Unplugged" defaultConfig) ["Line In"])).
    right. right. split; [discriminate|].
    intros [H|[]]. discriminate H.
Defined.

(** X4.  When a recording starts, ffmpeg reads [pipe:0] exactly when its
    standard input is a pipe, which is exactly when the system-audio
    selector is not [None]; the window is told to start capturing system
    audio exactly in that case (and when it is alive), and the
    segment-file revision primes the pipe with one second of silence
    exactly then.  Exactly one process is spawned. *)
Theorem system_audio_wiring (e : Env) (devices : list string) (newPid : nat)
    (now : Z) (s : State) :
  let usa := negb (systemAudioDevice (config s) ==? "None") in
  let wired (r : Completion unit * State * list Effect) (args : list string) :=
    filter isSpawn (effectsOf r) = [Spawn newPid args usa]
    /\ Js.arrayIncludes "pipe:0" (Planner.valuesOf "-i" args) = usa
    /\ useSystemAudio (stateOf r) = usa
    /\ recordProcess (stateOf r) = Some {| pid := newPid; stdinPiped := usa |}
    /\ existsb (isSendOn "start-system-audio") (effectsOf r)
       = usa && windowLive e in
  wired (Mem.startRecording_then e devices newPid now s)
    (Planner.recordArgs Planner.memory (config s) devices)
  /\ wired (Disk.startRecording_then e devices newPid s)
       (Planner.recordArgs (Planner.disk (tempDir e)) (config s) devices)
  /\ filter isStdinWrite (effectsOf (Mem.startRecording_then e devices newPid now s))
     = []
  /\ filter isStdinWrite (effectsOf (Disk.startRecording_then e devices newPid s))
     = (if usa then [StdinWrite newPid 192000] else []).
Proof.
  cbv zeta.
  rewrite mem_startRecording_then_run, disk_startRecording_then_run.
  pose proof (recordArgs_inputs InMemory "" (config s) devices) as I1.
  pose proof (recordArgs_inputs Segmented (tempDir e) (config s) devices) as I2.
  cbn [flavourOf] in I1, I2. rewrite I1, I2. clear I1 I2.
  unfold startedCalls, configWrite, Planner.useSystemAudio.
  destruct s as [r p u c l t b n i]. cbn [config stateOf effectsOf fst snd].
  destruct (systemAudioDevice c ==? "None"), (windowLive e),
    (writeThrows e (configPath e)), (Planner.micUsable c devices);
    cbn; repeat split; reflexivity.
Qed.

(** ** The buffer *)

(** X5.  The eviction loop is idempotent: run again with the same cutoff
    on what it left, it removes nothing. *)
Theorem evict_idempotent (cutoff : Z) (buf : list Chunk) (total : Z) :
  let r := Mem.evict cutoff buf total in
  Mem.evict cutoff (fst r) (snd r) = r.
Proof.
  cbv zeta. revert total.
  induction buf as [|c rest IH]; intro total; [reflexivity|].
  rewrite evict_cons. destruct (evictTest cutoff (c :: rest) total) eqn:T.
  - apply IH.
  - cbn [fst snd]. rewrite evict_cons, T. reflexivity.
Qed.

Lemma nondecreasing_bounds (l : list Z) :
  nondecreasing l = true ->
  exists lo hi, nondecreasing (lo :: l ++ [hi]) = true.
Proof.
  intro H. destruct l as [|a l].
  - exists 0, 0. reflexivity.
  - assert (T : forall l a, nondecreasing (a :: l) = true ->
                exists hi, nondecreasing (a :: l ++ [hi]) = true).
    { clear. induction l as [|b l IH]; intros a H.
      - exists a. apply nondecreasing_cons. split; [lia | reflexivity].
      - apply nondecreasing_cons in H. destruct H as [H1 H2].
        destruct (IH b H2) as [hi Hhi]. exists hi. cbn [app].
        apply nondecreasing_cons. split; assumption. }
    destruct (T l a H) as [hi Hhi]. exists a, hi. cbn [app].
    apply nondecreasing_cons. split; [lia | exact Hhi].
Qed.

(** X6.  Along every run of the in-memory revision in which the readings
    of [Date.now()] never step back, the buffer is in time order: the
    oldest chunk is at the head, which is the only one the eviction loop
    looks at. *)
Theorem buffer_in_time_order (c : Config) (evs : list (Env * Mem.Event)) :
  nondecreasing (clockReadings evs) = true ->
  StronglySorted byTime (videoBuffer (Mem.run evs (initialState c))).
Proof.
  intro N. destruct (nondecreasing_bounds _ N) as [lo [hi H]].
  apply (run_bufferOk evs (initialState c) lo hi); [|exact H].
  split; constructor.
Qed.

Lemma buffer_in_time_order_witness :
  StronglySorted byTime
    (videoBuffer
       (Mem.run (sampleRun ++ [(quietEnv, Mem.Data kilobyte 400000 400002)])
          (initialState defaultConfig))).
Proof.
  apply (buffer_in_time_order defaultConfig
           (sampleRun ++ [(quietEnv, Mem.Data kilobyte 400000 400002)])).
  reflexivity.
Defined.

Lemma skipn_snoc {A} (k : nat) (l : list A) (x : A) :
  (k <= List.length l)%nat -> skipn k (l ++ [x]) = skipn k l ++ [x].
Proof.
  revert l. induction k as [|k IH]; intros l H; [reflexivity|].
  destruct l as [|a l]; [cbn in H; lia|].
  cbn [skipn app]. apply IH. cbn in H. lia.
Qed.

(** X7.  The chunk the [data] listener has just appended is never
    evicted by the same call: it is the last chunk of the buffer the
    listener leaves, whatever the state and the clock. *)
Theorem newest_chunk_retained (data : list Byte.byte) (tPush tNow : Z) (s : State) :
  exists front,
    videoBuffer (stateOf (Mem.onData data tPush tNow s))
    = front ++ [{| time := tPush; chunk := data |}].
Proof.
  destruct (onData_buffer data tPush tNow s) as [B _]. cbv zeta in B.
  rewrite B. clear B.
  set (pushed := videoBuffer s ++ [{| time := tPush; chunk := data |}]).
  pose proof (evict_Evicts (Mem.cutoffAt (config s) tNow) pushed
                (totalBytes s + Z.of_nat (List.length data))) as E.
  pose proof (Evicts_keeps_two _ _ _ _ _ E) as K.
  destruct (Evicts_suffix _ _ _ _ _ E) as [k [E1 _]].
  rewrite E1 in K |- *.
  assert (L : (k <= List.length (videoBuffer s))%nat).
  { unfold pushed in K. rewrite length_skipn, !length_app in K.
    cbn [List.length] in K. lia. }
  exists (skipn k (videoBuffer s)). unfold pushed. apply skipn_snoc, L.
Qed.

(** ** The dump of the snapshot *)

Lemma writeWhile_spec (path : string) (chunks : list (list Byte.byte)) :
  forall answers,
    let r := Mem.writeWhile path chunks answers in
    exists w,
      snd r = map (StreamWrite path) w
      /\ w ++ fst r = chunks
      /\ (chunks <> [] -> w <> []).
Proof.
  induction chunks as [|ch rest IH]; intro answers; cbv zeta.
  - exists []. repeat split. intro H. contradiction.
  - cbn [Mem.writeWhile].
    destruct answers as [|[|] answers'].
    + destruct (IH []) as [w [W1 [W2 _]]]. exists (ch :: w). cbn [fst snd].
      rewrite W1. cbn. rewrite W2. repeat split. discriminate.
    + destruct (IH answers') as [w [W1 [W2 _]]]. exists (ch :: w). cbn [fst snd].
      rewrite W1. cbn. rewrite W2. repeat split. discriminate.
    + exists [ch]. cbn. repeat split. discriminate.
Qed.

Lemma written_writes (path : string) (w : list (list Byte.byte)) :
  written path (map (StreamWrite path) w) = w.
Proof.
  unfold written. induction w as [|d w IH]; [reflexivity|].
  cbn. rewrite String.eqb_refl. cbn. now rewrite IH.
Qed.

Lemma written_app (path : string) (a b : list Effect) :
  written path (a ++ b) = written path a ++ written path b.
Proof. unfold written. apply flat_map_app. Qed.

Lemma writeNext_run (j : Mem.Job) (answers : list bool) (s : State) :
  let r := Mem.writeWhile (Mem.tempDump j) (Mem.pending j) answers in
  Mem.writeNext j answers s
  = (Normal (Mem.withPending j (fst r)), s,
     snd r ++ match fst r with [] => [StreamEnd (Mem.tempDump j)] | _ => [] end).
Proof.
  cbv zeta. unfold Mem.writeNext, bind, emitAll, emit, ret.
  destruct (Mem.writeWhile (Mem.tempDump j) (Mem.pending j) answers) as [p es].
  cbn [fst snd]. destruct p; cbn; rewrite ?app_nil_r; reflexivity.
Qed.

(** X8.  One call of [writeNext] writes, in order, a prefix of the
    pending chunks to the dump and leaves the rest pending; the prefix
    is not empty when chunks are pending, so every call makes progress;
    the stream is ended exactly when nothing is left.  The module state
    is not touched. *)
Theorem writeNext_in_order (j : Mem.Job) (answers : list bool) (s : State) :
  exists w rest,
    Mem.writeNext j answers s
    = (Normal (Mem.withPending j rest), s,
       map (StreamWrite (Mem.tempDump j)) w
       ++ match rest with [] => [StreamEnd (Mem.tempDump j)] | _ => [] end)
    /\ w ++ rest = Mem.pending j
    /\ (Mem.pending j <> [] -> w <> []).
Proof.
  destruct (writeWhile_spec (Mem.tempDump j) (Mem.pending j) answers)
    as [w [W1 [W2 W3]]].
  exists w, (fst (Mem.writeWhile (Mem.tempDump j) (Mem.pending j) answers)).
  rewrite writeNext_run. cbv zeta. rewrite W1. repeat split; assumption.
Qed.

Lemma dump_spec (rounds : list (list bool)) (s : State) :
  forall j,
    (List.length (Mem.pending j) <= List.length rounds)%nat ->
    rounds <> [] ->
    let r := dump j rounds s in
    fst r = map (StreamWrite (Mem.tempDump j)) (Mem.pending j)
            ++ [StreamEnd (Mem.tempDump j)]
    /\ Mem.pending (snd r) = [].
Proof.
  induction rounds as [|answers rest IH]; intros j L NE; [contradiction|].
  cbv zeta. cbn [dump]. rewrite writeNext_run. cbv zeta.
  destruct (writeWhile_spec (Mem.tempDump j) (Mem.pending j) answers)
    as [w [W1 [W2 W3]]].
  destruct (Mem.writeWhile (Mem.tempDump j) (Mem.pending j) answers)
    as [p es] eqn:E.
  cbn [fst snd] in *. subst es.
  destruct p as [|ch p].
  - cbn [Mem.pending Mem.withPending fst snd].
    rewrite app_nil_r in W2. subst w. split; reflexivity.
  - cbn [Mem.pending Mem.withPending].
    assert (W : w <> []).
    { apply W3. intro H. rewrite H in W2. destruct w; discriminate W2. }
    assert (L' : (List.length (ch :: p) <= List.length rest)%nat).
    { rewrite <- W2 in L. rewrite length_app in L. cbn [List.length] in L.
      destruct w; [contradiction|]. cbn [List.length] in *. lia. }
    assert (NE' : rest <> []).
    { intro H. rewrite H in L'. cbn in L'. lia. }
    destruct (IH (Mem.withPending j (ch :: p)) L' NE') as [I1 I2].
    cbn [Mem.withPending Mem.tempDump Mem.pending] in I1.
    cbn [fst snd]. rewrite app_nil_r. split; [|exact I2].
    rewrite I1, <- W2, map_app, app_assoc. reflexivity.
Qed.

(** X9.  Whatever [writeStream.write] answers, once as many [drain]
    events as there are chunks have been served, the dump holds every
    chunk of the snapshot exactly once and in buffer order, and the
    stream has been ended exactly once, after the last chunk. *)
Theorem dump_writes_snapshot (j : Mem.Job) (rounds : list (list bool)) (s : State) :
  (List.length (Mem.pending j) <= List.length rounds)%nat ->
  rounds <> [] ->
  let es := fst (dump j rounds s) in
  written (Mem.tempDump j) es = Mem.pending j
  /\ filter isStreamEnd es = [StreamEnd (Mem.tempDump j)]
  /\ last es (StreamEnd "") = StreamEnd (Mem.tempDump j).
Proof.
  intros L NE. cbv zeta.
  destruct (dump_spec rounds s j L NE) as [D _]. rewrite D.
  split; [|split].
  - rewrite written_app, written_writes. cbn. apply app_nil_r.
  - rewrite filter_app. cbn.
    generalize (Mem.pending j) as l. clear.
    induction l as [|d l IH]; [reflexivity | exact IH].
  - apply last_last.
Qed.

Lemma dump_writes_snapshot_witness :
  let j := {| Mem.bufferSecs := Some 300; Mem.outputFile := "out.mp4";
              Mem.tempDump := "dump.ts";
              Mem.pending := [[Byte.x47]; [Byte.x40]; [Byte.x00]] |} in
  written "dump.ts" (fst (dump j [[true; false]; [false]; []] recordingState))
  = [[Byte.x47]; [Byte.x40]; [Byte.x00]].
Proof.
  cbv zeta.
  apply (dump_writes_snapshot
           {| Mem.bufferSecs := Some 300; Mem.outputFile := "out.mp4";
              Mem.tempDump := "dump.ts";
              Mem.pending := [[Byte.x47]; [Byte.x40]; [Byte.x00]] |}
           [[true; false]; [false]; []] recordingState).
  - cbn. lia.
  - discriminate.
Defined.

(** ** A started extraction *)


(** The job [saveReplay] creates, before its first [writeNext]. *)
Lemma mem_saveReplay_run (e : Env) (now : Z) (answers : list bool) (s : State) :
  isRecording s = true ->
  isSavingReplay s = false ->
  videoBuffer s <> [] ->
  1024 <= totalBytes s ->
  let folder := Js.strOr (outputFolder (config s)) (videos e) in
  existsSync e folder = true \/ mkdirThrows e folder = false ->
  let j0 :=
    {| Mem.bufferSecs := Js.parseInt (bufferTime (config s));
       Mem.outputFile :=
         Js.pathJoin folder ("ShadowWarp_Replay_" +++ formatTime e +++ ".mp4");
       Mem.tempDump :=
         Js.pathJoin (tempDir e) ("dump_" +++ Js.showZ now +++ ".ts");
       Mem.pending := map chunk (videoBuffer s) |} in
  let ww := Mem.writeWhile (Mem.tempDump j0) (Mem.pending j0) answers in
  Mem.saveReplay e now answers s
  = (Normal (Some (Mem.withPending j0 (fst ww))), setIsSavingReplay true s,
     (if existsSync e folder then [] else [Mkdir folder])
     ++ [Log ("Saving replay: extracting exact "
              +++ Js.showNum (Mem.bufferSecs j0) +++ "s from memory buffer");
         CreateWriteStream (Mem.tempDump j0)]
     ++ snd ww
     ++ match fst ww with [] => [StreamEnd (Mem.tempDump j0)] | _ => [] end).
Proof.
  intros R L B T folder F j0 ww.
  assert (T' : (totalBytes s <? 1024) = false) by (apply Z.ltb_ge; exact T).
  unfold Mem.saveReplay, bind, get, modify, emit, ret.
  rewrite R, L, T'. cbn [negb].
  subst ww j0. cbn [Mem.tempDump Mem.pending]. fold folder.
  destruct (videoBuffer s) as [|c0 rest] eqn:VB; [contradiction|].
  rewrite (ensureDir_ok e folder (setIsSavingReplay true s) F).
  rewrite writeNext_run. cbv zeta. cbn [Mem.tempDump Mem.pending].
  destruct (existsSync e folder); cbn [app]; rewrite ?app_nil_r; reflexivity.
Qed.

Lemma written_cons_other (path : string) (x : Effect) (l : list Effect) :
  (forall p d, x <> StreamWrite p d) -> written path (x :: l) = written path l.
Proof.
  intro H. unfold written. cbn [flat_map].
  destruct x; try reflexivity. exfalso. eapply H. reflexivity.
Qed.

Lemma no_spawn_in_writes (path : string) (w : list (list Byte.byte)) :
  filter isSpawn (map (StreamWrite path) w) = []
  /\ notified (map (StreamWrite path) w) = [].
Proof. unfold notified. induction w as [|d w [IH1 IH2]]; cbn; auto. Qed.

(** X10.  Take a request made while recording, with no extraction in
    flight, a buffer of at least 1024 bytes and an output folder that
    exists or can be created; let the folder be a drive path in normal
    form and the time stamp a plain name, the buffer time plain ASCII
    that reads as at most 2^40 if as a number, and the clock in the range
    of [Date.now()].  The request takes the lock and nothing else of the
    state, names the artifact after the time stamp in the configured
    folder (the videos folder when none is configured) and the dump after
    the clock in the buffer directory, spawns no process yet, and
    snapshots the buffer: what it has written to the dump so far,
    followed by what the job keeps pending, is the payload of every
    buffered chunk in order. *)
Theorem saveReplay_starts_job (e : Env) (now : Z) (answers : list bool) (s : State) :
  isRecording s = true ->
  isSavingReplay s = false ->
  videoBuffer s <> [] ->
  1024 <= totalBytes s ->
  let folder := Js.strOr (outputFolder (config s)) (videos e) in
  existsSync e folder = true \/ mkdirThrows e folder = false ->
  plainFolder folder = true ->
  plainName (artifactName e) = true ->
  readsWithin modest (bufferTime (config s)) = true ->
  clockRange now ->
  let r := Mem.saveReplay e now answers s in
  exists j,
    completionOf r = Normal (Some j)
    /\ stateOf r = setIsSavingReplay true s
    /\ Mem.outputFile j = Js.pathJoin folder (artifactName e)
    /\ Mem.tempDump j
       = Js.pathJoin (tempDir e) ("dump_" +++ Js.showZ now +++ ".ts")
    /\ Mem.bufferSecs j = Js.parseInt (bufferTime (config s))
    /\ written (Mem.tempDump j) (effectsOf r) ++ Mem.pending j
       = map chunk (videoBuffer s)
    /\ filter isSpawn (effectsOf r) = []
    /\ notified (effectsOf r) = [].
Proof.
  intros R L B T folder F _ _ _ _ r. subst r.
  rewrite (mem_saveReplay_run e now answers s R L B T F). cbv zeta. fold folder.
  set (path := Js.pathJoin (tempDir e) ("dump_" +++ Js.showZ now +++ ".ts")).
  cbn [Mem.tempDump Mem.pending Mem.bufferSecs]. fold path.
  destruct (writeWhile_spec path (map chunk (videoBuffer s)) answers)
    as [w [W1 [W2 _]]].
  cbv zeta in W1, W2. rewrite W1.
  set (rest := fst (Mem.writeWhile path (map chunk (videoBuffer s)) answers)) in *.
  eexists. unfold completionOf, stateOf, effectsOf. cbn [fst snd].
  split; [reflexivity|]. split; [reflexivity|].
  cbn [Mem.withPending Mem.outputFile Mem.tempDump Mem.bufferSecs Mem.pending].
  split; [reflexivity|]. split; [reflexivity|]. split; [reflexivity|].
  destruct (no_spawn_in_writes path w) as [S1 S2].
  assert (Tail : written path
                   match rest with [] => [StreamEnd path] | _ :: _ => [] end = []
                 /\ filter isSpawn
                      match rest with [] => [StreamEnd path] | _ :: _ => [] end = []
                 /\ notified
                      match rest with [] => [StreamEnd path] | _ :: _ => [] end = []).
  { destruct rest; repeat split. }
  destruct Tail as [T1 [T2 T3]].
  split; [|split].
  - rewrite !written_app, written_writes, T1, app_nil_r.
    destruct (existsSync e folder); exact W2.
  - rewrite !filter_app, S1, T2. destruct (existsSync e folder); reflexivity.
  - unfold notified in *. rewrite !flat_map_app, S2, T3.
    destruct (existsSync e folder); reflexivity.
Qed.

Lemma saveReplay_starts_job_witness :
  exists j,
    completionOf (Mem.saveReplay quietEnv 5000 [true; false] bufferedState)
    = Normal (Some j)
    /\ List.length (Mem.pending j) = 1%nat
    /\ written (Mem.tempDump j)
         (effectsOf (Mem.saveReplay quietEnv 5000 [true; false] bufferedState))
       ++ Mem.pending j
       = [kilobyte; kilobyte; kilobyte].
Proof.
  assert (B : videoBuffer bufferedState <> []) by discriminate.
  assert (T : 1024 <= totalBytes bufferedState) by (vm_compute; discriminate).
  assert (C : clockRange 5000) by (unfold clockRange; lia).
  assert (P : plainFolder
                (Js.strOr (outputFolder (config bufferedState)) (videos quietEnv))
              = true) by (vm_compute; reflexivity).
  assert (N : plainName (artifactName quietEnv) = true)
    by (vm_compute; reflexivity).
  assert (W : readsWithin modest (bufferTime (config bufferedState)) = true)
    by (vm_compute; reflexivity).
  destruct (saveReplay_starts_job quietEnv 5000 [true; false] bufferedState
              eq_refl eq_refl B T (or_introl eq_refl) P N W C)
    as [j [J1 [_ [_ [_ [_ [J6 _]]]]]]].
  exists j. split; [exact J1|]. split; [|exact J6].
  vm_compute in J1. injection J1 as <-. vm_compute. reflexivity.
Defined.

(** ** How an extraction ends *)

Lemma isZero_iff (code : option Z) : Common.isZero code = true <-> code = Some 0.
Proof.
  destruct code as [z|]; cbn; [|split; discriminate].
  rewrite Z.eqb_eq. split; [intros ->; reflexivity | intro H; now injection H].
Qed.

Lemma failure_is_not_success (tail : string) :
  "Failed to save replay. Code: " +++ tail <> Common.savedBody.
Proof. cbn. discriminate. Qed.

(** X11.  In the in-memory revision, the [exit] listener of the extract
    process releases the lock, removes the dump when it exists, removes
    nothing else, spawns nothing and shows exactly one notification: the
    one of a saved replay when the exit code is 0, and the one of a
    failure, with the code, for every other code and for a process ended
    by a signal.  The [error] listener does the same with the failure
    notification that carries the error message. *)
Theorem mem_extraction_outcome (e : Env) (j : Mem.Job) (s : State) :
  (forall code,
      let r := Mem.onExtractExit e j code s in
      completionOf r = Normal tt
      /\ stateOf r = setIsSavingReplay false s
      /\ unlinked (effectsOf r)
         = (if existsSync e (Mem.tempDump j) then [Mem.tempDump j] else [])
      /\ filter isSpawn (effectsOf r) = []
      /\ notified (effectsOf r)
         = [if Common.isZero code then Common.savedBody
            else "Failed to save replay. Code: " +++ Common.showCode code]
      /\ (In Common.savedBody (notified (effectsOf r)) <-> code = Some 0))
  /\ (forall message,
        let r := Mem.onExtractError e j message s in
        completionOf r = Normal tt
        /\ stateOf r = setIsSavingReplay false s
        /\ unlinked (effectsOf r)
           = (if existsSync e (Mem.tempDump j) then [Mem.tempDump j] else [])
        /\ filter isSpawn (effectsOf r) = []
        /\ notified (effectsOf r) = ["Failed to save replay: " +++ message]).
Proof.
  split.
  - intro code. cbv zeta.
    assert (E : Mem.onExtractExit e j code s
                = (Normal tt, setIsSavingReplay false s,
                   (if existsSync e (Mem.tempDump j)
                    then [Unlink (Mem.tempDump j)] else [])
                   ++ (if Common.isZero code then [Notify Common.savedBody]
                       else [Log "Extract failed";
                             Notify ("Failed to save replay. Code: "
                                     +++ Common.showCode code)]))).
    { unfold Mem.onExtractExit, Mem.unlinkIfExists, bind, emit, modify, when, ret.
      destruct (existsSync e (Mem.tempDump j)), (Common.isZero code);
        reflexivity. }
    rewrite E. unfold completionOf, stateOf, effectsOf, unlinked, notified.
    cbn [fst snd]. rewrite !flat_map_app, filter_app.
    destruct (existsSync e (Mem.tempDump j)), (Common.isZero code) eqn:Z;
      cbn [flat_map filter isSpawn app];
      repeat (match goal with |- _ /\ _ => split end); try reflexivity.
    all: rewrite <- isZero_iff, Z; split;
      [ intro H | intro H; try discriminate H; left; reflexivity ].
    all: try reflexivity.
    all: destruct H as [H|[]]; exfalso;
      exact (failure_is_not_success _ H).
  - intro message. cbv zeta.
    unfold Mem.onExtractError, Mem.unlinkIfExists, bind, emit, modify, when, ret,
      completionOf, stateOf, effectsOf, unlinked, notified.
    destruct (existsSync e (Mem.tempDump j)); repeat split.
Qed.

(** X12.  In the segment-file revision, a concat pass that exits with
    code 0 spawns the trim pass and leaves the state as it is, the lock
    held; every other exit of the concat pass releases the lock, removes
    the intermediate file and reports the failure.  The [exit] listener
    of the trim pass releases the lock and removes the intermediate
    file; it shows the notification of a saved replay exactly when the
    code is 0 and the artifact holds at least 1024 bytes, and it removes
    the artifact exactly when the code is 0 and the artifact is
    smaller. *)
Theorem disk_extraction_outcome (e : Env) (j : Disk.Job) (s : State) :
  (forall newPid,
      Disk.onConcatExit e j (Some 0) newPid s
      = (Normal tt, s,
         [Log "Pass 1 done (concat). Starting pass 2 (trim)...";
          Spawn newPid (Disk.trimArgs j) true]))
  /\ (forall code newPid,
        code <> Some 0 ->
        let r := Disk.onConcatExit e j code newPid s in
        stateOf r = setIsSavingReplay false s
        /\ unlinked (effectsOf r) = [Disk.tempConcatFile j]
        /\ filter isSpawn (effectsOf r) = []
        /\ notified (effectsOf r)
           = ["Failed to save replay. Code: " +++ Common.showCode code])
  /\ (forall code,
        let r := Disk.onTrimExit e j code s in
        let size := statSync e (Disk.outputFile j) in
        stateOf r = setIsSavingReplay false s
        /\ filter isSpawn (effectsOf r) = []
        /\ (exists body, notified (effectsOf r) = [body])
        /\ (In Common.savedBody (notified (effectsOf r))
            <-> code = Some 0 /\ exists n, size = Some n /\ 1024 <= n)
        /\ unlinked (effectsOf r)
           = Disk.tempConcatFile j
             :: match size with
                | Some n =>
                    if Common.isZero code && (n <? 1024)
                    then [Disk.outputFile j] else []
                | None => []
                end).
Proof.
  split; [|split].
  - intro newPid. reflexivity.
  - intros code newPid H. cbv zeta.
    assert (Z : Common.isZero code = false).
    { destruct (Common.isZero code) eqn:Z; [|reflexivity].
      apply isZero_iff in Z. contradiction. }
    unfold Disk.onConcatExit. rewrite Z. repeat split.
  - intro code. cbv zeta.
    unfold Disk.onTrimExit, Disk.unlinkQuiet, bind, emit, modify, ret,
      stateOf, effectsOf, unlinked, notified.
    destruct (Common.isZero code) eqn:Z.
    + apply isZero_iff in Z. subst code.
      destruct (statSync e (Disk.outputFile j)) as [n|].
      * destruct (n <? 1024) eqn:N; cbn;
          repeat (match goal with |- _ /\ _ => split end);
          try reflexivity; try (eexists; reflexivity).
        -- split.
           ++ intros [H|[]]. discriminate H.
           ++ intros [_ [m [M1 M2]]]. injection M1 as <-.
              apply Z.ltb_lt in N. lia.
        -- split.
           ++ intros _. split; [reflexivity|]. exists n.
              split; [reflexivity|]. now apply Z.ltb_ge.
           ++ intros _. left. reflexivity.
      * cbn. repeat (match goal with |- _ /\ _ => split end);
          try reflexivity; try (eexists; reflexivity).
        split.
        -- intros [H|[]]. discriminate H.
        -- intros [_ [m [M1 _]]]. discriminate M1.
    + assert (NZ : code <> Some 0).
      { intro H. apply isZero_iff in H. rewrite H in Z. discriminate. }
      cbn. rewrite ?andb_false_l.
      repeat (match goal with |- _ /\ _ => split end);
        try reflexivity; try (eexists; reflexivity).
      * split.
        -- intros [H|[]]. exfalso. exact (failure_is_not_success _ H).
        -- intros [H _]. contradiction.
      * destruct (statSync e (Disk.outputFile j)); reflexivity.
Qed.

Lemma disk_extraction_outcome_witness :
  unlinked (effectsOf (Disk.onConcatExit quietEnv sampleDiskJob (Some 1) 9%nat busyState))
  = [Disk.tempConcatFile sampleDiskJob].
Proof.
  apply (proj1 (proj2 (disk_extraction_outcome quietEnv sampleDiskJob busyState))
           (Some 1) 9%nat).
  discriminate.
Defined.

(** ** The segments of the segment-file revision *)

Lemma ceilDiv_bounds (b : Z) :
  let n := Disk.ceilDiv b Planner.SEGMENT_DURATION in
  b <= 5 * n < b + 5.
Proof.
  cbv zeta. unfold Disk.ceilDiv, Planner.SEGMENT_DURATION.
  pose proof (Z.div_mod (- b) 5 ltac:(lia)) as D.
  pose proof (Z.mod_pos_bound (- b) 5 ltac:(lia)) as M. lia.
Qed.

(** X13.  For a buffer length of [b >= 0] seconds the extraction takes
    the newest [ceil(b / 5) + 2] segments, all of them when fewer exist:
    enough five-second segments to cover [b] seconds, and two more.
    When the buffer length is not a number it takes every segment. *)
Theorem selectFiles_newest (b : Z) (allFiles : list Disk.Segment) :
  0 <= b ->
  let n := Disk.ceilDiv b Planner.SEGMENT_DURATION + 2 in
  let selected := Disk.selectFiles (Some b) allFiles in
  selected = skipn (List.length allFiles - Z.to_nat n) allFiles
  /\ List.length selected = Nat.min (List.length allFiles) (Z.to_nat n)
  /\ b <= 5 * (n - 2) < b + 5
  /\ Disk.selectFiles None allFiles = allFiles.
Proof.
  intros B n selected.
  pose proof (ceilDiv_bounds b) as C. cbv zeta in C.
  assert (N : 2 <= n) by (unfold n; lia).
  assert (S : selected = skipn (List.length allFiles - Z.to_nat n) allFiles).
  { unfold selected, Disk.selectFiles, Disk.slice. fold n.
    assert (L : (- n <? 0) = true) by (apply Z.ltb_lt; lia).
    rewrite L. f_equal. lia. }
  split; [exact S|]. split; [rewrite S, length_skipn; lia|].
  split; [unfold n; lia | reflexivity].
Qed.

Lemma selectFiles_newest_witness :
  let segs := map (fun k => {| Disk.filePath := "s"; Disk.size := k |})
                [1; 2; 3; 4; 5; 6; 7; 8] in
  map Disk.size (Disk.selectFiles (Some 15) segs) = [4; 5; 6; 7; 8].
Proof.
  cbv zeta.
  rewrite (proj1 (selectFiles_newest 15
                    (map (fun k => {| Disk.filePath := "s"; Disk.size := k |})
                       [1; 2; 3; 4; 5; 6; 7; 8]) ltac:(lia))).
  reflexivity.
Defined.

Lemma insertSorted_perm (x : string) (l : list string) :
  Permutation (Disk.insertSorted x l) (x :: l).
Proof.
  induction l as [|y l IH]; cbn; [reflexivity|].
  destruct (String.leb x y); [reflexivity|].
  rewrite IH. apply perm_swap.
Qed.

Lemma sort_perm (l : list string) : Permutation (Disk.sort l) l.
Proof.
  unfold Disk.sort. induction l as [|x l IH]; cbn; [reflexivity|].
  rewrite insertSorted_perm. now constructor.
Qed.

Lemma insertSorted_sorted (x : string) (l : list string) :
  Sorted nameOrder l -> Sorted nameOrder (Disk.insertSorted x l).
Proof.
  induction l as [|y l IH]; intro S; cbn.
  - repeat constructor.
  - destruct (String.leb x y) eqn:E.
    + constructor; [exact S|]. constructor. exact E.
    + inversion S as [|? ? S' H]; subst.
      constructor; [apply IH, S'|].
      assert (YX : nameOrder y x).
      { destruct (String.leb_total x y) as [T|T]; [congruence | exact T]. }
      destruct l as [|z l]; cbn.
      * constructor. exact YX.
      * destruct (String.leb x z); constructor; [exact YX|].
        inversion H; assumption.
Qed.

Lemma sort_sorted (l : list string) : Sorted nameOrder (Disk.sort l).
Proof.
  unfold Disk.sort. induction l as [|x l IH]; cbn; [constructor|].
  apply insertSorted_sorted, IH.
Qed.

Lemma statAll_spec (e : Env) (ns : list string) :
  map Disk.filePath (Disk.statAll e ns)
  = map (Js.pathJoin (tempDir e)) (filter (positiveSize e) ns)
  /\ Forall (fun seg => statSync e (Disk.filePath seg) = Some (Disk.size seg)
                        /\ 0 < Disk.size seg) (Disk.statAll e ns).
Proof.
  induction ns as [|f ns [IH1 IH2]]; [split; [reflexivity | constructor]|].
  cbn [Disk.statAll filter]. unfold positiveSize at 1.
  destruct (statSync e (Js.pathJoin (tempDir e) f)) as [n|] eqn:St;
    [|split; assumption].
  destruct (0 <? n) eqn:P; [|split; assumption].
  cbn [map Disk.filePath]. rewrite IH1. split; [reflexivity|].
  constructor; [|exact IH2]. cbn. split; [exact St | now apply Z.ltb_lt].
Qed.

(** X14.  The segments an extraction considers are the listed files
    whose name ends in [.ts], taken in ascending order of their names,
    which is the order of the times in the names, without those
    [statSync] fails on and without the empty ones; each is recorded with
    the size [statSync] gave. *)
Theorem allFiles_in_name_order (e : Env) (names : list string) :
  let ns := Disk.sort (filter (Js.endsWith ".ts") names) in
  let allFiles := Disk.statAll e ns in
  Permutation ns (filter (Js.endsWith ".ts") names)
  /\ Sorted nameOrder ns
  /\ map Disk.filePath allFiles
     = map (Js.pathJoin (tempDir e)) (filter (positiveSize e) ns)
  /\ Forall (fun seg => statSync e (Disk.filePath seg) = Some (Disk.size seg)
                        /\ 0 < Disk.size seg) allFiles.
Proof.
  cbv zeta. split; [apply sort_perm|]. split; [apply sort_sorted|].
  apply statAll_spec.
Qed.

(** ** The sweep *)




(** ** Stop, exit and the force-kill timer *)

Lemma mem_startRecording_state (e : Env) (s : State) :
  stateOf (Mem.startRecording e s) = s.
Proof.
  assert (H : preserves (fun x => x = s) (Mem.startRecording e)).
  { unfold Mem.startRecording, Common.ensureDir. callback.
    induction l as [|f rest IH]; cbn; [apply preserves_ret|].
    callback. exact IH. }
  exact (H s eq_refl).
Qed.

Lemma onForceKill_run (s : State) :
  Common.onForceKill s
  = (Normal tt, setRecordProcess None s,
     match recordProcess s with
     | Some p => [Kill (pid p) "SIGKILL"]
     | None => []
     end).
Proof.
  unfold Common.onForceKill, bind, get, emit, modify, ret.
  destruct (recordProcess s); reflexivity.
Qed.

(** X16.  The timer armed by [stopRecording] kills whatever process is
    current when it fires.  After a stop alone that is the process that
    was sent SIGINT, and the handle is cleared.  When a recording was
    started again before the timer fires, the process killed is the new
    one: its handle is cleared while [isRecording] stays set. *)
Theorem forceKill_targets_current_process (e1 e2 e3 e4 : Env) (s : State)
    (p : Proc) (devices : list string) (newPid : nat) (now : Z) :
  isRecording s = true ->
  recordProcess s = Some p ->
  let stopped := Mem.run [(e1, Mem.StopRecording)] s in
  let restarted :=
    Mem.run [(e2, Mem.StartRecording);
             (e3, Mem.DevicesFetched devices newPid now)] stopped in
  In (Kill (pid p) "SIGINT") (effectsOf (Mem.stopRecording e1 s))
  /\ In (SetTimeout ForceKill 3000) (effectsOf (Mem.stopRecording e1 s))
  /\ Mem.handle e4 Mem.ForceKillFired stopped
     = (Normal tt, setRecordProcess None stopped, [Kill (pid p) "SIGKILL"])
  /\ isRecording stopped = false
  /\ Mem.handle e4 Mem.ForceKillFired restarted
     = (Normal tt, setRecordProcess None restarted, [Kill newPid "SIGKILL"])
  /\ isRecording (setRecordProcess None restarted) = true
  /\ recordProcess (setRecordProcess None restarted) = None.
Proof.
  intros R P stopped restarted.
  assert (S1 : stopped = setConfig (setAutoRecord false (config s))
                           (setUseSystemAudio false (setIsRecording false s))).
  { unfold stopped. cbn [Mem.run Mem.handle]. unfold Mem.stopRecording.
    now rewrite (stopRecording_run false e1 s R). }
  assert (S2 : restarted
               = stateOf (Mem.startRecording_then e3 devices newPid now stopped)).
  { unfold restarted. cbn [Mem.run Mem.handle].
    now rewrite mem_startRecording_state. }
  rewrite mem_startRecording_then_run in S2. cbv zeta in S2.
  unfold stateOf in S2. cbn [fst snd] in S2.
  unfold Mem.stopRecording. rewrite (stopRecording_run false e1 s R).
  cbn [Mem.handle effectsOf snd]. rewrite !onForceKill_run.
  unfold stopCalls. rewrite P.
  repeat (match goal with |- _ /\ _ => split end).
  - apply in_or_app. right. apply in_or_app. left.
    apply in_or_app. right. left. reflexivity.
  - apply in_or_app. right. apply in_or_app. left.
    apply in_or_app. right. right.
    apply in_or_app. right. left. reflexivity.
  - rewrite S1. destruct s; cbn in *. rewrite P. reflexivity.
  - rewrite S1. destruct s; reflexivity.
  - rewrite S2. destruct stopped; reflexivity.
  - rewrite S2. destruct stopped; reflexivity.
  - rewrite S2. destruct stopped; reflexivity.
Qed.

Lemma forceKill_targets_current_process_witness :
  let restarted :=
    Mem.run [(quietEnv, Mem.StopRecording); (quietEnv, Mem.StartRecording);
             (quietEnv, Mem.DevicesFetched [] 4243%nat 1000)] recordingState in
  Mem.handle quietEnv Mem.ForceKillFired restarted
  = (Normal tt, setRecordProcess None restarted, [Kill 4243 "SIGKILL"]).
Proof.
  cbv zeta.
  exact (proj1 (proj2 (proj2 (proj2 (proj2
           (forceKill_targets_current_process quietEnv quietEnv quietEnv quietEnv
              recordingState {| pid := 4242; stdinPiped := true |} [] 4243%nat
              1000 eq_refl eq_refl)))))).
Defined.

Lemma onRecordExit_run (e : Env) (code : option Z) (s : State) :
  Common.onRecordExit e code s
  = (Normal tt, setUseSystemAudio false (setIsRecording false s),
     Log "FFmpeg exited with code:"
     :: (if windowLive e
         then [Send "recording-state" (Some false);
               Send "stop-system-audio" None]
         else [])).
Proof.
  unfold Common.onRecordExit, bind, emit, modify, when, ret.
  destruct (windowLive e); reflexivity.
Qed.

(** X17.  When the recording process exits, whatever the code, the
    listener clears [isRecording] and [useSystemAudio] and tells the
    window; it keeps the process handle, the lock, the buffer and the
    configuration, and writes no file, so the resume flag stays as it was
    and a launch after a crash starts recording again.  After an
    effective [stopRecording] the listener changes nothing. *)
Theorem exit_keeps_resume_flag (e e' : Env) (code : option Z) (s : State) :
  let r := Common.onRecordExit e code s in
  isRecording (stateOf r) = false
  /\ useSystemAudio (stateOf r) = false
  /\ config (stateOf r) = config s
  /\ recordProcess (stateOf r) = recordProcess s
  /\ isSavingReplay (stateOf r) = isSavingReplay s
  /\ videoBuffer (stateOf r) = videoBuffer s
  /\ effectsOf r
     = Log "FFmpeg exited with code:"
       :: (if windowLive e
           then [Send "recording-state" (Some false);
                 Send "stop-system-audio" None]
           else [])
  /\ (autoRecord (config s) = true ->
      Mem.whenReady e' (launchState (config (stateOf r)))
      = (emit (SetLoginItemSettings (autoStart (config s))) ;; Mem.startRecording e')
          (launchState (config s)))
  /\ (isRecording s = true ->
      forall clears,
        let stopped := stateOf (Common.stopRecording clears e' s) in
        stateOf (Common.onRecordExit e code stopped) = stopped).
Proof.
  cbv zeta. rewrite onRecordExit_run. unfold stateOf, effectsOf. cbn [fst snd].
  repeat (match goal with |- _ /\ _ => split end);
    try (destruct s; reflexivity).
  - intro A. unfold Mem.whenReady. rewrite whenReady_run.
    unfold launchState. rewrite !loadConfig_full.
    destruct s as [r p u c l t b n i]. cbn [config initialState] in *.
    cbn [setUseSystemAudio setIsRecording config]. rewrite A. reflexivity.
  - intros R clears.
    rewrite (stopRecording_run clears e' s R), onRecordExit_run.
    destruct s; reflexivity.
Qed.

Lemma exit_keeps_resume_flag_witness :
  let stopped := stateOf (Mem.stopRecording quietEnv recordingState) in
  stateOf (Common.onRecordExit quietEnv (Some 255) stopped) = stopped
  /\ Mem.whenReady quietEnv
       (launchState
          (config (stateOf (Common.onRecordExit quietEnv None recordingState))))
     = (emit (SetLoginItemSettings false) ;; Mem.startRecording quietEnv)
         (launchState defaultConfig).
Proof.
  cbv zeta. split.
  - exact (proj2 (proj2 (proj2 (proj2 (proj2 (proj2 (proj2 (proj2
             (exit_keeps_resume_flag quietEnv quietEnv (Some 255) recordingState))))))))
             eq_refl false).
  - exact (proj1 (proj2 (proj2 (proj2 (proj2 (proj2 (proj2 (proj2
             (exit_keeps_resume_flag quietEnv quietEnv None recordingState))))))))
             eq_refl).
Defined.

(** ** The relay of system audio *)

(** X18.  A [system-audio-data] message never throws and never changes
    the state.  It is written to ffmpeg only while [isRecording] and
    [useSystemAudio] are set and the current process has a piped, live
    and writable standard input, and then to that process.  After
    [stopRecording] and after the exit of the recording process every
    message is dropped; so is every message of a recording started with
    the system-audio selector [None], while one started with another
    selector relays to the new process. *)
Theorem relay_only_while_recording (a : StdinAnswers) (bytes : Z) (s : State) :
  let relay := Relay.onSystemAudioData a bytes in
  completionOf (relay s) = Normal tt
  /\ stateOf (relay s) = s
  /\ (effectsOf (relay s) <> [] ->
      isRecording s = true /\ useSystemAudio s = true
      /\ destroyed a = false /\ writable a = true
      /\ exists p, recordProcess s = Some p /\ stdinPiped p = true
                   /\ hd_error (effectsOf (relay s)) = Some (StdinWrite (pid p) bytes))
  /\ (forall clears e,
        effectsOf (relay (stateOf (Common.stopRecording clears e s))) = [])
  /\ (forall e code,
        effectsOf (relay (stateOf (Common.onRecordExit e code s))) = []
        /\ effectsOf (Relay.onSystemAudioData_oldest a bytes
                        (stateOf (Common.onRecordExit e code s))) = [])
  /\ (forall e devices newPid now,
        systemAudioDevice (config s) = "None" ->
        effectsOf (relay (stateOf (Mem.startRecording_then e devices newPid now s)))
        = [])
  /\ (forall e devices newPid now,
        systemAudioDevice (config s) <> "None" ->
        destroyed a = false -> writable a = true ->
        hd_error
          (effectsOf (relay (stateOf (Mem.startRecording_then e devices newPid now s))))
        = Some (StdinWrite newPid bytes)).
Proof.
  cbv zeta.
  assert (Run : forall x,
             Relay.onSystemAudioData a bytes x
             = (Normal tt, x,
                match recordProcess x with
                | Some p =>
                    if isRecording x && useSystemAudio x && stdinPiped p
                       && negb (destroyed a) && writable a
                    then StdinWrite (pid p) bytes
                         :: (if writeFails a
                             then [Log "Audio write error (FFmpeg may have exited):"]
                             else [])
                    else []
                | None => []
                end)).
  { intro x. unfold Relay.onSystemAudioData, bind, get, emit, when, ret.
    destruct (recordProcess x) as [p|]; [|reflexivity].
    destruct (isRecording x && useSystemAudio x && stdinPiped p
              && negb (destroyed a) && writable a); [|reflexivity].
    destruct (writeFails a); reflexivity. }
  repeat (match goal with |- _ /\ _ => split end).
  - now rewrite Run.
  - now rewrite Run.
  - rewrite Run. unfold effectsOf. cbn [snd].
    destruct (recordProcess s) as [p|]; [|intro H; contradiction].
    destruct (isRecording s && useSystemAudio s && stdinPiped p
              && negb (destroyed a) && writable a) eqn:C;
      [|intro H; contradiction].
    intros _. rewrite !andb_true_iff, negb_true_iff in C.
    destruct C as [[[[C1 C2] C3] C4] C5].
    repeat split; try assumption. exists p. repeat split. exact C3.
  - intros clears e. rewrite Run. unfold effectsOf. cbn [snd].
    destruct (isRecording s) eqn:R.
    + rewrite (stopRecording_run clears e s R). unfold stateOf. cbn [fst snd].
      destruct s as [r p u c l t b n i]. cbn. now destruct p.
    + unfold Common.stopRecording, bind, get. rewrite R. cbn.
      rewrite R. now destruct (recordProcess s).
  - intros e code. rewrite Run, onRecordExit_run.
    unfold Relay.onSystemAudioData_oldest, bind, get, emit, ret, stateOf, effectsOf.
    destruct s as [r p u c l t b n i]. cbn. now destruct p.
  - intros e devices newPid now N. rewrite Run, mem_startRecording_then_run.
    cbv zeta. unfold stateOf, effectsOf, Planner.useSystemAudio. cbn [fst snd].
    rewrite N. destruct s; reflexivity.
  - intros e devices newPid now N D W. rewrite Run, mem_startRecording_then_run.
    cbv zeta. unfold stateOf, effectsOf, Planner.useSystemAudio. cbn [fst snd].
    apply String.eqb_neq in N. rewrite N, D, W. destruct s; reflexivity.
Qed.

Lemma relay_only_while_recording_witness :
  hd_error
    (effectsOf
       (Relay.onSystemAudioData
          {| destroyed := false; writable := true; writeFails := false |} 16384
          recordingState))
  = Some (StdinWrite 4242 16384)
  /\ effectsOf
       (Relay.onSystemAudioData
          {| destroyed := false; writable := true; writeFails := false |} 16384
          (stateOf (Mem.stopRecording quietEnv recordingState)))
     = [].
Proof.
  pose proof (relay_only_while_recording
                {| destroyed := false; writable := true; writeFails := false |}
                16384 (initialState defaultConfig)) as H.
  cbv zeta in H. destruct H as [_ [_ [_ [_ [_ [_ H]]]]]].
  split.
  - exact (H quietEnv ["Microphone (Realtek)"] 4242%nat 0
             ltac:(discriminate) eq_refl eq_refl).
  - exact (proj1 (proj2 (proj2 (proj2
             (relay_only_while_recording
                {| destroyed := false; writable := true; writeFails := false |}
                16384 recordingState)))) false quietEnv).
Defined.

(** ** The start of a recording *)

Lemma unlinkEach_run (e : Env) (files : list string) (s : State) :
  exists k,
    stateOf (Mem.unlinkEach e files s) = s
    /\ effectsOf (Mem.unlinkEach e files s)
       = map Unlink (firstn k (map (Js.pathJoin (tempDir e)) files))
    /\ (forallb (fun f => negb (unlinkThrows e (Js.pathJoin (tempDir e) f))) files
        = true -> k = List.length files).
Proof.
  induction files as [|f rest [k [I1 [I2 I3]]]].
  - exists 0%nat. repeat split.
  - cbn [Mem.unlinkEach]. unfold bind, emit, throw.
    destruct (unlinkThrows e (Js.pathJoin (tempDir e) f)) eqn:T.
    + exists 1%nat. split; [reflexivity|]. split; [reflexivity|].
      cbn [forallb]. rewrite T. cbn. discriminate.
    + destruct (Mem.unlinkEach e rest s) as [[c s'] es].
      unfold stateOf, effectsOf in *. cbn [fst snd] in *.
      exists (S k). subst. split; [reflexivity|]. split; [reflexivity|].
      cbn [forallb]. rewrite T. cbn. intro H. f_equal. apply I3, H.
Qed.

Lemma unlinkAll_run (e : Env) (files : list string) (s : State) :
  Disk.unlinkAll e files s
  = (Normal tt, s, map Unlink (map (Js.pathJoin (tempDir e)) files)).
Proof.
  induction files as [|f rest IH]; [reflexivity|].
  cbn [Disk.unlinkAll]. unfold bind, Disk.unlinkQuiet, emit. rewrite IH.
  reflexivity.
Qed.

Lemma unlinkEach_untilFailure (e : Env) (files : list string) (s : State) :
  stateOf (Mem.unlinkEach e files s) = s
  /\ effectsOf (Mem.unlinkEach e files s)
     = map Unlink
         (untilFailure (unlinkThrows e) (map (Js.pathJoin (tempDir e)) files)).
Proof.
  induction files as [|f rest [I1 I2]]; [split; reflexivity|].
  cbn [Mem.unlinkEach map untilFailure]. unfold bind, emit, throw.
  destruct (unlinkThrows e (Js.pathJoin (tempDir e) f)); [split; reflexivity|].
  destruct (Mem.unlinkEach e rest s) as [[c s'] es].
  unfold stateOf, effectsOf in *. cbn [fst snd] in *. subst. split; reflexivity.
Qed.

Lemma unlinked_map_Unlink (l : list string) : unlinked (map Unlink l) = l.
Proof.
  unfold unlinked. induction l as [|x l IH]; [reflexivity | cbn; now rewrite IH].
Qed.

(** [untilFailure] stops after the first failure: every path before its
    last one did not fail, and when paths are left over its last one
    failed. *)
Lemma untilFailure_split (fails : string -> bool) (paths : list string) :
  exists rest,
    paths = untilFailure fails paths ++ rest
    /\ Forall (fun p => fails p = false) (removelast (untilFailure fails paths))
    /\ (rest <> [] ->
        untilFailure fails paths <> []
        /\ fails (last (untilFailure fails paths) "") = true).
Proof.
  induction paths as [|p l [rest [I1 [I2 I3]]]].
  - exists []. split; [reflexivity|]. split; [constructor|].
    intro H. now contradiction H.
  - cbn [untilFailure]. destruct (fails p) eqn:Fp.
    + exists l. split; [reflexivity|]. split; [constructor|].
      intros _. split; [discriminate | exact Fp].
    + exists rest. split; [cbn; now rewrite <- I1|].
      destruct (untilFailure fails l) as [|q u] eqn:U.
      * split; [constructor|]. intro H. destruct (I3 H) as [H' _].
        now contradiction H'.
      * split.
        -- change (removelast (p :: q :: u)) with (p :: removelast (q :: u)).
           constructor; [exact Fp | exact I2].
        -- intro H. destruct (I3 H) as [_ L]. split; [discriminate | exact L].
Qed.

(** X19.  [startRecording] called while not recording, with a buffer
    directory that exists or can be created, never changes the state.
    The segment-file revision asks for the removal of every listed file,
    ignores the failures and then queries the devices; it ends by an
    exception, without querying, when the directory cannot be listed.
    The in-memory revision always ends normally with the device query
    and spawns nothing.  Of a directory that existed it removes the
    listed files in order and stops at the first removal that fails:
    the removals it asks for are a prefix of the listing, each of them
    but the last succeeded, and when listed files are left over the last
    one failed.  It asks for no removal when the directory did not exist
    or cannot be listed. *)
Theorem startRecording_purges (e : Env) (s : State) :
  isRecording s = false ->
  existsSync e (tempDir e) = true \/ mkdirThrows e (tempDir e) = false ->
  let made := if existsSync e (tempDir e) then [] else [Mkdir (tempDir e)] in
  (forall files,
      readdirSync e (tempDir e) = Some files ->
      Disk.startRecording e s
      = (Normal tt, s,
         made ++ map Unlink (map (Js.pathJoin (tempDir e)) files)
         ++ [FetchDevices]))
  /\ (readdirSync e (tempDir e) = None ->
      Disk.startRecording e s = (Thrown "readdirSync", s, made))
  /\ completionOf (Mem.startRecording e s) = Normal tt
  /\ stateOf (Mem.startRecording e s) = s
  /\ (exists before, effectsOf (Mem.startRecording e s) = before ++ [FetchDevices])
  /\ filter isSpawn (effectsOf (Mem.startRecording e s)) = []
  /\ (forall files,
        readdirSync e (tempDir e) = Some files ->
        existsSync e (tempDir e) = true ->
        exists attempted rest,
          map (Js.pathJoin (tempDir e)) files = attempted ++ rest
          /\ unlinked (effectsOf (Mem.startRecording e s)) = attempted
          /\ Forall (fun p => unlinkThrows e p = false) (removelast attempted)
          /\ (rest <> [] ->
              attempted <> [] /\ unlinkThrows e (last attempted "") = true))
  /\ (existsSync e (tempDir e) = false \/ readdirSync e (tempDir e) = None ->
      unlinked (effectsOf (Mem.startRecording e s)) = []).
Proof.
  intros R D made.
  assert (MemRun : exists paths,
             Mem.startRecording e s
             = (Normal tt, s, made ++ map Unlink paths ++ [FetchDevices])
             /\ (forall files,
                    readdirSync e (tempDir e) = Some files ->
                    existsSync e (tempDir e) = true ->
                    paths = untilFailure (unlinkThrows e)
                              (map (Js.pathJoin (tempDir e)) files))
             /\ (existsSync e (tempDir e) = false
                 \/ readdirSync e (tempDir e) = None -> paths = [])).
  { unfold Mem.startRecording, bind at 1, get. rewrite R.
    unfold bind at 1. rewrite (ensureDir_ok e (tempDir e) s D). fold made.
    unfold bind, tryCatch, emit, ret, throw.
    destruct (existsSync e (tempDir e)) eqn:X.
    - destruct (readdirSync e (tempDir e)) as [files|] eqn:L.
      + destruct (unlinkEach_untilFailure e files s) as [U1 U2].
        destruct (Mem.unlinkEach e files s) as [[c s'] es].
        unfold stateOf, effectsOf in U1, U2. cbn [fst snd] in U1, U2. subst s' es.
        exists (untilFailure (unlinkThrows e) (map (Js.pathJoin (tempDir e)) files)).
        split; [destruct c; cbn; rewrite ?app_nil_r; reflexivity|].
        split.
        * intros files' E _. now injection E as <-.
        * intros [H|H]; discriminate H.
      + exists []. split; [reflexivity|]. split; [|reflexivity].
        intros files E. discriminate E.
    - exists []. split; [reflexivity|]. split; [|reflexivity].
      intros files _ E. discriminate E. }
  destruct MemRun as [paths [M1 [M2 M3]]].
  assert (U : unlinked (effectsOf (Mem.startRecording e s)) = paths).
  { rewrite M1. unfold effectsOf. cbn [snd]. unfold unlinked.
    rewrite !flat_map_app. fold (unlinked (map Unlink paths)).
    rewrite unlinked_map_Unlink. unfold made.
    destruct (existsSync e (tempDir e)); cbn; now rewrite app_nil_r. }
  repeat (match goal with |- _ /\ _ => split end).
  - intros files L. unfold Disk.startRecording, bind at 1, get. rewrite R.
    unfold bind at 1. rewrite (ensureDir_ok e (tempDir e) s D). fold made.
    rewrite L. unfold bind, emit. rewrite unlinkAll_run. reflexivity.
  - intro L. unfold Disk.startRecording, bind at 1, get. rewrite R.
    unfold bind at 1. rewrite (ensureDir_ok e (tempDir e) s D). fold made.
    rewrite L. unfold bind, throw. cbn. now rewrite app_nil_r.
  - now rewrite M1.
  - now rewrite M1.
  - rewrite M1. unfold effectsOf. cbn [snd]. exists (made ++ map Unlink paths).
    now rewrite <- app_assoc.
  - rewrite M1. unfold effectsOf. cbn [snd]. rewrite !filter_app.
    assert (N : filter isSpawn (map Unlink paths) = []).
    { clear. induction paths; [reflexivity | assumption]. }
    rewrite N. unfold made. destruct (existsSync e (tempDir e)); reflexivity.
  - intros files L X. rewrite U, (M2 files L X).
    destruct (untilFailure_split (unlinkThrows e)
                (map (Js.pathJoin (tempDir e)) files)) as [rest [S1 [S2 S3]]].
    exists (untilFailure (unlinkThrows e) (map (Js.pathJoin (tempDir e)) files)), rest.
    split; [exact S1|]. split; [reflexivity|]. split; [exact S2 | exact S3].
  - intro H. rewrite U. apply M3, H.
Qed.

Lemma startRecording_purges_witness :
  let e :=
    {| userData := userData quietEnv; videos := videos quietEnv;
       formatTime := formatTime quietEnv; windowLive := true;
       existsSync := fun _ => true; mkdirThrows := fun _ => false;
       readdirSync := fun _ => Some ["buffer_1.ts"; "concat.txt"; "dump_1.ts"];
       statSync := fun _ => None;
       unlinkThrows := fun p => Js.endsWith "concat.txt" p;
       writeThrows := fun _ => false |} in
  Disk.startRecording e (initialState defaultConfig)
  = (Normal tt, initialState defaultConfig,
     [Unlink (Js.pathJoin (tempDir e) "buffer_1.ts");
      Unlink (Js.pathJoin (tempDir e) "concat.txt");
      Unlink (Js.pathJoin (tempDir e) "dump_1.ts"); FetchDevices])
  /\ unlinked (effectsOf (Mem.startRecording e (initialState defaultConfig)))
     = [Js.pathJoin (tempDir e) "buffer_1.ts";
        Js.pathJoin (tempDir e) "concat.txt"].
Proof.
  cbv zeta. split; [|reflexivity].
  exact (proj1 (startRecording_purges
                  {| userData := userData quietEnv; videos := videos quietEnv;
                     formatTime := formatTime quietEnv; windowLive := true;
                     existsSync := fun _ => true; mkdirThrows := fun _ => false;
                     readdirSync :=
                       fun _ => Some ["buffer_1.ts"; "concat.txt"; "dump_1.ts"];
                     statSync := fun _ => None;
                     unlinkThrows := fun p => Js.endsWith "concat.txt" p;
                     writeThrows := fun _ => false |}
                  (initialState defaultConfig) eq_refl (or_introl eq_refl))
           ["buffer_1.ts"; "concat.txt"; "dump_1.ts"] eq_refl).
Defined.

(** ** Saving the configuration, in general *)

(** X20.  While no recording is active, or when the object received
    carries both audio selectors, the [save-config] handler of both
    revisions only merges the object into the configuration (a property
    the object lacks keeps its value), updates the login item exactly
    when [autoStart] changed, and writes the configuration once: it
    stops nothing, arms no timer and sends nothing to the window. *)
Theorem saveConfig_only_merges (e : Env) (n : Common.PartialConfig) (s : State) :
  isRecording s = false
  \/ (Common.p_audioDevice n <> None /\ Common.p_systemAudioDevice n <> None) ->
  let c' := Common.assign (config s) n in
  let expected :=
    (Normal tt, setConfig c' s,
     (if Bool.eqb (autoStart c') (autoStart (config s)) then []
      else [SetLoginItemSettings (autoStart c')])
     ++ configWrite e c') in
  Mem.saveConfig e n s = expected
  /\ Disk.saveConfig e n s = expected
  /\ audioDevice c' = Common.orElse (Common.p_audioDevice n) (audioDevice (config s))
  /\ systemAudioDevice c'
     = Common.orElse (Common.p_systemAudioDevice n) (systemAudioDevice (config s)).
Proof.
  intros H c' expected.
  assert (G : forall stop, Common.saveConfig stop e n s = expected).
  { intro stop. unfold expected, c'.
    unfold Common.saveConfig, Common.saveConfigToDisk, configWrite,
      bind, get, emit, modify, when, ret.
    destruct s as [r p u c l t b m i].
    cbn [config setConfig isRecording autoStart].
    assert (Off : (Common.differs (audioDevice (Common.assign c n))
                     (Common.p_audioDevice n)
                   || Common.differs (systemAudioDevice (Common.assign c n))
                        (Common.p_systemAudioDevice n)) && r = false).
    { destruct H as [H | [H1 H2]].
      - cbn in H. subst r. apply andb_false_r.
      - destruct (Common.p_audioDevice n) as [a|] eqn:A; [|contradiction].
        destruct (Common.p_systemAudioDevice n) as [d|] eqn:D; [|contradiction].
        unfold Common.assign. cbn [audioDevice systemAudioDevice].
        rewrite A, D. cbn [Common.orElse]. now rewrite !differs_same. }
    rewrite Off.
    destruct (Bool.eqb (autoStart (Common.assign c n)) (autoStart c)),
      (writeThrows e (configPath e)); reflexivity. }
  split; [apply G|]. split; [apply G|]. split; reflexivity.
Qed.

Lemma saveConfig_only_merges_witness :
  let n :=
    {| Common.p_fps := None; Common.p_codec := None; Common.p_bitrate := None;
       Common.p_bufferTime := Some "60"; Common.p_outputFolder := None;
       Common.p_shortcut := None; Common.p_autoStart := Some true;
       Common.p_autoRecord := None; Common.p_audioDevice := None;
       Common.p_systemAudioDevice := None |} in
  let c' := Common.assign defaultConfig n in
  Mem.saveConfig quietEnv n (initialState defaultConfig)
  = (Normal tt, initialState c', [SetLoginItemSettings true; WriteConfig c']).
Proof.
  cbv zeta.
  exact (proj1 (saveConfig_only_merges quietEnv
                  {| Common.p_fps := None; Common.p_codec := None;
                     Common.p_bitrate := None;
                     Common.p_bufferTime := Some "60";
                     Common.p_outputFolder := None;
                     Common.p_shortcut := None; Common.p_autoStart := Some true;
                     Common.p_autoRecord := None; Common.p_audioDevice := None;
                     Common.p_systemAudioDevice := None |}
                  (initialState defaultConfig) (or_introl eq_refl))).
Defined.

(** ** The capture hotkey *)

Lemma splitOn_plain (s : string) :
  hasPlus s = false -> Hotkey.splitOn Hotkey.plus s = [s].
Proof.
  induction s as [|c r IH]; intro H; [reflexivity|].
  cbn [hasPlus] in H. apply orb_false_iff in H. destruct H as [H1 H2].
  cbn [Hotkey.splitOn]. rewrite H1, (IH H2). reflexivity.
Qed.

Lemma splitOn_app (a rest : string) :
  hasPlus a = false ->
  Hotkey.splitOn Hotkey.plus (a +++ "+" +++ rest)
  = a :: Hotkey.splitOn Hotkey.plus rest.
Proof.
  induction a as [|c r IH]; intro H; [reflexivity|].
  cbn [hasPlus] in H. apply orb_false_iff in H. destruct H as [H1 H2].
  specialize (IH H2). cbn [String.append Hotkey.splitOn] in IH |- *.
  rewrite H1, IH. reflexivity.
Qed.

(** [split] undoes [join] when no part holds the separator. *)
Lemma splitOn_concat (parts : list string) :
  parts <> [] ->
  forallb (fun p => negb (hasPlus p)) parts = true ->
  Hotkey.splitOn Hotkey.plus (String.concat "+" parts) = parts.
Proof.
  induction parts as [|a l IH]; intros NE F; [contradiction|].
  cbn [forallb] in F. apply andb_true_iff in F. destruct F as [F1 F2].
  apply negb_true_iff in F1.
  destruct l as [|b l]; [cbn; apply splitOn_plain, F1|].
  change (String.concat "+" (a :: b :: l))
    with (a +++ "+" +++ String.concat "+" (b :: l)).
  rewrite (splitOn_app _ _ F1), IH; [reflexivity | discriminate | exact F2].
Qed.

Lemma arrayIncludes_neq (x y : string) (l : list string) :
  x <> y -> Js.arrayIncludes x (l ++ [y]) = Js.arrayIncludes x l.
Proof.
  intro N. unfold Js.arrayIncludes. rewrite existsb_app. cbn.
  apply String.eqb_neq in N. rewrite N. now rewrite !orb_false_r.
Qed.

(** X21.  When the settings window stores a shortcut for a key, it is the
    parts joined by [+].  For a key whose name, as recorded, is not
    empty, holds no [+] and is none of the six names the [keydown]
    listener reads as modifiers, the listener splits the shortcut back
    into those parts, and the shortcut fires on a key event exactly when
    Alt and Shift are as they were when it was recorded, Control is down
    exactly when Control or Meta was, Meta is up, and the key code is the
    one the key table gives for the recorded key; so a shortcut recorded
    with Meta held does not fire when that same combination is pressed.
    For the [+] key the round trip fails: the listener splits the stored
    shortcut into the modifiers and two empty parts, and looks up the
    empty name in the key table.  An empty shortcut never fires. *)
Theorem hotkey_round_trip (toUpperCase : string -> string)
    (UiohookKey : string -> option Z) (r : Hotkey.ReactKey) (k : Hotkey.KeyEvent) :
  Hotkey.isModifierKey (Hotkey.key r) = false ->
  let m := Hotkey.mainKeyOf toUpperCase (Hotkey.key r) in
  let modifiers := removelast (Hotkey.keysOf toUpperCase r) in
  let sc := String.concat "+" (Hotkey.keysOf toUpperCase r) in
  Hotkey.handleKeyDown toUpperCase true r = Some sc
  /\ Hotkey.keysOf toUpperCase r = modifiers ++ [m]
  /\ (hasPlus m = false -> m <> "" -> ~ In m modifierNames ->
      Hotkey.splitOn Hotkey.plus sc = Hotkey.keysOf toUpperCase r
      /\ (Hotkey.fires UiohookKey sc k = true
          <-> Hotkey.ctrlKey k = (Hotkey.r_ctrlKey r || Hotkey.r_metaKey r)
              /\ Hotkey.altKey k = Hotkey.r_altKey r
              /\ Hotkey.shiftKey k = Hotkey.r_shiftKey r
              /\ Hotkey.metaKey k = false
              /\ UiohookKey m = Some (Hotkey.keycode k))
      /\ (Hotkey.r_metaKey r = true -> Hotkey.metaKey k = true ->
          Hotkey.fires UiohookKey sc k = false))
  /\ (m = "+" ->
      Hotkey.splitOn Hotkey.plus sc = modifiers ++ [""; ""]
      /\ (Hotkey.fires UiohookKey sc k = true ->
          UiohookKey "" = Some (Hotkey.keycode k)))
  /\ Hotkey.fires UiohookKey "" k = false.
Proof.
  intros Mod m modifiers sc.
  split; [unfold Hotkey.handleKeyDown; now rewrite Mod|].
  split.
  { unfold modifiers, Hotkey.keysOf. fold m. rewrite !app_assoc.
    now rewrite removelast_last. }
  split; [|split; [|reflexivity]].
  - intros NoPlus NotEmpty NotMod.
    assert (Split : Hotkey.splitOn Hotkey.plus sc = Hotkey.keysOf toUpperCase r).
    { apply splitOn_concat.
      - unfold Hotkey.keysOf. intro H. apply app_eq_nil in H. destruct H as [_ H].
        apply app_eq_nil in H. destruct H as [_ H].
        apply app_eq_nil in H. destruct H as [_ H]. discriminate H.
      - unfold Hotkey.keysOf. fold m. rewrite !forallb_app.
        destruct (Hotkey.r_ctrlKey r || Hotkey.r_metaKey r), (Hotkey.r_altKey r),
          (Hotkey.r_shiftKey r); cbn; rewrite NoPlus; reflexivity. }
    assert (NonEmpty : (sc ==? "") = false).
    { apply String.eqb_neq. intro H. rewrite H in Split. cbn in Split.
      unfold Hotkey.keysOf in Split. fold m in Split.
      destruct (Hotkey.r_ctrlKey r || Hotkey.r_metaKey r), (Hotkey.r_altKey r),
        (Hotkey.r_shiftKey r); cbn in Split; try discriminate Split.
      injection Split as E. apply NotEmpty. now symmetry. }
    assert (Neq : forall x, In x modifierNames -> x <> m).
    { intros x Hx E. apply NotMod. now subst. }
    assert (Fires :
              Hotkey.fires UiohookKey sc k
              = Bool.eqb (Hotkey.ctrlKey k) (Hotkey.r_ctrlKey r || Hotkey.r_metaKey r)
                && Bool.eqb (Hotkey.altKey k) (Hotkey.r_altKey r)
                && Bool.eqb (Hotkey.shiftKey k) (Hotkey.r_shiftKey r)
                && Bool.eqb (Hotkey.metaKey k) false
                && match UiohookKey m with
                   | Some target => Hotkey.keycode k =? target
                   | None => false
                   end).
    { unfold Hotkey.fires. rewrite NonEmpty, Split. cbv zeta.
      unfold Hotkey.keysOf. fold m. rewrite !app_assoc, last_last.
      rewrite !arrayIncludes_neq
        by (apply Neq; unfold modifierNames; cbn; tauto).
      destruct (Hotkey.r_ctrlKey r || Hotkey.r_metaKey r), (Hotkey.r_altKey r),
        (Hotkey.r_shiftKey r), (Hotkey.ctrlKey k), (Hotkey.altKey k),
        (Hotkey.shiftKey k), (Hotkey.metaKey k); reflexivity. }
    split; [exact Split|]. split.
    + rewrite Fires, !andb_true_iff, !Bool.eqb_true_iff.
      destruct (UiohookKey m) as [target|].
      * rewrite Z.eqb_eq. split.
        -- intros [[[[A B] C] D] E]. subst. tauto.
        -- intros [A [B [C [D E]]]]. injection E as <-. tauto.
      * split; [intros [_ H]; discriminate H
               | intros [_ [_ [_ [_ H]]]]; discriminate H].
    + intros _ Meta. rewrite Fires, Meta. cbn. rewrite andb_false_r. reflexivity.
  - intro Plus.
    assert (Split : Hotkey.splitOn Hotkey.plus sc = modifiers ++ [""; ""]).
    { unfold sc, modifiers, Hotkey.keysOf. fold m. rewrite Plus.
      destruct (Hotkey.r_ctrlKey r || Hotkey.r_metaKey r), (Hotkey.r_altKey r),
        (Hotkey.r_shiftKey r); reflexivity. }
    split; [exact Split|].
    unfold Hotkey.fires. rewrite Split. cbv zeta.
    change (modifiers ++ [""; ""]) with (modifiers ++ [""] ++ [""]).
    rewrite !app_assoc, last_last.
    destruct (sc ==? ""); [discriminate|].
    repeat match goal with
           | |- (if ?b then false else _) = true -> _ =>
               destruct b; [discriminate|]
           end.
    destruct (UiohookKey "") as [target|]; [|discriminate].
    intro H. apply Z.eqb_eq in H. now subst.
Qed.

Lemma hotkey_round_trip_witness :
  exists sc,
    Hotkey.handleKeyDown (fun x => x) true
      {| Hotkey.r_ctrlKey := false; Hotkey.r_altKey := true;
         Hotkey.r_shiftKey := false; Hotkey.r_metaKey := false;
         Hotkey.key := "F10" |} = Some sc
    /\ sc = "Alt+F10"
    /\ Hotkey.splitOn Hotkey.plus sc = ["Alt"; "F10"].
Proof.
  destruct (hotkey_round_trip (fun x => x) (fun _ => Some 68)
              {| Hotkey.r_ctrlKey := false; Hotkey.r_altKey := true;
                 Hotkey.r_shiftKey := false; Hotkey.r_metaKey := false;
                 Hotkey.key := "F10" |}
              {| Hotkey.ctrlKey := false; Hotkey.altKey := true;
                 Hotkey.shiftKey := false; Hotkey.metaKey := false;
                 Hotkey.keycode := 68 |} eq_refl)
    as [H [_ [T _]]].
  exists "Alt+F10". split; [exact H|]. split; [reflexivity|].
  destruct T as [S _].
  - reflexivity.
  - discriminate.
  - unfold modifierNames. cbn. intuition discriminate.
  - exact S.
Defined.

(** ** The buffer length, from the slider to the recorder *)

Lemma findFrom_found (bt : string) (opts : list (string * Z)) (i k : nat) :
  Slider.findFrom i opts bt = Some k ->
  exists o, nth_error opts (k - i) = Some o /\ Js.showZ (snd o) = bt /\ (i <= k)%nat.
Proof.
  revert i. induction opts as [|o rest IH]; intros i H; [discriminate H|].
  cbn [Slider.findFrom] in H.
  destruct (Js.showZ (snd o) ==? bt) eqn:E.
  - injection H as <-. exists o. rewrite Nat.sub_diag.
    apply String.eqb_eq in E. repeat split; [exact E | lia].
  - destruct (IH _ H) as [o' [N [Sh L]]]. exists o'.
    replace (k - i)%nat with (S (k - S i))%nat by lia.
    repeat split; [exact N | exact Sh | lia].
Qed.

(** X22.  Each of the nine positions of the buffer-length slider stores
    a string that the slider shows again at that same position and that
    [parseInt] reads as a positive whole number of seconds, so the
    recorder's 300-second fallback is not used for it; the data listener
    then retains that many seconds plus its margin.  A buffer time that
    no position stores is shown at position 6, the five-minute one. *)
Theorem slider_round_trip (i : nat) :
  (i < List.length Slider.bufferOptions)%nat ->
  (exists t v,
      Slider.onChange i = Some t
      /\ Slider.sliderIndex t = i
      /\ Js.parseInt t = Some v
      /\ 0 < v
      /\ forall c, bufferTime c = t ->
           Mem.bufferSecsOf c = v
           /\ forall now, Mem.cutoffAt c now = now - (v + Mem.margin) * 1000)
  /\ forall bt, (forall p, Slider.onChange p <> Some bt) ->
       Slider.sliderIndex bt = 6%nat.
Proof.
  intro H. split.
  - cbn [Slider.bufferOptions List.length] in H.
    do 9 (destruct i as [|i];
          [eexists; eexists; split; [reflexivity|];
           split; [reflexivity|]; split; [reflexivity|]; split; [reflexivity|];
           intros c E; unfold Mem.cutoffAt, Mem.bufferSecsOf; rewrite E;
           split; [reflexivity | intro now; reflexivity]|]).
    lia.
  - intros bt N. unfold Slider.sliderIndex.
    destruct (Slider.findFrom 0 Slider.bufferOptions bt) as [k|] eqn:F;
      [|reflexivity].
    exfalso. destruct (findFrom_found _ _ _ _ F) as [o [Nth [Sh _]]].
    apply (N (k - 0)%nat). unfold Slider.onChange. rewrite Nth. now rewrite Sh.
Qed.

Lemma slider_round_trip_witness :
  Slider.onChange 3 = Some "60" /\ Slider.sliderIndex "60" = 3%nat
  /\ Slider.sliderIndex "45" = 6%nat.
Proof.
  destruct (slider_round_trip 3) as [[t [v [A [B _]]]] C];
    [cbn; lia|].
  cbn in A. injection A as <-. split; [reflexivity|]. split; [exact B|].
  apply C. intros p. unfold Slider.onChange.
  do 9 (destruct p as [|p]; [vm_compute; discriminate|]).
  cbn. destruct p; discriminate.
Defined.

(** X23.  Let the configured buffer time be plain ASCII that reads, if as
    a number, as one of at most 2^40 in absolute value.  Whenever
    [saveReplay] of the in-memory revision hands out a job, the window its
    extraction asks for, the value after [-sseof], is the minus sign
    followed by [parseInt(config.bufferTime)] as it prints.  For a buffer
    time that reads as a non-zero number this is the number of seconds
    the data listener retains, margin apart; for one that reads as 0 or
    as NaN the listener retains 300 seconds while the extraction asks for
    [-0] or [-NaN]. *)
Theorem extraction_window (e : Env) (now : Z) (answers : list bool)
    (s : State) (j : Mem.Job) :
  readsWithin modest (bufferTime (config s)) = true ->
  completionOf (Mem.saveReplay e now answers s) = Normal (Some j) ->
  let secs := Js.parseInt (bufferTime (config s)) in
  Mem.bufferSecs j = secs
  /\ Planner.valuesOf "-sseof" (Mem.extractArgs j) = ["-" +++ Js.showNum secs]
  /\ (forall b, secs = Some b -> b <> 0 ->
      Z.abs b <= modest
      /\ forall t, clockRange t ->
           Mem.cutoffAt (config s) t = t - (b + Mem.margin) * 1000)
  /\ (secs = None \/ secs = Some 0 ->
      (forall t, clockRange t ->
         Mem.cutoffAt (config s) t = t - (300 + Mem.margin) * 1000)
      /\ In (Js.showNum secs) ["0"; "NaN"]).
Proof.
  intros Range H secs.
  assert (B : Mem.bufferSecs j = secs).
  { revert H. unfold Mem.saveReplay, bind, get, modify, emit, ret.
    destruct (isRecording s); [|discriminate]. cbn [negb].
    destruct (isSavingReplay s); [discriminate|].
    destruct (videoBuffer s) as [|c0 rest]; [discriminate|].
    destruct (totalBytes s <? 1024); [discriminate|].
    unfold Common.ensureDir, bind, emit, throw, ret.
    destruct (existsSync e _).
    - rewrite writeNext_run. cbn. intro H. injection H as <-. reflexivity.
    - destruct (mkdirThrows e _); [discriminate|].
      rewrite writeNext_run. cbn. intro H. injection H as <-. reflexivity. }
  split; [exact B|]. split.
  - unfold Mem.extractArgs. rewrite B. reflexivity.
  - split.
    + intros b E N. split.
      * unfold readsWithin in Range. apply andb_true_iff in Range.
        destruct Range as [_ Range]. fold secs in Range. rewrite E in Range.
        now apply Z.leb_le.
      * intros t _. unfold Mem.cutoffAt, Mem.bufferSecsOf, Js.parseIntOr.
        fold secs. rewrite E. apply Z.eqb_neq in N. now rewrite N.
    + intros [E|E]; (split; [intros t _; unfold Mem.cutoffAt, Mem.bufferSecsOf,
        Js.parseIntOr; fold secs; rewrite E; reflexivity|]);
        rewrite E; cbn; tauto.
Qed.

Lemma extraction_window_witness :
  exists j,
    completionOf (Mem.saveReplay quietEnv 7 [] bufferedState) = Normal (Some j)
    /\ Planner.valuesOf "-sseof" (Mem.extractArgs j) = ["-300"].
Proof.
  eexists. split; [reflexivity|].
  exact (proj1 (proj2 (extraction_window quietEnv 7 [] bufferedState _
                         eq_refl eq_refl))).
Defined.

(** ** The oldest revision's extraction *)

(** X24.  In the oldest revision, take a replay requested while
    recording, when the buffer directory can be listed and lists at least
    one [.ts] file, the list file can be written, and the output folder,
    a drive path in normal form, exists or can be created (the time stamp
    being a plain name).  The replay is built from every [.ts] file of
    the directory, each named once in the list file, in ascending order
    of the names, whatever its size and whatever the configured buffer
    time; one concat process is started on that list.  The call changes
    no variable of the program, so a second request made before the first
    process has ended starts a second process over the same list file. *)
Theorem oldest_saveReplay_takes_everything (e : Env) (newPid : nat)
    (s : State) (names : list string) :
  isRecording s = true ->
  readdirSync e (tempDir e) = Some names ->
  filter (Js.endsWith ".ts") names <> [] ->
  let listPath := Js.pathJoin (tempDir e) "concat.txt" in
  let folder := Js.strOr (outputFolder (config s)) (videos e) in
  writeThrows e listPath = false ->
  existsSync e folder = true \/ mkdirThrows e folder = false ->
  plainFolder folder = true ->
  plainName (artifactName e) = true ->
  let ns := Disk.sort (filter (Js.endsWith ".ts") names) in
  let out := Js.pathJoin folder (artifactName e) in
  Oldest.saveReplay e newPid s
  = (Normal (Some out), s,
     [WriteFile listPath
        (map (fun f => Oldest.concatLine (Js.pathJoin (tempDir e) f)) ns)]
     ++ (if existsSync e folder then [] else [Mkdir folder])
     ++ [Spawn newPid (Oldest.concatArgs listPath out) true])
  /\ Permutation ns (filter (Js.endsWith ".ts") names)
  /\ Sorted nameOrder ns
  /\ forall secondPid,
       filter isSpawn
         (effectsOf (Oldest.saveReplay e secondPid
                       (stateOf (Oldest.saveReplay e newPid s))))
       = [Spawn secondPid (Oldest.concatArgs listPath out) true].
Proof.
  intros R D NE listPath folder W F _ _ ns out.
  assert (Run : forall p,
             Oldest.saveReplay e p s
             = (Normal (Some out), s,
                [WriteFile listPath
                   (map (fun f => Oldest.concatLine (Js.pathJoin (tempDir e) f)) ns)]
                ++ (if existsSync e folder then [] else [Mkdir folder])
                ++ [Spawn p (Oldest.concatArgs listPath out) true])).
  { intro p. unfold Oldest.saveReplay, bind, get, emit, throw, ret.
    rewrite R, D. cbn [negb]. fold ns.
    assert (NS : ns <> []).
    { intro E. apply NE. apply Permutation_nil. rewrite <- E.
      apply sort_perm. }
    destruct ns as [|n0 nrest] eqn:Ens; [contradiction|].
    cbn [map]. fold listPath. rewrite W. fold folder.
    rewrite (ensureDir_ok e folder s F). rewrite map_map.
    destruct (existsSync e folder); reflexivity. }
  split; [apply Run|]. split; [apply sort_perm|]. split; [apply sort_sorted|].
  intro p2. rewrite (Run newPid). unfold stateOf. cbn [fst snd].
  rewrite (Run p2). unfold effectsOf. cbn [snd].
  destruct (existsSync e folder); reflexivity.
Qed.

Lemma oldest_saveReplay_takes_everything_witness :
  let e :=
    {| userData := userData quietEnv; videos := videos quietEnv;
       formatTime := formatTime quietEnv; windowLive := true;
       existsSync := fun _ => true; mkdirThrows := fun _ => false;
       readdirSync := fun _ => Some ["buffer_2.ts"; "concat.txt"; "buffer_1.ts"];
       statSync := fun _ => None; unlinkThrows := fun _ => false;
       writeThrows := fun _ => false |} in
  effectsOf (Oldest.saveReplay e 5 recordingState)
  = [WriteFile (Js.pathJoin (tempDir e) "concat.txt")
       [Oldest.concatLine (Js.pathJoin (tempDir e) "buffer_1.ts");
        Oldest.concatLine (Js.pathJoin (tempDir e) "buffer_2.ts")];
     Spawn 5
       (Oldest.concatArgs (Js.pathJoin (tempDir e) "concat.txt")
          (Js.pathJoin (videos e)
             ("ShadowWarp_Replay_" +++ formatTime e +++ ".mp4"))) true].
Proof.
  cbv zeta.
  assert (H := oldest_saveReplay_takes_everything
            {| userData := userData quietEnv; videos := videos quietEnv;
               formatTime := formatTime quietEnv; windowLive := true;
               existsSync := fun _ => true; mkdirThrows := fun _ => false;
               readdirSync :=
                 fun _ => Some ["buffer_2.ts"; "concat.txt"; "buffer_1.ts"];
               statSync := fun _ => None; unlinkThrows := fun _ => false;
               writeThrows := fun _ => false |}
            5 recordingState ["buffer_2.ts"; "concat.txt"; "buffer_1.ts"]
            eq_refl eq_refl ltac:(vm_compute; discriminate) eq_refl
            (or_introl eq_refl) eq_refl eq_refl).
  cbv zeta in H. destruct H as [H _]. rewrite H. reflexivity.
Defined.

(** ** The segment-file revision's extraction, end to end *)

(** X25.  In the segment-file revision, take a request made while
    recording, with no extraction in flight, at least one non-empty
    segment, a list file that can be written and an output folder that
    exists or can be created; let the folder be a drive path in normal
    form and the time stamp a plain name, the buffer time plain ASCII
    that reads as at most 2^40 if as a number, and the clock in the range
    of [Date.now()].  The request takes the lock and nothing else of the
    state, writes to the list file, and to no other file, one line per
    selected segment, in order, and starts exactly one process, the
    concat pass on that list.  The two passes are chained through one
    intermediate file: the concat pass writes it, the trim pass started
    by a successful concat reads it, asks for the configured number of
    seconds from its end and writes the artifact. *)
Theorem disk_saveReplay_two_passes (e : Env) (now : Z) (newPid trimPid : nat)
    (s : State) (names : list string) :
  isRecording s = true ->
  isSavingReplay s = false ->
  readdirSync e (tempDir e) = Some names ->
  let allFiles := Disk.statAll e (Disk.sort (filter (Js.endsWith ".ts") names)) in
  allFiles <> [] ->
  let listPath := Js.pathJoin (tempDir e) "concat.txt" in
  let folder := Js.strOr (outputFolder (config s)) (videos e) in
  writeThrows e listPath = false ->
  existsSync e folder = true \/ mkdirThrows e folder = false ->
  plainFolder folder = true ->
  plainName (artifactName e) = true ->
  readsWithin modest (bufferTime (config s)) = true ->
  clockRange now ->
  let secs := Js.parseInt (bufferTime (config s)) in
  let j :=
    {| Disk.bufferSecs := secs;
       Disk.outputFile := Js.pathJoin folder (artifactName e);
       Disk.tempConcatFile :=
         Js.pathJoin (tempDir e) ("temp_concat_" +++ Js.showZ now +++ ".mp4") |} in
  let r := Disk.saveReplay e now newPid s in
  completionOf r = Normal (Some j)
  /\ stateOf r = setIsSavingReplay true s
  /\ filter isWriteFile (effectsOf r)
     = [WriteFile listPath (map Disk.concatLine (Disk.selectFiles secs allFiles))]
  /\ filter isSpawn (effectsOf r)
     = [Spawn newPid (Disk.concatArgs listPath j) true]
  /\ notified (effectsOf r) = []
  /\ Planner.valuesOf "-i" (Disk.concatArgs listPath j) = [listPath]
  /\ last (Disk.concatArgs listPath j) "" = Disk.tempConcatFile j
  /\ filter isSpawn
       (effectsOf (Disk.onConcatExit e j (Some 0) trimPid (setIsSavingReplay true s)))
     = [Spawn trimPid (Disk.trimArgs j) true]
  /\ Planner.valuesOf "-i" (Disk.trimArgs j) = [Disk.tempConcatFile j]
  /\ Planner.valuesOf "-sseof" (Disk.trimArgs j) = ["-" +++ Js.showNum secs]
  /\ last (Disk.trimArgs j) "" = Disk.outputFile j.
Proof.
  intros R L D allFiles NE listPath folder W F _ _ _ _ secs j r.
  assert (Run : exists line,
             r = (Normal (Some j), setIsSavingReplay true s,
                  [WriteFile listPath
                     (map Disk.concatLine (Disk.selectFiles secs allFiles))]
                  ++ (if existsSync e folder then [] else [Mkdir folder])
                  ++ [Log line; Spawn newPid (Disk.concatArgs listPath j) true])).
  { subst r. unfold Disk.saveReplay, bind, get, modify, emit, throw, ret.
    rewrite R, L, D. cbn [negb]. fold allFiles.
    destruct allFiles as [|f0 frest] eqn:A; [contradiction|].
    fold listPath. rewrite W. fold folder.
    rewrite (ensureDir_ok e folder (setIsSavingReplay true s) F).
    fold secs. subst j. unfold artifactName.
    eexists. destruct (existsSync e folder); reflexivity. }
  destruct Run as [line Run]. rewrite Run.
  unfold completionOf, stateOf, effectsOf, notified. cbn [fst snd].
  rewrite !filter_app, !flat_map_app.
  destruct (existsSync e folder); repeat split.
Qed.

Lemma disk_saveReplay_two_passes_witness :
  let e :=
    {| userData := userData quietEnv; videos := videos quietEnv;
       formatTime := formatTime quietEnv; windowLive := true;
       existsSync := fun _ => true; mkdirThrows := fun _ => false;
       readdirSync := fun _ => Some ["buffer_2.ts"; "concat.txt"; "buffer_1.ts"];
       statSync := fun p => if Js.endsWith "buffer_1.ts" p then Some 0 else Some 4096;
       unlinkThrows := fun _ => false; writeThrows := fun _ => false |} in
  filter isWriteFile (effectsOf (Disk.saveReplay e 7 5 recordingState))
  = [WriteFile (Js.pathJoin (tempDir e) "concat.txt")
       [Disk.concatLine
          {| Disk.filePath := Js.pathJoin (tempDir e) "buffer_2.ts";
             Disk.size := 4096 |}]]
  /\ filter isSpawn (effectsOf (Disk.saveReplay e 7 5 recordingState))
     = [Spawn 5
          (Disk.concatArgs (Js.pathJoin (tempDir e) "concat.txt")
             {| Disk.bufferSecs := Some 300;
                Disk.outputFile :=
                  Js.pathJoin (videos e)
                    ("ShadowWarp_Replay_" +++ formatTime e +++ ".mp4");
                Disk.tempConcatFile :=
                  Js.pathJoin (tempDir e) "temp_concat_7.mp4" |}) true].
Proof.
  cbv zeta.
  assert (C : clockRange 7) by (unfold clockRange; lia).
  assert (H := disk_saveReplay_two_passes
            {| userData := userData quietEnv; videos := videos quietEnv;
               formatTime := formatTime quietEnv; windowLive := true;
               existsSync := fun _ => true; mkdirThrows := fun _ => false;
               readdirSync :=
                 fun _ => Some ["buffer_2.ts"; "concat.txt"; "buffer_1.ts"];
               statSync :=
                 fun p => if Js.endsWith "buffer_1.ts" p then Some 0 else Some 4096;
               unlinkThrows := fun _ => false; writeThrows := fun _ => false |}
            7 5%nat 6%nat recordingState
            ["buffer_2.ts"; "concat.txt"; "buffer_1.ts"]
            eq_refl eq_refl eq_refl ltac:(vm_compute; discriminate) eq_refl
            (or_introl eq_refl) eq_refl eq_refl eq_refl C).
  cbv zeta in H. destruct H as [_ [_ [H1 [H2 _]]]].
  split; [exact H1 | exact H2].
Defined.

Lemma writeNext_in_order_witness :
  exists w rest,
    Mem.writeNext
      {| Mem.bufferSecs := Some 300; Mem.outputFile := "out.mp4";
         Mem.tempDump := "dump_1.ts";
         Mem.pending := [[Byte.x01]; [Byte.x02]; [Byte.x03]] |}
      [true; false] (initialState defaultConfig)
    = (Normal
         (Mem.withPending
            {| Mem.bufferSecs := Some 300; Mem.outputFile := "out.mp4";
               Mem.tempDump := "dump_1.ts";
               Mem.pending := [[Byte.x01]; [Byte.x02]; [Byte.x03]] |} rest),
       initialState defaultConfig,
       map (StreamWrite "dump_1.ts") w
       ++ match rest with [] => [StreamEnd "dump_1.ts"] | _ => [] end)
    /\ w <> [].
Proof.
  destruct (writeNext_in_order
              {| Mem.bufferSecs := Some 300; Mem.outputFile := "out.mp4";
                 Mem.tempDump := "dump_1.ts";
                 Mem.pending := [[Byte.x01]; [Byte.x02]; [Byte.x03]] |}
              [true; false] (initialState defaultConfig))
    as [w [rest [H [_ P]]]].
  exists w, rest. split; [exact H|]. apply P. discriminate.
Defined.
